(** * A shallow embedding of the binary loader (ch4/inc/loader.cpp)

    The loader fills a caller-supplied [Binary] from one of two parsing
    libraries: libelfmaster ("Backend A", functions [*_lem]) and BFD
    ("Backend B", functions [*_bfd]).  Both libraries are outside the
    repository; what they report about a file is an input of the model
    ([Env]).  The C heap is a finite map from addresses to byte buffers,
    [malloc] may fail at any call, and what C leaves undefined is [None]:
    [free] of an address that is not live, [memcpy] from a source or to a
    buffer shorter than the count, closing a handle that is not open.  The
    handles the libraries give out are counted. *)

From Stdlib Require Import ZArith NArith List String Bool Lia.
From Stdlib.Strings Require Import Byte.
From stdpp Require Import base option list gmap strings.

Local Open Scope Z_scope.

(** ** The binary model *)

Module Model.

(** Modelled from the spec: loader.hpp is not part of the sources; the
    enumerations and the fields of [Symbol], [Section] and [Binary] are the
    ones loader.cpp reads and writes, with the kinds of section 3 of the
    specification. *)
Inductive BinaryType := BIN_TYPE_AUTO | BIN_TYPE_ELF | BIN_TYPE_PE.

(** Modelled from the spec: loader.hpp is not part of the sources. *)
Inductive BinaryArch := ARCH_NONE | ARCH_X86.

(** Modelled from the spec: loader.hpp is not part of the sources. *)
Inductive SectionType := SEC_TYPE_NONE | SEC_TYPE_CODE | SEC_TYPE_DATA.

(** Modelled from the spec: loader.hpp is not part of the sources. *)
Inductive SymbolType := SYM_TYPE_UKN | SYM_TYPE_FUNC.

(** Modelled from the spec: loader.hpp is not part of the sources.
    [type], [name], [addr]. *)
Record Symbol := mkSymbol {
  sym_type : SymbolType;
  sym_name : string;
  sym_addr : N
}.

(** A pointer is an address; [NULL] is address 0. *)
Definition NULL : N := 0%N.

(** Modelled from the spec: loader.hpp is not part of the sources.
    [binary] (the address of the owning [Binary]), [name], [type], [vma],
    [size], [bytes] (the address of the buffer, or [NULL]). *)
Record Section := mkSection {
  sec_binary : N;
  sec_name : string;
  sec_type : SectionType;
  sec_vma : N;
  sec_size : N;
  sec_bytes : N
}.

(** Modelled from the spec: loader.hpp is not part of the sources.
    [filename], [type], [type_str], [arch], [arch_str], [bits], [entry],
    [sections], [symbols]. *)
Record Binary := mkBinary {
  bin_filename : string;
  bin_type : BinaryType;
  bin_type_str : string;
  bin_arch : BinaryArch;
  bin_arch_str : string;
  bin_bits : Z;
  bin_entry : N;
  sections : list Section;
  symbols : list Symbol
}.

(** Modelled from the spec: loader.hpp is not part of the sources.
    [Binary()], the empty object a caller creates before [load_binary]. *)
Definition Binary_new : Binary :=
  mkBinary "" BIN_TYPE_AUTO "" ARCH_NONE "" 0 0%N [] [].

(** Field assignments [bin->f = v]. *)
Definition set_filename (v : string) (b : Binary) : Binary :=
  mkBinary v (bin_type b) (bin_type_str b) (bin_arch b) (bin_arch_str b)
           (bin_bits b) (bin_entry b) (sections b) (symbols b).
Definition set_type (v : BinaryType) (b : Binary) : Binary :=
  mkBinary (bin_filename b) v (bin_type_str b) (bin_arch b) (bin_arch_str b)
           (bin_bits b) (bin_entry b) (sections b) (symbols b).
Definition set_type_str (v : string) (b : Binary) : Binary :=
  mkBinary (bin_filename b) (bin_type b) v (bin_arch b) (bin_arch_str b)
           (bin_bits b) (bin_entry b) (sections b) (symbols b).
Definition set_arch (v : BinaryArch) (b : Binary) : Binary :=
  mkBinary (bin_filename b) (bin_type b) (bin_type_str b) v (bin_arch_str b)
           (bin_bits b) (bin_entry b) (sections b) (symbols b).
Definition set_arch_str (v : string) (b : Binary) : Binary :=
  mkBinary (bin_filename b) (bin_type b) (bin_type_str b) (bin_arch b) v
           (bin_bits b) (bin_entry b) (sections b) (symbols b).
Definition set_bits (v : Z) (b : Binary) : Binary :=
  mkBinary (bin_filename b) (bin_type b) (bin_type_str b) (bin_arch b)
           (bin_arch_str b) v (bin_entry b) (sections b) (symbols b).
Definition set_entry (v : N) (b : Binary) : Binary :=
  mkBinary (bin_filename b) (bin_type b) (bin_type_str b) (bin_arch b)
           (bin_arch_str b) (bin_bits b) v (sections b) (symbols b).
Definition set_sections (v : list Section) (b : Binary) : Binary :=
  mkBinary (bin_filename b) (bin_type b) (bin_type_str b) (bin_arch b)
           (bin_arch_str b) (bin_bits b) (bin_entry b) v (symbols b).
Definition set_symbols (v : list Symbol) (b : Binary) : Binary :=
  mkBinary (bin_filename b) (bin_type b) (bin_type_str b) (bin_arch b)
           (bin_arch_str b) (bin_bits b) (bin_entry b) (sections b) v.

(** [bin->sections.push_back(s)] and [bin->symbols.push_back(s)]. *)
Definition push_section (s : Section) (b : Binary) : Binary :=
  set_sections (sections b ++ [s]) b.
Definition push_symbol (s : Symbol) (b : Binary) : Binary :=
  set_symbols (symbols b ++ [s]) b.

(** [sec.bytes = NULL]. *)
Definition clear_bytes (s : Section) : Section :=
  mkSection (sec_binary s) (sec_name s) (sec_type s) (sec_vma s)
            (sec_size s) NULL.

End Model.
Export Model.

(** ** What the two libraries report *)

Module Lem.

(** [elf_arch_t] of libelfmaster. *)
Inductive elf_arch_t := i386 | x64 | unsupported.

(** One call of an iterator's [next]: [ELF_ITER_OK] with the entry, or one
    of the results that end the [while] loops of the loader. *)
Inductive elf_iter_step (A : Type) :=
  | ELF_ITER_OK (x : A)
  | ELF_ITER_DONE
  | ELF_ITER_ERROR.
Arguments ELF_ITER_OK {A} x.
Arguments ELF_ITER_DONE {A}.
Arguments ELF_ITER_ERROR {A}.

(** [struct elf_symbol]: the fields the loader reads. *)
Record elf_symbol := mk_elf_symbol {
  es_name : string;
  es_value : N;
  es_type : Z
}.

(** [struct elf_section]: the fields the loader reads; [esec_name] is
    [None] for a null [name], [esec_data] is what [elf_section_pointer]
    points to. *)
Record elf_section := mk_elf_section {
  esec_name : option string;
  esec_type : Z;
  esec_flags : Z;
  esec_address : N;
  esec_size : N;
  esec_data : list byte
}.

(** [elfobj_t] after a successful [elf_open_object]: the fields and
    accessors the loader uses.  An iterator is the list of the results of
    its successive [next] calls; past the end of the list it answers
    [ELF_ITER_DONE]. *)
Record elfobj_t := mk_elfobj {
  obj_arch : elf_arch_t;
  obj_flags : Z;
  obj_entry_point : N;
  obj_symtab : list (elf_iter_step elf_symbol);
  obj_dynsym : list (elf_iter_step elf_symbol);
  obj_sections : list (elf_iter_step elf_section)
}.

End Lem.
Export Lem.

Module Bfd.

(** [enum bfd_flavour]: the three flavours the loader names, and the
    others. *)
Inductive bfd_flavour :=
  | bfd_target_unknown_flavour
  | bfd_target_elf_flavour
  | bfd_target_coff_flavour
  | bfd_target_other_flavour (n : Z).

(** [asymbol]: [name], [flags], and [bfd_asymbol_value]. *)
Record asymbol := mk_asymbol {
  as_name : string;
  as_flags : Z;
  as_value : N
}.

(** [asection]: flags, vma, size, name ([None] for a null name) and the
    outcome of [bfd_get_section_contents] on it ([None] when it fails). *)
Record asection := mk_asection {
  bs_flags : Z;
  bs_vma : N;
  bs_size : N;
  bs_name : option string;
  bs_contents : option (list byte)
}.

(** [enum bfd_architecture]: the architectures the samples name, and the
    others. *)
Inductive bfd_architecture :=
  | bfd_arch_unknown
  | bfd_arch_m68k
  | bfd_arch_i386
  | bfd_arch_aarch64
  | bfd_arch_other (n : Z).

(** [bfd_arch_info_type]: [arch], [mach] (a number that identifies the
    machine among those of [arch] only) and [printable_name].  The loader
    reads [mach] and [printable_name]. *)
Record bfd_arch_info_type := mk_arch_info {
  arch : bfd_architecture;
  printable_name : string;
  mach : Z
}.

(** [bfd] handle returned by [bfd_openr]: the outcome of
    [bfd_check_format (h, bfd_object)], [xvec->name], [xvec->flavour]
    (which is also what [bfd_get_flavour] reads), the start address, the
    architecture, the symbol-table upper bounds, the canonicalised tables
    ([None] for a negative count) and the linked list of sections. *)
Record bfd := mk_bfd {
  check_format_object : bool;
  xvec_name : string;
  xvec_flavour : bfd_flavour;
  start_address : N;
  arch_info : bfd_arch_info_type;
  symtab_upper_bound : Z;
  canonicalize_symtab : option (list asymbol);
  dynamic_symtab_upper_bound : Z;
  canonicalize_dynamic_symtab : option (list asymbol);
  bfd_sections : list asection
}.

End Bfd.
Export Bfd.

(** ** Environment and world *)

(** The constants of the library headers are parameters; the allocator and
    the two libraries are oracles: [malloc_ok k n] tells whether the [k]-th
    call of [malloc], asking for [n] bytes, succeeds. *)
Record Env := mkEnv {
  (* libelfmaster.h, elf.h *)
  ELF_SYMTAB_F : Z;
  ELF_DYNSYM_F : Z;
  ELF_SHDRS_F : Z;
  SHT_NOBITS : Z;
  SHF_EXECINSTR : Z;
  SHF_ALLOC : Z;
  STT_FUNC : Z;
  (* bfd.h *)
  BSF_FUNCTION : Z;
  SEC_CODE : Z;
  SEC_DATA : Z;
  SEC_HAS_CONTENTS : Z; (* never read by the loader: set on the sections
                           that have bytes in the file *)
  bfd_mach_i386_i386 : Z;
  bfd_mach_x86_64 : Z;
  (* the world outside *)
  malloc_ok : nat → N → bool;
  elf_open_object : string → option elfobj_t;
  bfd_openr : string → option bfd
}.

(** The functions of loader.cpp whose calls are recorded. *)
Inductive Fn :=
  | load_binary_lem_fn | load_symbols_lem_fn | load_dynsym_lem_fn
  | load_sections_lem_fn
  | load_binary_bfd_fn | open_bfd_fn | load_symbols_bfd_fn
  | load_dynsym_bfd_fn | load_sections_bfd_fn.

(** The diagnostics written to stderr, one per [fprintf] of the source. *)
Inductive Diag :=
  | failed_to_open_binary
  | does_not_look_like_an_executable
  | unrecognized_format
  | failed_to_read_symtab
  | failed_to_allocate_symtab
  | failed_to_read_dynsym
  | failed_to_allocate_dynsym
  | failed_to_allocate_section (name : string) (size : N)
  | failed_to_read_section (name : string)
  | unsupported_binary_type
  | unsupported_architecture.

(** What a run leaves in the log: the entry of a function, or a line on
    stderr. *)
Inductive Event :=
  | call (f : Fn)
  | stderr (d : Diag).

(** The heap of live buffers, the number of [malloc] calls so far, the
    static flag of [open_bfd], the number of library handles that are open
    (given out by [elf_open_object] or [bfd_openr] and not yet closed), and
    the events so far (oldest first). *)
Record World := mkWorld {
  heap : gmap N (list byte);
  mallocs : nat;
  bfd_inited : bool;
  handles : nat;
  trace : list Event
}.

(** The world of a process that has not allocated, opened or logged
    anything. *)
Definition World_new : World := mkWorld ∅ 0%nat false 0%nat [].

(** ** The monad of the loader: state [World], undefined behaviour [None] *)

(** A computation of the loader. *)
Definition M (A : Type) : Type := World → option (A * World).

(** Returning a value, and sequencing two computations. *)
Definition ret {A} (a : A) : M A := λ w, Some (a, w).

Definition bind {A B} (m : M A) (k : A → M B) : M B :=
  λ w, match m w with
       | Some (a, w') => k a w'
       | None => None
       end.

Declare Scope loader_scope.
Delimit Scope loader_scope with loader.
Notation "x <- m ;; k" := (bind m (λ x, k))
  (at level 100, m at next level, right associativity) : loader_scope.
Notation "m ;;; k" := (bind m (λ _, k))
  (at level 100, right associativity) : loader_scope.
Local Open Scope loader_scope.

(** [fprintf (stderr, ...)] and the record of a call. *)
Definition log (e : Event) : M unit :=
  λ w, Some (tt, mkWorld (heap w) (mallocs w) (bfd_inited w) (handles w)
                         (trace w ++ [e])).

(** The world with [n] open handles. *)
Definition set_handles (n : nat) (w : World) : World :=
  mkWorld (heap w) (mallocs w) (bfd_inited w) n (trace w).

(** A library call has given out a handle. *)
Definition open_handle : M unit :=
  λ w, Some (tt, set_handles (S (handles w)) w).

(** [elf_close_object] and [bfd_close]: undefined without an open
    handle. *)
Definition close_handle : M unit :=
  λ w, match handles w with
       | S n => Some (tt, set_handles n w)
       | O => None
       end.

(** An address that is neither [NULL] nor live. *)
Definition fresh_ptr (h : gmap N (list byte)) : N := fresh ({[NULL]} ∪ dom h).

(** [(flags & mask) != 0]. *)
Definition has_flag (flags mask : Z) : bool := negb (Z.land flags mask =? 0).

(** The buffer [dst] after a library has written into it the first [n]
    bytes of [src], or all of [src] when it is shorter. *)
Definition overwrite (dst src : list byte) (n : nat) : list byte :=
  take n src ++ drop (length (take n src)) dst.

Section Loader.

Variable env : Env.

(** [malloc (n)]: [NULL] when the allocator refuses, else a fresh address
    with [n] bytes behind it. *)
Definition malloc (n : N) : M N :=
  λ w,
    if malloc_ok env (mallocs w) n then
      let p := fresh_ptr (heap w) in
      Some (p, mkWorld (<[p := repeat x00 (N.to_nat n)]> (heap w))
                       (S (mallocs w)) (bfd_inited w) (handles w) (trace w))
    else
      Some (NULL, mkWorld (heap w) (S (mallocs w)) (bfd_inited w)
                          (handles w) (trace w)).

(** [free (p)]: nothing for [NULL], undefined for an address that is not
    live. *)
Definition free (p : N) : M unit :=
  λ w,
    if (p =? NULL)%N then Some (tt, w)
    else match heap w !! p with
         | Some _ =>
             Some (tt, mkWorld (delete p (heap w)) (mallocs w)
                               (bfd_inited w) (handles w) (trace w))
         | None => None
         end.

(** A successful [bfd_get_section_contents (bfd_h, bfd_sec, p, 0, n)]:
    the library writes the contents [src] of the section into the live
    buffer at [p]. *)
Definition store_bytes (p : N) (src : list byte) (n : N) : M unit :=
  λ w,
    match heap w !! p with
    | Some buf =>
        Some (tt, mkWorld (<[p := overwrite buf src (N.to_nat n)]> (heap w))
                          (mallocs w) (bfd_inited w) (handles w) (trace w))
    | None => None
    end.

(** [memcpy (p, src, n)]: undefined when [p] is not live, when the buffer
    at [p] has fewer than [n] bytes, and when [src] has fewer than [n]
    bytes. *)
Definition memcpy (p : N) (src : list byte) (n : N) : M unit :=
  λ w,
    match heap w !! p with
    | Some buf =>
        if (N.to_nat n <=? length buf)%nat && (N.to_nat n <=? length src)%nat
        then
          Some (tt, mkWorld (<[p := take (N.to_nat n) src
                                    ++ drop (N.to_nat n) buf]> (heap w))
                            (mallocs w) (bfd_inited w) (handles w) (trace w))
        else None
    | None => None
    end.

(** The loop
    [for (auto &sec : bin->sections) if (sec.bytes) { free (sec.bytes); sec.bytes = NULL; }]
    which is the body of [unload_binary] and the [fail:] block of both
    [load_sections_bfd] and [load_sections_lem]. *)
Fixpoint release_sections (secs : list Section) : M (list Section) :=
  match secs with
  | [] => ret []
  | sec :: rest =>
      sec' <- (if (sec_bytes sec =? NULL)%N then ret sec
               else free (sec_bytes sec) ;;; ret (clear_bytes sec)) ;;
      rest' <- release_sections rest ;;
      ret (sec' :: rest')
  end.

(** [unload_binary]: the release loop on the sections of [bin]. *)
Definition unload_binary (bin : Binary) : M Binary :=
  secs <- release_sections (sections bin) ;;
  ret (set_sections secs bin).

(** *** Backend A: libelfmaster *)

(** [s.type = SYM_TYPE_FUNC; s.name = symbol.name; s.addr = symbol.value]. *)
Definition symbol_of_elf (symbol : elf_symbol) : Symbol :=
  mkSymbol SYM_TYPE_FUNC (es_name symbol) (es_value symbol).

(** The [while] loop of [load_symbols_lem] and of [load_dynsym_lem]: it
    runs as long as [next] answers [ELF_ITER_OK]. *)
Fixpoint symbols_lem_loop (iter : list (elf_iter_step elf_symbol))
    (bin : Binary) : Binary :=
  match iter with
  | ELF_ITER_OK symbol :: iter' =>
      if es_type symbol =? STT_FUNC env
      then symbols_lem_loop iter' (push_symbol (symbol_of_elf symbol) bin)
      else symbols_lem_loop iter' bin
  | _ => bin
  end.

Definition load_symbols_lem (obj : elfobj_t) (bin : Binary) : M (Z * Binary) :=
  log (call load_symbols_lem_fn) ;;;
  if negb (has_flag (obj_flags obj) (ELF_SYMTAB_F env)) then ret (0, bin)
  else ret (0, symbols_lem_loop (obj_symtab obj) bin).

Definition load_dynsym_lem (obj : elfobj_t) (bin : Binary) : M (Z * Binary) :=
  log (call load_dynsym_lem_fn) ;;;
  if negb (has_flag (obj_flags obj) (ELF_DYNSYM_F env)) then ret (0, bin)
  else ret (0, symbols_lem_loop (obj_dynsym obj) bin).

(** The classification of an ELF section: [None] is [continue]. *)
Definition section_type_lem (section : elf_section) : option SectionType :=
  if esec_type section =? SHT_NOBITS env then None
  else if has_flag (esec_flags section) (SHF_EXECINSTR env)
       then Some SEC_TYPE_CODE
  else if has_flag (esec_flags section) (SHF_ALLOC env)
       then Some SEC_TYPE_DATA
  else None.

(** [section.name ? section.name : "<unnamed>"]. *)
Definition name_or_unnamed (name : option string) : string :=
  match name with Some n => n | None => "<unnamed>" end.

(** The [while] loop of [load_sections_lem]; the result is [false] when
    the loop leaves through [goto fail]. *)
Fixpoint sections_lem_loop (pbin : N) (iter : list (elf_iter_step elf_section))
    (bin : Binary) : M (bool * Binary) :=
  match iter with
  | ELF_ITER_OK section :: iter' =>
      match section_type_lem section with
      | None => sections_lem_loop pbin iter' bin
      | Some type =>
          let name := name_or_unnamed (esec_name section) in
          let size := esec_size section in
          bytes <- malloc size ;;
          if (bytes =? NULL)%N then
            log (stderr (failed_to_allocate_section name size)) ;;;
            ret (false, bin)
          else
            memcpy bytes (esec_data section) size ;;;
            sections_lem_loop pbin iter'
              (push_section
                 (mkSection pbin name type (esec_address section) size bytes)
                 bin)
      end
  | _ => ret (true, bin)
  end.

Definition load_sections_lem (pbin : N) (obj : elfobj_t) (bin : Binary)
    : M (Z * Binary) :=
  log (call load_sections_lem_fn) ;;;
  if negb (has_flag (obj_flags obj) (ELF_SHDRS_F env)) then ret (0, bin)
  else
    r <- sections_lem_loop pbin (obj_sections obj) bin ;;
    if r.1 then ret (0, r.2)
    else
      secs <- release_sections (sections r.2) ;;
      ret (-1, set_sections secs r.2).

(** [load_binary_lem]: once the object is open, every path ends in
    [cleanup:], where [elf_close_object] closes it. *)
Definition load_binary_lem (fname : string) (pbin : N) (bin : Binary)
    : M (Z * Binary) :=
  log (call load_binary_lem_fn) ;;;
  match elf_open_object env fname with
  | None => ret (-1, bin)
  | Some obj =>
      open_handle ;;;
      let bin := set_filename fname bin in
      let bin := set_type BIN_TYPE_ELF bin in
      let bin := set_entry (obj_entry_point obj) bin in
      let bin := set_type_str "unknown" bin in
      let after_arch (bin : Binary) : M (Z * Binary) :=
        r1 <- load_symbols_lem obj bin ;;
        r2 <- load_dynsym_lem obj r1.2 ;;
        r3 <- load_sections_lem pbin obj r2.2 ;;
        if r3.1 <? 0 then ret (-1, r3.2) else ret (0, r3.2) in
      r <- match obj_arch obj with
           | i386 =>
               after_arch
                 (set_bits 32 (set_arch ARCH_X86 (set_arch_str "X86" bin)))
           | x64 =>
               after_arch
                 (set_bits 64 (set_arch ARCH_X86 (set_arch_str "X86_64" bin)))
           | unsupported =>
               log (stderr unsupported_architecture) ;;; ret (-1, bin)
           end ;;
      close_handle ;;;
      ret r
  end.

(** *** Backend B: BFD *)

(** [open_bfd]: the two [return NULL] that follow a successful
    [bfd_openr] leave the handle open. *)
Definition open_bfd (fname : string) : M (option bfd) :=
  log (call open_bfd_fn) ;;;
  (λ w, Some (tt, mkWorld (heap w) (mallocs w) true (handles w) (trace w))) ;;;
  match bfd_openr env fname with
  | None => log (stderr failed_to_open_binary) ;;; ret None
  | Some bfd_h =>
      open_handle ;;;
      if negb (check_format_object bfd_h) then
        log (stderr does_not_look_like_an_executable) ;;; ret None
      else
        match xvec_flavour bfd_h with
        | bfd_target_unknown_flavour =>
            log (stderr unrecognized_format) ;;; ret None
        | _ => ret (Some bfd_h)
        end
  end.

(** [sym->type = SYM_TYPE_FUNC; sym->name = ...->name; sym->addr = bfd_asymbol_value (...)]. *)
Definition symbol_of_bfd (sym : asymbol) : Symbol :=
  mkSymbol SYM_TYPE_FUNC (as_name sym) (as_value sym).

(** The [for] loop of [load_symbols_bfd] and of [load_dynsym_bfd]. *)
Fixpoint symbols_bfd_loop (tab : list asymbol) (bin : Binary) : Binary :=
  match tab with
  | [] => bin
  | sym :: tab' =>
      if has_flag (as_flags sym) (BSF_FUNCTION env)
      then symbols_bfd_loop tab' (push_symbol (symbol_of_bfd sym) bin)
      else symbols_bfd_loop tab' bin
  end.

(** The common body of [load_symbols_bfd] and [load_dynsym_bfd], which
    differ in the table they read and in their messages. *)
Definition load_table_bfd (n : Z) (canon : option (list asymbol))
    (read_failed alloc_failed : Diag) (bin : Binary) : M (Z * Binary) :=
  if n <? 0 then log (stderr read_failed) ;;; ret (-1, bin)
  else if n =? 0 then ret (0, bin)
  else
    tab <- malloc (Z.to_N n) ;;
    if (tab =? NULL)%N then log (stderr alloc_failed) ;;; ret (-1, bin)
    else
      match canon with
      | None => log (stderr read_failed) ;;; free tab ;;; ret (-1, bin)
      | Some syms => free tab ;;; ret (0, symbols_bfd_loop syms bin)
      end.

Definition load_symbols_bfd (bfd_h : bfd) (bin : Binary) : M (Z * Binary) :=
  log (call load_symbols_bfd_fn) ;;;
  load_table_bfd (symtab_upper_bound bfd_h) (canonicalize_symtab bfd_h)
    failed_to_read_symtab failed_to_allocate_symtab bin.

Definition load_dynsym_bfd (bfd_h : bfd) (bin : Binary) : M (Z * Binary) :=
  log (call load_dynsym_bfd_fn) ;;;
  load_table_bfd (dynamic_symtab_upper_bound bfd_h)
    (canonicalize_dynamic_symtab bfd_h)
    failed_to_read_dynsym failed_to_allocate_dynsym bin.

(** The classification of a BFD section: [None] is [continue]. *)
Definition section_type_bfd (bfd_sec : asection) : option SectionType :=
  if has_flag (bs_flags bfd_sec) (SEC_CODE env) then Some SEC_TYPE_CODE
  else if has_flag (bs_flags bfd_sec) (SEC_DATA env) then Some SEC_TYPE_DATA
  else None.

(** The [for] loop of [load_sections_bfd]: the section is pushed before
    its buffer is allocated, so it stays in the vector when the loop
    leaves through [goto fail] ([false]). *)
Fixpoint sections_bfd_loop (pbin : N) (secs : list asection) (bin : Binary)
    : M (bool * Binary) :=
  match secs with
  | [] => ret (true, bin)
  | bfd_sec :: next =>
      match section_type_bfd bfd_sec with
      | None => sections_bfd_loop pbin next bin
      | Some sectype =>
          let secname := name_or_unnamed (bs_name bfd_sec) in
          let size := bs_size bfd_sec in
          bytes <- malloc size ;;
          let bin :=
            push_section
              (mkSection pbin secname sectype (bs_vma bfd_sec) size bytes)
              bin in
          if (bytes =? NULL)%N then
            log (stderr (failed_to_allocate_section secname size)) ;;;
            ret (false, bin)
          else
            match bs_contents bfd_sec with
            | None =>
                log (stderr (failed_to_read_section secname)) ;;;
                ret (false, bin)
            | Some data =>
                store_bytes bytes data size ;;;
                sections_bfd_loop pbin next bin
            end
      end
  end.

Definition load_sections_bfd (pbin : N) (bfd_h : bfd) (bin : Binary)
    : M (Z * Binary) :=
  log (call load_sections_bfd_fn) ;;;
  r <- sections_bfd_loop pbin (bfd_sections bfd_h) bin ;;
  if r.1 then ret (0, r.2)
  else
    secs <- release_sections (sections r.2) ;;
    ret (-1, set_sections secs r.2).

(** [load_binary_bfd]; the [type] argument is not read.  In [cleanup:]
    [bfd_close] closes the handle [open_bfd] returned, if it returned
    one. *)
Definition load_binary_bfd (fname : string) (pbin : N) (bin : Binary)
    (type : BinaryType) : M (Z * Binary) :=
  log (call load_binary_bfd_fn) ;;;
  h <- open_bfd fname ;;
  match h with
  | None => ret (-1, bin)
  | Some bfd_h =>
      let bin := set_filename fname bin in
      let bin := set_entry (start_address bfd_h) bin in
      let bin := set_type_str (xvec_name bfd_h) bin in
      let after_arch (bin : Binary) : M (Z * Binary) :=
        r1 <- load_symbols_bfd bfd_h bin ;;
        r2 <- load_dynsym_bfd bfd_h r1.2 ;;
        r3 <- load_sections_bfd pbin bfd_h r2.2 ;;
        if r3.1 <? 0 then ret (-1, r3.2) else ret (0, r3.2) in
      let after_type (bin : Binary) : M (Z * Binary) :=
        let bfd_info := arch_info bfd_h in
        let bin := set_arch_str (printable_name bfd_info) bin in
        if mach bfd_info =? bfd_mach_i386_i386 env then
          after_arch (set_bits 32 (set_arch ARCH_X86 bin))
        else if mach bfd_info =? bfd_mach_x86_64 env then
          after_arch (set_bits 64 (set_arch ARCH_X86 bin))
        else
          log (stderr unsupported_architecture) ;;; ret (-1, bin) in
      r <- match xvec_flavour bfd_h with
           | bfd_target_elf_flavour => after_type (set_type BIN_TYPE_ELF bin)
           | bfd_target_coff_flavour => after_type (set_type BIN_TYPE_PE bin)
           | _ => log (stderr unsupported_binary_type) ;;; ret (-1, bin)
           end ;;
      close_handle ;;;
      ret r
  end.

(** *** The dispatcher *)

(** [load_binary]: the [AUTO]/[ELF] case falls through to the [PE] case
    when libelfmaster failed and the type is not [ELF]. *)
Definition load_binary (fname : string) (pbin : N) (bin : Binary)
    (type : BinaryType) : M (Z * Binary) :=
  match type with
  | BIN_TYPE_AUTO | BIN_TYPE_ELF =>
      r <- load_binary_lem fname pbin bin ;;
      if (r.1 =? 0) || (match type with BIN_TYPE_ELF => true | _ => false end)
      then ret r
      else load_binary_bfd fname pbin r.2 type
  | BIN_TYPE_PE => load_binary_bfd fname pbin bin type
  end.

End Loader.

(** ** Specification: ownership, plans and outcomes *)

(** The addresses of the buffers the sections hold, in order. *)
Definition live_ptrs (secs : list Section) : list N :=
  filter (λ p, p ≠ NULL) (sec_bytes <$> secs).

(** A [Binary] owns its buffers when the non-null [bytes] of its sections
    are pairwise distinct and live. *)
Definition owns (h : gmap N (list byte)) (secs : list Section) : Prop :=
  NoDup (live_ptrs secs) ∧ Forall (λ p, is_Some (h !! p)) (live_ptrs secs).

(** The heap after freeing the addresses [ps]. *)
Fixpoint delete_all (ps : list N) (h : gmap N (list byte))
    : gmap N (list byte) :=
  match ps with
  | [] => h
  | p :: ps' => delete_all ps' (delete p h)
  end.

(** A section whose buffer is live and has the declared size. *)
Definition sized (h : gmap N (list byte)) (s : Section) : Prop :=
  sec_bytes s ≠ NULL ∧
  ∃ buf, h !! sec_bytes s = Some buf ∧ length buf = N.to_nat (sec_size s).

(** Everything of a section but its buffer. *)
Definition sec_meta (s : Section) : N * string * SectionType * N * N :=
  (sec_binary s, sec_name s, sec_type s, sec_vma s, sec_size s).

(** The events logged between two worlds. *)
Definition new_events (w w' : World) : list Event :=
  drop (length (trace w)) (trace w').

(** A function of the loader was entered between two worlds. *)
Definition invoked (f : Fn) (w w' : World) : Prop :=
  call f ∈ new_events w w'.

(** The entries an iterator yields before its first result other than
    [ELF_ITER_OK]. *)
Fixpoint yielded {A} (iter : list (elf_iter_step A)) : list A :=
  match iter with
  | ELF_ITER_OK x :: iter' => x :: yielded iter'
  | _ => []
  end.

(** The heap [h'] is [h] with fresh buffers for the sections [new]. *)
Definition extends_heap (h h' : gmap N (list byte)) (new : list Section)
    : Prop :=
  Forall (λ p, h !! p = None) (live_ptrs new) ∧
  ∀ q, q ∉ live_ptrs new → h' !! q = h !! q.

(** The diagnostics of a failed section extraction. *)
Definition is_section_failure (d : Diag) : bool :=
  match d with
  | failed_to_allocate_section _ _ | failed_to_read_section _ => true
  | _ => false
  end.

(** The allocator refuses one of the requests [sizes], made in this order
    from its call [m] on. *)
Definition refused (env : Env) (m : nat) (sizes : list N) : Prop :=
  ∃ i n, sizes !! i = Some n ∧ malloc_ok env (m + i) n = false.

(** The allocator refuses the buffer of one of the BFD sections [kept],
    requested in this order from call [m] on, or the contents of one of
    them cannot be read. *)
Definition fault_sections (env : Env) (m : nat) (kept : list asection)
    : Prop :=
  refused env m (bs_size <$> kept) ∨
  Exists (λ bfd_sec, bs_contents bfd_sec = None) kept.

(** What a [load_sections_*] call that was to materialize [plan] leaves
    behind, [fault] being what makes the extraction fail: without it the
    call returns 0 and leaves the planned sections, each with a fresh buffer
    of its size; with it the call returns -1 and leaves a prefix of them
    with every buffer of the [Binary] freed and every pointer nulled. *)
Definition sections_post (plan : list (N * string * SectionType * N * N))
    (f : Fn) (fault : Prop) (bin : Binary) (w : World) (r : Z)
    (bin' : Binary) (w' : World) : Prop :=
  (bfd_inited w' = bfd_inited w ∧ handles w' = handles w) ∧
  bin' = set_sections (sections bin') bin ∧
  ∃ new,
    (sec_meta <$> new) `prefix_of` plan ∧
    ((r = 0 ∧ sections bin' = sections bin ++ new ∧
      sec_meta <$> new = plan ∧
      owns (heap w') (sections bin') ∧
      extends_heap (heap w) (heap w') new ∧
      Forall (sized (heap w')) new ∧
      trace w' = trace w ++ [call f] ∧
      ¬ fault)
     ∨
     (r = -1 ∧ sections bin' = clear_bytes <$> (sections bin ++ new) ∧
      heap w' = delete_all (live_ptrs (sections bin)) (heap w) ∧
      (∃ d, is_section_failure d = true ∧
            trace w' = trace w ++ [call f; stderr d]) ∧
      fault)).

(** The world after logging the events [evs]. *)
Definition logged (w : World) (evs : list Event) : World :=
  mkWorld (heap w) (mallocs w) (bfd_inited w) (handles w) (trace w ++ evs).

(** The fields [load_binary_lem] sets before it looks at the
    architecture. *)
Definition header_lem (fname : string) (obj : elfobj_t) (bin : Binary)
    : Binary :=
  set_type_str "unknown"
    (set_entry (obj_entry_point obj)
       (set_type BIN_TYPE_ELF (set_filename fname bin))).

(** [None] when [load_binary_lem] rejects the architecture. *)
Definition arch_lem (obj : elfobj_t) (bin : Binary) : option Binary :=
  match obj_arch obj with
  | i386 => Some (set_bits 32 (set_arch ARCH_X86 (set_arch_str "X86" bin)))
  | x64 => Some (set_bits 64 (set_arch ARCH_X86 (set_arch_str "X86_64" bin)))
  | unsupported => None
  end.

(** The diagnostics of a failed symbol-table read. *)
Definition is_table_failure (d : Diag) : bool :=
  match d with
  | failed_to_read_symtab | failed_to_allocate_symtab
  | failed_to_read_dynsym | failed_to_allocate_dynsym => true
  | _ => false
  end.

(** The diagnostics of a failed [open_bfd]. *)
Definition is_open_failure (d : Diag) : bool :=
  match d with
  | failed_to_open_binary | does_not_look_like_an_executable
  | unrecognized_format => true
  | _ => false
  end.

(** The fields [load_binary_bfd] sets before it looks at the flavour. *)
Definition header_bfd (fname : string) (bfd_h : bfd) (bin : Binary)
    : Binary :=
  set_type_str (xvec_name bfd_h)
    (set_entry (start_address bfd_h) (set_filename fname bin)).

(** [None] when [load_binary_bfd] rejects the flavour. *)
Definition type_bfd (bfd_h : bfd) (bin : Binary) : option Binary :=
  match xvec_flavour bfd_h with
  | bfd_target_elf_flavour => Some (set_type BIN_TYPE_ELF bin)
  | bfd_target_coff_flavour => Some (set_type BIN_TYPE_PE bin)
  | _ => None
  end.

(** The architectures a successful load can report. *)
Definition arch_ok (bin : Binary) : Prop :=
  bin_arch bin = ARCH_X86 ∧ (bin_bits bin = 32 ∨ bin_bits bin = 64).

(** The events of Backend A after its entry. *)
Definition is_lem_event (e : Event) : bool :=
  match e with
  | call (load_symbols_lem_fn | load_dynsym_lem_fn | load_sections_lem_fn) =>
      true
  | call _ => false
  | stderr _ => true
  end.

(** The events of Backend B after its entry. *)
Definition is_bfd_event (e : Event) : bool :=
  match e with
  | call (open_bfd_fn | load_symbols_bfd_fn | load_dynsym_bfd_fn
          | load_sections_bfd_fn) => true
  | call _ => false
  | stderr _ => true
  end.

(** The two backends behind one name. *)
Inductive Backend := BackendA | BackendB.

(** The entry point of a backend. *)
Definition backend_fn (b : Backend) : Fn :=
  match b with
  | BackendA => load_binary_lem_fn
  | BackendB => load_binary_bfd_fn
  end.

(** The kind of a materialized section. *)
Definition kind_of (exec : bool) : SectionType :=
  if exec then SEC_TYPE_CODE else SEC_TYPE_DATA.

Section Specification.

Variable env : Env.

(** The function symbols of a table, as [Symbol]s. *)
Definition funcs_lem (iter : list (elf_iter_step elf_symbol)) : list Symbol :=
  symbol_of_elf <$> filter (λ s, es_type s = STT_FUNC env) (yielded iter).

(** What [load_sections_lem] is to materialize, buffers apart. *)
Definition plan_lem (pbin : N) (iter : list (elf_iter_step elf_section))
    : list (N * string * SectionType * N * N) :=
  omap (λ section,
          (λ type, (pbin, name_or_unnamed (esec_name section), type,
                    esec_address section, esec_size section))
            <$> section_type_lem env section)
       (yielded iter).

(** The sections [load_sections_lem] is to materialize from an object. *)
Definition obj_plan_lem (pbin : N) (obj : elfobj_t)
    : list (N * string * SectionType * N * N) :=
  if has_flag (obj_flags obj) (ELF_SHDRS_F env)
  then plan_lem pbin (obj_sections obj) else [].

(** The symbols Backend A takes from the static table of an object. *)
Definition symtab_lem (obj : elfobj_t) : list Symbol :=
  if has_flag (obj_flags obj) (ELF_SYMTAB_F env)
  then funcs_lem (obj_symtab obj) else [].

(** The symbols Backend A takes from the dynamic table of an object. *)
Definition dynsym_lem (obj : elfobj_t) : list Symbol :=
  if has_flag (obj_flags obj) (ELF_DYNSYM_F env)
  then funcs_lem (obj_dynsym obj) else [].

(** The function symbols of a canonicalised table, as [Symbol]s. *)
Definition funcs_bfd (tab : list asymbol) : list Symbol :=
  symbol_of_bfd <$>
    filter (λ s, has_flag (as_flags s) (BSF_FUNCTION env) = true) tab.

(** The number of [malloc] calls made for a table with upper bound [n]. *)
Definition table_allocs (n : Z) : nat := if 0 <? n then 1%nat else 0%nat.

(** Reading a table fails: its upper bound is negative, or it is positive
    and the allocator refuses the buffer (at its call [k]) or the table
    cannot be canonicalised. *)
Definition table_failed (k : nat) (n : Z) (canon : option (list asymbol))
    : Prop :=
  n < 0 ∨ (0 < n ∧ (malloc_ok env k (Z.to_N n) = false ∨ canon = None)).

(** The symbols a table with upper bound [n] contributes when its buffer
    is requested by call [k] of [malloc]: its function entries when the
    bound is positive, the buffer is granted and the table can be
    canonicalised, and none otherwise. *)
Definition table_bfd (k : nat) (n : Z) (canon : option (list asymbol))
    : list Symbol :=
  if (0 <? n) && malloc_ok env k (Z.to_N n)
  then match canon with Some tab => funcs_bfd tab | None => [] end
  else [].

(** What reading one table gives: when the read does not fail, 0, the
    symbols of the table and no diagnostic; when it fails, -1, no symbol and
    one diagnostic. *)
Definition table_post (k : nat) (n : Z) (canon : option (list asymbol))
    (r : Z) (syms : list Symbol) (evs : list Event) : Prop :=
  (r = 0 ∧ evs = [] ∧ syms = table_bfd k n canon ∧
   ¬ table_failed k n canon) ∨
  (r = -1 ∧ syms = [] ∧
   (∃ d, evs = [stderr d] ∧ is_table_failure d = true) ∧
   table_failed k n canon).

(** The number of [malloc] calls Backend B makes before it extracts the
    sections. *)
Definition table_mallocs (bfd_h : bfd) : nat :=
  (table_allocs (symtab_upper_bound bfd_h)
   + table_allocs (dynamic_symtab_upper_bound bfd_h))%nat.

(** What [load_sections_bfd] is to materialize, buffers apart. *)
Definition plan_bfd (pbin : N) (secs : list asection)
    : list (N * string * SectionType * N * N) :=
  omap (λ bfd_sec,
          (λ type, (pbin, name_or_unnamed (bs_name bfd_sec), type,
                    bs_vma bfd_sec, bs_size bfd_sec))
            <$> section_type_bfd env bfd_sec)
       secs.

(** The handle [open_bfd] returns. *)
Definition bfd_opened (fname : string) : option bfd :=
  match bfd_openr env fname with
  | Some bfd_h =>
      if check_format_object bfd_h then
        match xvec_flavour bfd_h with
        | bfd_target_unknown_flavour => None
        | _ => Some bfd_h
        end
      else None
  | None => None
  end.

(** [None] when [load_binary_bfd] rejects the machine. *)
Definition arch_bfd (bfd_h : bfd) (bin : Binary) : option Binary :=
  let bin := set_arch_str (printable_name (arch_info bfd_h)) bin in
  if mach (arch_info bfd_h) =? bfd_mach_i386_i386 env
  then Some (set_bits 32 (set_arch ARCH_X86 bin))
  else if mach (arch_info bfd_h) =? bfd_mach_x86_64 env
  then Some (set_bits 64 (set_arch ARCH_X86 bin))
  else None.

(** [load_binary_bfd] goes on to extraction: the flavour is ELF or COFF
    and the machine number is one of the two it accepts. *)
Definition accepted_bfd (bfd_h : bfd) : Prop :=
  (xvec_flavour bfd_h = bfd_target_elf_flavour ∨
   xvec_flavour bfd_h = bfd_target_coff_flavour) ∧
  (mach (arch_info bfd_h) = bfd_mach_i386_i386 env ∨
   mach (arch_info bfd_h) = bfd_mach_x86_64 env).

(** The handles [open_bfd] leaves open on a path: one when [bfd_openr]
    succeeds and [open_bfd] then gives up. *)
Definition leaked_bfd (fname : string) : nat :=
  match bfd_openr env fname, bfd_opened fname with
  | Some _, None => 1%nat
  | _, _ => 0%nat
  end.

(** Backend A materializes a section that is not NOBITS and is marked
    executable or allocated. *)
Definition kept_lem (section : elf_section) : Prop :=
  esec_type section ≠ SHT_NOBITS env ∧
  (has_flag (esec_flags section) (SHF_EXECINSTR env) = true ∨
   has_flag (esec_flags section) (SHF_ALLOC env) = true).

#[global] Instance kept_lem_dec section : Decision (kept_lem section).
Proof. unfold kept_lem. apply _. Defined.

(** What Backend A records of a section it keeps. *)
Definition meta_lem (pbin : N) (section : elf_section)
    : N * string * SectionType * N * N :=
  (pbin, name_or_unnamed (esec_name section),
   kind_of (has_flag (esec_flags section) (SHF_EXECINSTR env)),
   esec_address section, esec_size section).

(** The bytes of a section are all there behind [elf_section_pointer]. *)
Definition backed_lem (section : elf_section) : Prop :=
  (N.to_nat (esec_size section) ≤ length (esec_data section))%nat.

#[global] Instance backed_lem_dec section : Decision (backed_lem section).
Proof. unfold backed_lem. apply _. Defined.

(** Every section Backend A copies from an object has its bytes. *)
Definition readable_lem (obj : elfobj_t) : Prop :=
  has_flag (obj_flags obj) (ELF_SHDRS_F env) = true →
  Forall backed_lem (filter kept_lem (yielded (obj_sections obj))).

#[global] Instance readable_lem_dec obj : Decision (readable_lem obj).
Proof. unfold readable_lem. apply _. Defined.

(** The same of the file at a path, when libelfmaster opens it: no section
    Backend A copies ends beyond the end of the file. *)
Definition lem_readable (fname : string) : Prop :=
  match elf_open_object env fname with
  | Some obj => readable_lem obj
  | None => True
  end.

#[global] Instance lem_readable_dec fname : Decision (lem_readable fname).
Proof. unfold lem_readable. destruct (elf_open_object env fname); apply _. Defined.

(** What makes [load_sections_lem] fail when its first request is call [m]
    of [malloc]: the allocator refuses the buffer of a section it keeps. *)
Definition fault_lem (obj : elfobj_t) (m : nat) : Prop :=
  has_flag (obj_flags obj) (ELF_SHDRS_F env) = true ∧
  refused env m (esec_size <$> filter kept_lem (yielded (obj_sections obj))).

(** Backend B materializes a section flagged as code or as data. *)
Definition kept_bfd (bfd_sec : asection) : Prop :=
  has_flag (bs_flags bfd_sec) (SEC_CODE env) = true ∨
  has_flag (bs_flags bfd_sec) (SEC_DATA env) = true.

#[global] Instance kept_bfd_dec bfd_sec : Decision (kept_bfd bfd_sec).
Proof. unfold kept_bfd. apply _. Defined.

(** What Backend B records of a section it keeps. *)
Definition meta_bfd (pbin : N) (bfd_sec : asection)
    : N * string * SectionType * N * N :=
  (pbin, name_or_unnamed (bs_name bfd_sec),
   kind_of (has_flag (bs_flags bfd_sec) (SEC_CODE env)),
   bs_vma bfd_sec, bs_size bfd_sec).

(** What makes [load_sections_bfd] fail when its first request is call
    [m] of [malloc]: the allocator refuses the buffer of a section it
    keeps, or the contents of one cannot be read. *)
Definition fault_bfd (bfd_h : bfd) (m : nat) : Prop :=
  fault_sections env m (filter kept_bfd (bfd_sections bfd_h)).


End Specification.

(** The call of a backend the way [load_binary] makes it. *)
Definition run_backend (env : Env) (b : Backend) (fname : string) (pbin : N)
    (bin : Binary) (type : BinaryType) : M (Z * Binary) :=
  match b with
  | BackendA => load_binary_lem env fname pbin bin
  | BackendB => load_binary_bfd env fname pbin bin type
  end.

(** The handles a backend leaves open on a path. *)
Definition leaked (env : Env) (b : Backend) (fname : string) : nat :=
  match b with
  | BackendA => 0%nat
  | BackendB => leaked_bfd env fname
  end.

(** Ownership can be decided. *)
#[global] Instance owns_dec h secs : Decision (owns h secs).
Proof. unfold owns. apply _. Defined.

(** The state in which a backend starts section extraction on [b0] in
    [w0], having been called on [bin] in [w]: the sections, the heap and
    the number of open handles are untouched, function symbols have been
    appended, the file name and a concrete type are set, and no section
    failure has been logged. *)
Definition staged (fname : string) (bin : Binary) (w : World)
    (b0 : Binary) (w0 : World) : Prop :=
  sections b0 = sections bin ∧
  (∃ syms, symbols b0 = symbols bin ++ syms ∧
           Forall (λ s, sym_type s = SYM_TYPE_FUNC) syms) ∧
  bin_filename b0 = fname ∧
  bin_type b0 ≠ BIN_TYPE_AUTO ∧
  (heap w0 = heap w ∧ handles w0 = handles w) ∧
  ∃ evs0, trace w0 = trace w ++ evs0 ∧
          ∀ d, is_section_failure d = true → stderr d ∉ evs0.

(** Every planned section points back to the [Binary] at [pbin] and is
    code or data. *)
Definition plan_ok (pbin : N) (plan : list (N * string * SectionType * N * N))
    : Prop :=
  Forall (λ m, m.1.1.1.1 = pbin ∧ m.1.1.2 ≠ SEC_TYPE_NONE) plan.

(** A backend call that ends before any extraction: it fails, and leaves
    the sections, the symbols and the heap as they were; [leak] handles
    stay open. *)
Definition ended_early (leak : nat) (bin : Binary) (w : World) (r : Z)
    (bin' : Binary) (w' : World) : Prop :=
  r = -1 ∧ sections bin' = sections bin ∧ symbols bin' = symbols bin ∧
  heap w' = heap w ∧
  (mallocs w' = mallocs w ∧ handles w' = (handles w + leak)%nat) ∧
  ∀ d, is_section_failure d = true → stderr d ∉ new_events w w'.

(** The buffer of the section [s] is live, has the declared size, and
    holds the first bytes of [data] when [data] has that many. *)
Definition filled (h : gmap N (list byte)) (s : Section) (data : list byte)
    : Prop :=
  ∃ buf, h !! sec_bytes s = Some buf ∧
         length buf = N.to_nat (sec_size s) ∧
         (N.to_nat (sec_size s) ≤ length data →
          buf = take (N.to_nat (sec_size s)) data)%nat.

(** The loaded section [s] is the copy of the libelfmaster section
    [section]: name, address, size, and a buffer that holds the first
    [size] bytes of the section's data. *)
Definition copied_lem (h : gmap N (list byte)) (s : Section)
    (section : elf_section) : Prop :=
  sec_name s = name_or_unnamed (esec_name section) ∧
  sec_vma s = esec_address section ∧
  sec_size s = esec_size section ∧
  backed_lem section ∧
  h !! sec_bytes s
  = Some (take (N.to_nat (esec_size section)) (esec_data section)).

(** The loaded section [s] is the copy of the BFD section [bfd_sec],
    whose contents could be read. *)
Definition copied_bfd (h : gmap N (list byte)) (s : Section)
    (bfd_sec : asection) : Prop :=
  sec_name s = name_or_unnamed (bs_name bfd_sec) ∧
  sec_vma s = bs_vma bfd_sec ∧
  sec_size s = bs_size bfd_sec ∧
  ∃ data, bs_contents bfd_sec = Some data ∧ filled h s data.

(** What BFD reports on an a.out object: a flavour the loader does not
    name. *)
Definition sample_bfd_aout : bfd :=
  mk_bfd true "a.out-i386-linux" (bfd_target_other_flavour 1) 0%N
    (mk_arch_info bfd_arch_i386 "i386" 4) 0 None 0 None [].

(** ** Sample files *)

Module Sample.

(** An environment with the ELF constants of elf.h, sample values for the
    flags of libelfmaster.h and the constants of bfd.h, an allocator and
    what each library reports on every path. *)
Definition environment (ok : nat → N → bool) (lem : option elfobj_t)
    (b : option bfd) : Env :=
  {| ELF_SYMTAB_F := 16; ELF_DYNSYM_F := 32; ELF_SHDRS_F := 1;
     SHT_NOBITS := 8; SHF_EXECINSTR := 4; SHF_ALLOC := 2; STT_FUNC := 2;
     BSF_FUNCTION := 8; SEC_CODE := 16; SEC_DATA := 32;
     SEC_HAS_CONTENTS := 256;
     bfd_mach_i386_i386 := 4; bfd_mach_x86_64 := 8;
     malloc_ok := ok;
     elf_open_object := λ _, lem;
     bfd_openr := λ _, b |}.

(** An allocator that never fails, and one that fails at its call [k]
    (counted from 0) only. *)
Definition always : nat → N → bool := λ _ _, true.
Definition all_but (k : nat) : nat → N → bool := λ i _, negb (i =? k)%nat.

Definition text : elf_section :=
  mk_elf_section (Some ".text") 1 6 4096%N 2%N [x90; xc3].
Definition bss : elf_section :=
  mk_elf_section (Some ".bss") 8 3 8200%N 16%N [].
Definition data : elf_section :=
  mk_elf_section (Some ".data") 1 3 8192%N 1%N [x01].
Definition comment : elf_section :=
  mk_elf_section (Some ".comment") 1 0 0%N 3%N [x47; x43; x43].

Definition main : elf_symbol := mk_elf_symbol "main" 4096%N 2.
Definition counter : elf_symbol := mk_elf_symbol "counter" 8192%N 1.

(** A 64-bit x86 object with both symbol tables and four sections. *)
Definition obj : elfobj_t :=
  mk_elfobj x64 49 4096%N
    [ELF_ITER_OK main; ELF_ITER_OK counter] [ELF_ITER_OK main]
    [ELF_ITER_OK text; ELF_ITER_OK bss; ELF_ITER_OK data;
     ELF_ITER_OK comment].

(** The same object when the symbol-table iterator fails after its first
    entry. *)
Definition obj_symtab_error : elfobj_t :=
  mk_elfobj x64 49 4096%N
    [ELF_ITER_OK main; ELF_ITER_ERROR; ELF_ITER_OK counter]
    [ELF_ITER_OK main]
    [ELF_ITER_OK text; ELF_ITER_OK bss; ELF_ITER_OK data].

(** The same object without the section-headers flag, and an object for a
    machine that is not x86. *)
Definition obj_no_shdrs : elfobj_t :=
  mk_elfobj x64 48 4096%N [ELF_ITER_OK main] [ELF_ITER_OK main]
    [ELF_ITER_OK text; ELF_ITER_OK data].
Definition obj_other_machine : elfobj_t :=
  mk_elfobj unsupported 49 4096%N [ELF_ITER_OK main] []
    [ELF_ITER_OK text].

Definition btext : asection :=
  mk_asection 272 4096%N 2%N (Some ".text") (Some [x90; xc3]).
Definition bdata : asection :=
  mk_asection 288 8192%N 1%N (Some ".data") (Some [x01]).
Definition bbss : asection :=
  mk_asection 1 8200%N 16%N (Some ".bss") (Some []).
(** A section flagged as code that has no contents in the file: BFD
    answers a read of it with zeroes. *)
Definition bstub : asection :=
  mk_asection 16 12288%N 2%N (Some ".stub") (Some [x00; x00]).

Definition bmain : asymbol := mk_asymbol "main" 8 4096%N.
Definition bcounter : asymbol := mk_asymbol "counter" 2 8192%N.

(** What BFD reports on the same file, on a file with the section
    [bstub], and on a file for another machine. *)
Definition bfd_elf : bfd :=
  mk_bfd true "elf64-x86-64" bfd_target_elf_flavour 4096%N
    (mk_arch_info bfd_arch_i386 "i386:x86-64" 8) 24
    (Some [bmain; bcounter]) 0 None
    [btext; bbss; bdata].
Definition bfd_stub : bfd :=
  mk_bfd true "elf64-x86-64" bfd_target_elf_flavour 4096%N
    (mk_arch_info bfd_arch_i386 "i386:x86-64" 8) 0 None 0 None [bstub].
Definition bfd_other_machine : bfd :=
  mk_bfd true "elf64-littleaarch64" bfd_target_elf_flavour 4096%N
    (mk_arch_info bfd_arch_aarch64 "aarch64" 0) 0 None 0 None [btext].

(** What BFD reports on an ELF object for the Motorola CPU32, an m68k
    machine: its machine number, [bfd_mach_cpu32], is 8, which is also the
    value of [bfd_mach_x86_64]. *)
Definition bfd_m68k : bfd :=
  mk_bfd true "elf32-m68k" bfd_target_elf_flavour 32768%N
    (mk_arch_info bfd_arch_m68k "m68k:cpu32" 8) 0 None 0 None [btext].

(** What BFD reports on a text file: [bfd_openr] opens it, and
    [bfd_check_format] does not find an object in it. *)
Definition bfd_text_file : bfd :=
  mk_bfd false "binary" bfd_target_unknown_flavour 0%N
    (mk_arch_info bfd_arch_unknown "UNKNOWN!" 0) 0 None 0 None [].

(** A loaded [Binary] at address 77 and the heap that holds its buffers. *)
Definition loaded : Binary :=
  mkBinary "a.out" BIN_TYPE_ELF "unknown" ARCH_X86 "X86_64" 64 4096%N
    [mkSection 77%N ".text" SEC_TYPE_CODE 4096%N 2%N 1%N;
     mkSection 77%N ".data" SEC_TYPE_DATA 8192%N 1%N 2%N]
    [mkSymbol SYM_TYPE_FUNC "main" 4096%N].
Definition loaded_world : World :=
  mkWorld (<[1%N := [x90; xc3]]> (<[2%N := [x01]]> ∅)) 2 false 0 [].

End Sample.

(** ** Basic facts *)

Lemma World_eta w :
  mkWorld (heap w) (mallocs w) (bfd_inited w) (handles w) (trace w) = w.
Proof. by destruct w. Qed.

Lemma set_sections_id b : set_sections (sections b) b = b.
Proof. by destruct b. Qed.

Lemma set_symbols_id b : set_symbols (symbols b) b = b.
Proof. by destruct b. Qed.

Lemma sections_set_sections v b : sections (set_sections v b) = v.
Proof. done. Qed.

Lemma set_sections_twice v v' b :
  set_sections v (set_sections v' b) = set_sections v b.
Proof. done. Qed.

Lemma clear_bytes_null s : sec_bytes s = NULL → clear_bytes s = s.
Proof. destruct s; simpl; by intros ->. Qed.

Lemma live_ptrs_cons s secs :
  live_ptrs (s :: secs) =
  if decide (sec_bytes s = NULL) then live_ptrs secs
  else sec_bytes s :: live_ptrs secs.
Proof.
  unfold live_ptrs. rewrite fmap_cons, filter_cons.
  destruct (decide (sec_bytes s = NULL)), (decide (sec_bytes s ≠ NULL));
    done.
Qed.

Lemma live_ptrs_app s1 s2 : live_ptrs (s1 ++ s2) = live_ptrs s1 ++ live_ptrs s2.
Proof. unfold live_ptrs. by rewrite fmap_app, filter_app. Qed.

Lemma live_ptrs_clear secs : live_ptrs (clear_bytes <$> secs) = [].
Proof.
  induction secs as [|s secs IH]; [done|].
  rewrite fmap_cons, live_ptrs_cons. by rewrite decide_True.
Qed.

Lemma owns_nil h : owns h [].
Proof. split; constructor. Qed.

Lemma owns_clear h secs : owns h (clear_bytes <$> secs).
Proof. unfold owns. rewrite live_ptrs_clear. split; constructor. Qed.

Lemma lookup_delete_all ps (h : gmap N (list byte)) q :
  delete_all ps h !! q = if decide (q ∈ ps) then None else h !! q.
Proof.
  revert h. induction ps as [|p ps IH]; intros h; cbn [delete_all].
  - case_decide as Hin; [by apply elem_of_nil in Hin | done].
  - rewrite IH.
    destruct (decide (q ∈ ps)) as [Hin|Hin],
             (decide (q ∈ p :: ps)) as [Hin'|Hin']; try done.
    + exfalso. apply Hin'. by right.
    + apply elem_of_cons in Hin' as [->|?]; [|done].
      apply lookup_delete_eq.
    + apply lookup_delete_ne. intros ->. apply Hin'. by left.
Qed.

(** The release loop frees every owned buffer and nulls every pointer. *)
Lemma release_sections_owned secs w :
  owns (heap w) secs →
  release_sections secs w =
  Some (clear_bytes <$> secs,
        mkWorld (delete_all (live_ptrs secs) (heap w)) (mallocs w)
                (bfd_inited w) (handles w) (trace w)).
Proof.
  revert w. induction secs as [|s secs IH]; intros w [Hnd Hlive].
  - simpl. unfold ret. by rewrite World_eta.
  - rewrite live_ptrs_cons in Hnd, Hlive. rewrite live_ptrs_cons.
    cbn [release_sections fmap list_fmap]. unfold bind at 1.
    destruct (decide (sec_bytes s = NULL)) as [Hnull|Hnn].
    + apply N.eqb_eq in Hnull as Hb. rewrite Hb. unfold ret at 1.
      unfold bind. rewrite IH by done. unfold ret.
      by rewrite clear_bytes_null.
    + apply N.eqb_neq in Hnn as Hb. rewrite Hb. unfold bind at 1.
      unfold free. rewrite Hb.
      apply NoDup_cons in Hnd as [Hnotin Hnd].
      apply Forall_cons in Hlive as [[buf Hbuf] Hlive].
      rewrite Hbuf. unfold ret at 1. unfold bind.
      rewrite IH; [done|]. split; [done|]. simpl.
      apply Forall_forall. intros p Hp.
      rewrite lookup_delete_ne by (by intros <-).
      by eapply Forall_forall in Hlive.
Qed.

Lemma unload_binary_owned bin w :
  owns (heap w) (sections bin) →
  unload_binary bin w =
  Some (set_sections (clear_bytes <$> sections bin) bin,
        mkWorld (delete_all (live_ptrs (sections bin)) (heap w)) (mallocs w)
                (bfd_inited w) (handles w) (trace w)).
Proof.
  intros Hown. unfold unload_binary, bind.
  by rewrite release_sections_owned.
Qed.

Lemma Forall_clear_null secs :
  Forall (λ s, sec_bytes s = NULL) (clear_bytes <$> secs).
Proof. apply Forall_fmap, Forall_true. done. Qed.

(** The postcondition of section extraction does not read the number of
    open handles. *)
Lemma sections_post_set_handles plan f fault bin w r bin' w' n :
  sections_post plan f fault bin w r bin' w' →
  sections_post plan f fault bin (set_handles n w) r bin' (set_handles n w').
Proof.
  intros ([Hi _] & Hb & new & Hpre & Hcase).
  split; [done|]. split; [done|]. exists new. split; [done|]. exact Hcase.
Qed.

(** Requests to the allocator. *)
Lemma refused_nil env m : ¬ refused env m [].
Proof. by intros (i & n & Hi & _). Qed.

Lemma refused_here env m n sizes :
  malloc_ok env m n = false → refused env m (n :: sizes).
Proof. intros Hno. exists 0%nat, n. by rewrite Nat.add_0_r. Qed.

Lemma refused_later env m n sizes :
  refused env (S m) sizes → refused env m (n :: sizes).
Proof.
  intros (i & k & Hi & Hno). exists (S i), k. split; [done|].
  by rewrite Nat.add_succ_r.
Qed.

Lemma refused_cons env m n sizes :
  malloc_ok env m n = true →
  refused env m (n :: sizes) → refused env (S m) sizes.
Proof.
  intros Hok ([|i] & k & Hi & Hno).
  - cbn in Hi. simplify_eq. rewrite Nat.add_0_r in Hno. congruence.
  - exists i, k. split; [done|]. by rewrite Nat.add_succ_r in Hno.
Qed.

(** ** The unloader *)

(** C7: on a [Binary] that owns its buffers, [unload_binary] returns; the
    sections are then the sections the [Binary] had, in the same order,
    each with its [bytes] set to [NULL] and nothing else changed, and a
    buffers the [Binary] held are freed, and a second call returns the same
    [Binary] and the same world. *)
Theorem unload_binary_idempotent bin w :
  owns (heap w) (sections bin) →
  ∃ bin' w',
    unload_binary bin w = Some (bin', w') ∧
    sections bin' = clear_bytes <$> sections bin ∧
    heap w' = delete_all (live_ptrs (sections bin)) (heap w) ∧
    Forall (λ s, sec_bytes s = NULL) (sections bin') ∧
    unload_binary bin' w' = Some (bin', w').
Proof.
  intros Hown. eexists _, _. split; [by apply unload_binary_owned|].
  split; [done|]. split; [done|].
  split; [apply Forall_clear_null|].
  rewrite unload_binary_owned by apply owns_clear.
  rewrite !sections_set_sections, live_ptrs_clear.
  rewrite set_sections_twice, <- list_fmap_compose.
  done.
Qed.

(** C8: on a [Binary] that owns its buffers, [unload_binary] returns a
    [Binary] with the same filename, type, entry, architecture, bits and
    symbols, and with the same sections in the same order, each with its
    back-reference, name, type, address and size unchanged; the allocation
    counter and the event log are unchanged too. *)
Theorem unload_binary_frame bin w :
  owns (heap w) (sections bin) →
  ∃ bin' w',
    unload_binary bin w = Some (bin', w') ∧
    bin_filename bin' = bin_filename bin ∧
    bin_type bin' = bin_type bin ∧
    bin_type_str bin' = bin_type_str bin ∧
    bin_entry bin' = bin_entry bin ∧
    bin_arch bin' = bin_arch bin ∧
    bin_arch_str bin' = bin_arch_str bin ∧
    bin_bits bin' = bin_bits bin ∧
    symbols bin' = symbols bin ∧
    length (sections bin') = length (sections bin) ∧
    sec_meta <$> sections bin' = sec_meta <$> sections bin ∧
    mallocs w' = mallocs w ∧ bfd_inited w' = bfd_inited w ∧
    trace w' = trace w ∧
    (∀ p, p ∉ live_ptrs (sections bin) → heap w' !! p = heap w !! p).
Proof.
  intros Hown. eexists _, _. split; [by apply unload_binary_owned|].
  cbn. repeat split; try done.
  - by rewrite length_fmap.
  - rewrite <- list_fmap_compose. done.
  - intros p Hp. rewrite lookup_delete_all. by rewrite decide_False.
Qed.

(** ** Backend A *)

Section BackendA.

Variable env : Env.

Lemma symbols_lem_loop_spec iter bin :
  symbols_lem_loop env iter bin =
  set_symbols (symbols bin ++ funcs_lem env iter) bin.
Proof.
  unfold funcs_lem. revert bin.
  induction iter as [|[symbol| |] iter IH]; intros bin; cbn [symbols_lem_loop yielded];
    try (by rewrite filter_nil, fmap_nil, app_nil_r, set_symbols_id).
  rewrite filter_cons.
  destruct (Z.eqb_spec (es_type symbol) (STT_FUNC env)) as [Heq|Hne].
  - rewrite decide_True by done. rewrite IH. cbn.
    by rewrite <- app_assoc.
  - rewrite decide_False by done. apply IH.
Qed.

Lemma fresh_ptr_spec h : fresh_ptr h ≠ NULL ∧ h !! fresh_ptr h = None.
Proof.
  pose proof (is_fresh ({[NULL]} ∪ dom h)) as Hf.
  fold (fresh_ptr h) in Hf.
  apply not_elem_of_union in Hf as [Hn Hd].
  split.
  - by apply not_elem_of_singleton in Hn.
  - by apply not_elem_of_dom in Hd.
Qed.

Lemma length_overwrite dst src n :
  length dst = n → length (overwrite dst src n) = n.
Proof.
  intros Hd. unfold overwrite.
  rewrite length_app, length_drop, length_take. lia.
Qed.

Lemma owns_push h secs s buf :
  owns h secs → h !! sec_bytes s = None → sec_bytes s ≠ NULL →
  owns (<[sec_bytes s := buf]> h) (secs ++ [s]).
Proof.
  intros [Hnd Hlive] Hfresh Hnn. unfold owns.
  rewrite live_ptrs_app, live_ptrs_cons, decide_False by done.
  change (live_ptrs []) with (@nil N).
  assert (sec_bytes s ∉ live_ptrs secs) as Hnotin.
  { intros Hin. eapply Forall_forall in Hlive; [|done].
    rewrite Hfresh in Hlive. by destruct Hlive. }
  split.
  - apply NoDup_app. split; [done|]. split.
    + intros p Hp ->%list_elem_of_singleton. done.
    + apply NoDup_singleton.
  - apply Forall_app. split.
    + apply Forall_forall. intros p Hp.
      rewrite lookup_insert_ne by (by intros <-).
      by eapply Forall_forall in Hlive.
    + apply Forall_singleton. rewrite lookup_insert_eq. by eexists.
Qed.

Lemma plan_lem_cons pbin section iter :
  plan_lem env pbin (ELF_ITER_OK section :: iter) =
  match section_type_lem env section with
  | Some type =>
      (pbin, name_or_unnamed (esec_name section), type, esec_address section,
       esec_size section) :: plan_lem env pbin iter
  | None => plan_lem env pbin iter
  end.
Proof. unfold plan_lem. cbn. by destruct (section_type_lem env section). Qed.

Lemma section_type_lem_kept section :
  match section_type_lem env section with
  | Some _ => kept_lem env section
  | None => ¬ kept_lem env section
  end.
Proof.
  unfold section_type_lem, kept_lem.
  destruct (Z.eqb_spec (esec_type section) (SHT_NOBITS env)) as [Hn|Hn].
  { by intros [? _]. }
  destruct (has_flag (esec_flags section) (SHF_EXECINSTR env)) eqn:Hx.
  { split; [done|]. by left. }
  destruct (has_flag (esec_flags section) (SHF_ALLOC env)) eqn:Hal.
  { split; [done|]. by right. }
  intros [_ [?|?]]; congruence.
Qed.

(** What [memcpy] does to a buffer that [malloc] has just returned. *)
Lemma memcpy_fresh p n src w :
  heap w !! p = Some (repeat x00 (N.to_nat n)) →
  memcpy p src n w =
  if decide (N.to_nat n ≤ length src)%nat
  then Some (tt, mkWorld (<[p := take (N.to_nat n) src]> (heap w)) (mallocs w)
                         (bfd_inited w) (handles w) (trace w))
  else None.
Proof.
  intros Hp. unfold memcpy. rewrite Hp, repeat_length, Nat.leb_refl.
  cbn [andb].
  destruct (Nat.leb_spec (N.to_nat n) (length src)) as [Hle|Hlt].
  - rewrite decide_True by done.
    rewrite drop_ge by (rewrite repeat_length; lia).
    by rewrite app_nil_r.
  - rewrite decide_False by lia. done.
Qed.

(** The loop of [load_sections_lem], when it returns. *)
Lemma sections_lem_loop_spec pbin iter bin w ok bin' w' :
  owns (heap w) (sections bin) →
  sections_lem_loop env pbin iter bin w = Some ((ok, bin'), w') →
  ∃ new,
    bin' = set_sections (sections bin ++ new) bin ∧
    owns (heap w') (sections bin ++ new) ∧
    extends_heap (heap w) (heap w') new ∧
    Forall (sized (heap w')) new ∧
    (bfd_inited w' = bfd_inited w ∧ handles w' = handles w) ∧
    (sec_meta <$> new) `prefix_of` plan_lem env pbin iter ∧
    if ok then
      sec_meta <$> new = plan_lem env pbin iter ∧ trace w' = trace w ∧
      ¬ refused env (mallocs w)
          (esec_size <$> filter (kept_lem env) (yielded iter)) ∧
      Forall2 (copied_lem (heap w')) new
        (filter (kept_lem env) (yielded iter))
    else
      (∃ name size,
         trace w' = trace w ++ [stderr (failed_to_allocate_section name size)]) ∧
      refused env (mallocs w)
        (esec_size <$> filter (kept_lem env) (yielded iter)).
Proof.
  revert bin w.
  induction iter as [|[section| |] iter IH]; intros bin w Hown Heq.
  1,3,4: cbn in Heq; unfold ret in Heq; simplify_eq; exists [];
    rewrite app_nil_r, set_sections_id;
    (split; [done|]); (split; [done|]); (split; [by split; [constructor|]|]);
    (split; [constructor|]); (split; [done|]); (split; [done|]);
    cbn [yielded]; rewrite filter_nil;
    (split; [done|]); (split; [done|]);
    (split; [apply refused_nil | constructor]).
  cbn [sections_lem_loop yielded] in Heq |- *.
  rewrite plan_lem_cons, filter_cons.
  pose proof (section_type_lem_kept section) as Hkept.
  destruct (section_type_lem env section) as [type|] eqn:Hty.
  2: { rewrite decide_False by done. by apply IH. }
  rewrite decide_True by done. rewrite fmap_cons.
  unfold bind at 1 in Heq. unfold malloc in Heq.
  destruct (malloc_ok env (mallocs w) (esec_size section)) eqn:Hok.
  - destruct (fresh_ptr_spec (heap w)) as [Hnn Hfresh].
    set (p := fresh_ptr (heap w)) in *.
    apply N.eqb_neq in Hnn as Hb. rewrite Hb in Heq.
    unfold bind at 1 in Heq.
    rewrite memcpy_fresh in Heq by (cbn; apply lookup_insert_eq).
    destruct (decide (N.to_nat (esec_size section)
                      ≤ length (esec_data section))%nat) as [Hlen|]; [|done].
    cbn [heap mallocs bfd_inited handles trace] in Heq.
    rewrite insert_insert_eq in Heq.
    set (s := mkSection pbin _ type _ _ p) in Heq.
    set (buf := take _ _) in Heq.
    set (w1 := mkWorld _ _ _ _ _) in Heq.
    destruct (IH (push_section s bin) w1)
      as (new & -> & Hown' & [Hfr Hframe] & Hsized & Hinit & Hpre & Hok');
      [by apply (owns_push _ _ s) | exact Heq |].
    unfold push_section in Hown' |- *.
    rewrite sections_set_sections in Hown' |- *.
    rewrite set_sections_twice, <- app_assoc.
    rewrite <- app_assoc in Hown'.
    cbn [app] in Hown' |- *.
    assert (p ∉ live_ptrs new) as Hpnew.
    { intros Hin. eapply Forall_forall in Hfr; [|done].
      subst w1; cbn in Hfr. by rewrite lookup_insert_eq in Hfr. }
    assert (heap w' !! p = Some buf) as Hbuf.
    { rewrite Hframe by done. subst w1. cbn. apply lookup_insert_eq. }
    exists (s :: new). split; [done|]. split; [done|].
    split.
    { split.
      - rewrite live_ptrs_cons, decide_False by done.
        constructor; [done|].
        eapply Forall_impl; [exact Hfr|]. intros q Hq. cbn in Hq.
        by apply lookup_insert_None in Hq as [? _].
      - intros q Hq. rewrite live_ptrs_cons, decide_False in Hq by done.
        apply not_elem_of_cons in Hq as [Hqp Hq].
        rewrite Hframe by done. cbn. by rewrite lookup_insert_ne. }
    split.
    { constructor; [|done]. split; [done|]. exists buf. split; [done|].
      subst buf. rewrite length_take. cbn. lia. }
    split; [done|]. split.
    { rewrite fmap_cons. by apply prefix_cons. }
    destruct ok.
    + destruct Hok' as (Hm & Ht & Hnr & Hcp).
      split; [rewrite fmap_cons; by rewrite Hm|]. split; [done|].
      split.
      { intros Hr. apply Hnr. by eapply refused_cons. }
      constructor; [|done]. by repeat split.
    + destruct Hok' as [Ht Hr]. split; [done|]. by apply refused_later.
  - change (NULL =? NULL)%N with true in Heq. cbn match in Heq.
    unfold bind, log, ret in Heq. simplify_eq.
    exists []. rewrite app_nil_r, set_sections_id. cbn.
    split; [done|]. split; [done|]. split; [by split; [constructor|]|].
    split; [constructor|]. split; [done|]. split; [apply prefix_nil|].
    split; [by eexists _, _|]. by apply refused_here.
Qed.

(** The loop returns when the bytes of the sections it copies are there. *)
Lemma sections_lem_loop_defined pbin iter bin w :
  Forall backed_lem (filter (kept_lem env) (yielded iter)) →
  is_Some (sections_lem_loop env pbin iter bin w).
Proof.
  revert bin w.
  induction iter as [|[section| |] iter IH]; intros bin w Hall;
    try (by eexists).
  cbn [sections_lem_loop yielded] in Hall |- *.
  rewrite filter_cons in Hall.
  pose proof (section_type_lem_kept section) as Hkept.
  destruct (section_type_lem env section) as [type|] eqn:Hty.
  2: { rewrite decide_False in Hall by done. by apply IH. }
  rewrite decide_True in Hall by done.
  apply Forall_cons in Hall as [Hlen Hall].
  unfold bind at 1. unfold malloc.
  destruct (malloc_ok env (mallocs w) (esec_size section)).
  - destruct (fresh_ptr_spec (heap w)) as [Hnn Hfresh].
    apply N.eqb_neq in Hnn as Hb. rewrite Hb.
    unfold bind at 1.
    rewrite memcpy_fresh by (cbn; apply lookup_insert_eq).
    rewrite decide_True by exact Hlen. by apply IH.
  - by eexists.
Qed.

Lemma release_after_extend (h h' : gmap N (list byte)) old new :
  extends_heap h h' new →
  delete_all (live_ptrs (old ++ new)) h' = delete_all (live_ptrs old) h.
Proof.
  intros [Hfr Hframe]. apply map_eq. intros q.
  rewrite !lookup_delete_all, live_ptrs_app.
  destruct (decide (q ∈ live_ptrs old)) as [Ho|Ho].
  - rewrite decide_True; [done|]. apply elem_of_app. by left.
  - destruct (decide (q ∈ live_ptrs new)) as [Hn|Hn].
    + rewrite decide_True by (apply elem_of_app; by right).
      by eapply Forall_forall in Hfr.
    + rewrite decide_False; [by apply Hframe|].
      by intros [?|?]%elem_of_app.
Qed.

Lemma load_sections_lem_spec pbin obj bin w r bin' w' :
  owns (heap w) (sections bin) →
  load_sections_lem env pbin obj bin w = Some ((r, bin'), w') →
  sections_post (obj_plan_lem env pbin obj) load_sections_lem_fn
                (fault_lem env obj (mallocs w)) bin w r bin' w'.
Proof.
  intros Hown Heq. unfold load_sections_lem in Heq.
  unfold obj_plan_lem, sections_post, fault_lem.
  unfold bind at 1 in Heq. unfold log at 1 in Heq.
  destruct (has_flag (obj_flags obj) (ELF_SHDRS_F env)); cbn [negb] in Heq.
  - set (w0 := mkWorld _ _ _ _ _) in Heq.
    unfold bind at 1 in Heq.
    destruct (sections_lem_loop env pbin (obj_sections obj) bin w0)
      as [[[ok b1] w1]|] eqn:Hloop; [|done].
    destruct (sections_lem_loop_spec pbin _ bin w0 _ _ _ Hown Hloop)
      as (new & -> & Hown' & Hext & Hsized & Hinit & Hpre & Hok).
    cbn [fst snd] in Heq. destruct ok.
    + destruct Hok as (Hm & Ht & Hnr & _). unfold ret in Heq. simplify_eq.
      split; [done|]. split; [done|].
      exists new. split; [done|]. left.
      rewrite sections_set_sections, Ht.
      repeat (split; [done|]). by intros [_ ?].
    + destruct Hok as [(name & size & Ht) Hr].
      unfold bind in Heq. rewrite sections_set_sections in Heq.
      rewrite release_sections_owned in Heq by done.
      unfold ret in Heq. simplify_eq. cbn.
      split; [done|]. split; [done|].
      exists new. split; [done|]. right.
      split; [done|]. split; [done|].
      split; [by apply release_after_extend|].
      split; [|done].
      exists (failed_to_allocate_section name size). split; [done|].
      rewrite Ht. cbn. by rewrite <- app_assoc.
  - unfold ret in Heq. simplify_eq. cbn.
    split; [done|]. split; [by rewrite set_sections_id|].
    exists []. split; [done|]. left. rewrite app_nil_r.
    split; [done|]. split; [done|]. split; [done|]. split; [exact Hown|].
    split; [by split; [constructor|]|]. split; [constructor|].
    split; [done|]. by intros [? _].
Qed.

Lemma load_sections_lem_defined pbin obj bin w :
  owns (heap w) (sections bin) → readable_lem env obj →
  is_Some (load_sections_lem env pbin obj bin w).
Proof.
  intros Hown Hread. unfold load_sections_lem, readable_lem in *.
  unfold bind at 1. unfold log at 1.
  destruct (has_flag (obj_flags obj) (ELF_SHDRS_F env)); cbn [negb];
    [|by eexists].
  set (w0 := mkWorld _ _ _ _ _).
  destruct (sections_lem_loop_defined pbin (obj_sections obj) bin w0
              (Hread eq_refl)) as [[[ok b1] w1] Hloop].
  unfold bind at 1. rewrite Hloop. cbn [fst snd].
  destruct ok; [by eexists|].
  destruct (sections_lem_loop_spec pbin _ bin w0 _ _ _ Hown Hloop)
    as (new & -> & Hown' & _).
  unfold bind. rewrite sections_set_sections.
  rewrite release_sections_owned by done. by eexists.
Qed.

(** A successful [load_sections_lem] has copied the sections it keeps. *)
Lemma load_sections_lem_copied pbin obj bin w bin' w' :
  owns (heap w) (sections bin) →
  has_flag (obj_flags obj) (ELF_SHDRS_F env) = true →
  load_sections_lem env pbin obj bin w = Some ((0, bin'), w') →
  ∃ new, sections bin' = sections bin ++ new ∧
         Forall2 (copied_lem (heap w')) new
           (filter (kept_lem env) (yielded (obj_sections obj))).
Proof.
  intros Hown Hflag Heq. unfold load_sections_lem in Heq.
  unfold bind at 1 in Heq. unfold log at 1 in Heq.
  rewrite Hflag in Heq. cbn [negb] in Heq.
  set (w0 := mkWorld _ _ _ _ _) in Heq.
  unfold bind at 1 in Heq.
  destruct (sections_lem_loop env pbin (obj_sections obj) bin w0)
    as [[[ok b1] w1]|] eqn:Hloop; [|done].
  destruct (sections_lem_loop_spec pbin _ bin w0 _ _ _ Hown Hloop)
    as (new & -> & Hown' & _ & _ & _ & _ & Hok).
  cbn [fst snd] in Heq. destruct ok.
  - destruct Hok as (_ & _ & _ & Hcp). unfold ret in Heq. simplify_eq.
    by exists new.
  - unfold bind in Heq. rewrite sections_set_sections in Heq.
    rewrite release_sections_owned in Heq by done.
    unfold ret in Heq. by simplify_eq.
Qed.

Lemma load_symbols_lem_spec obj bin w :
  load_symbols_lem env obj bin w =
  Some ((0, set_symbols (symbols bin ++ symtab_lem env obj) bin),
        logged w [call load_symbols_lem_fn]).
Proof.
  unfold load_symbols_lem, symtab_lem, bind, log, ret, logged.
  destruct (has_flag (obj_flags obj) (ELF_SYMTAB_F env)); cbn [negb].
  - by rewrite symbols_lem_loop_spec.
  - by rewrite app_nil_r, set_symbols_id.
Qed.

Lemma load_dynsym_lem_spec obj bin w :
  load_dynsym_lem env obj bin w =
  Some ((0, set_symbols (symbols bin ++ dynsym_lem env obj) bin),
        logged w [call load_dynsym_lem_fn]).
Proof.
  unfold load_dynsym_lem, dynsym_lem, bind, log, ret, logged.
  destruct (has_flag (obj_flags obj) (ELF_DYNSYM_F env)); cbn [negb].
  - by rewrite symbols_lem_loop_spec.
  - by rewrite app_nil_r, set_symbols_id.
Qed.

Lemma load_binary_lem_not_opened fname pbin bin w :
  elf_open_object env fname = None →
  load_binary_lem env fname pbin bin w =
  Some ((-1, bin), logged w [call load_binary_lem_fn]).
Proof. intros Ho. unfold load_binary_lem, bind, log. by rewrite Ho. Qed.

Lemma load_binary_lem_unsupported fname pbin bin w obj :
  elf_open_object env fname = Some obj →
  arch_lem obj (header_lem fname obj bin) = None →
  load_binary_lem env fname pbin bin w =
  Some ((-1, header_lem fname obj bin),
        logged w [call load_binary_lem_fn; stderr unsupported_architecture]).
Proof.
  intros Ho Ha. unfold load_binary_lem, bind, log. rewrite Ho.
  unfold arch_lem in Ha. destruct (obj_arch obj); try done.
  unfold ret, logged. cbn. by rewrite <- app_assoc.
Qed.

(** The body of [load_binary_lem] once the object is open and its
    architecture is supported. *)
Lemma load_binary_lem_opened fname pbin bin w obj bin1 :
  elf_open_object env fname = Some obj →
  arch_lem obj (header_lem fname obj bin) = Some bin1 →
  load_binary_lem env fname pbin bin w =
  match load_sections_lem env pbin obj
          (set_symbols (symbols bin ++ symtab_lem env obj ++ dynsym_lem env obj)
                       bin1)
          (set_handles (S (handles w))
             (logged w [call load_binary_lem_fn; call load_symbols_lem_fn;
                        call load_dynsym_lem_fn])) with
  | Some ((r3, b3), w3) =>
      match handles w3 with
      | S n => Some ((if r3 <? 0 then -1 else 0, b3), set_handles n w3)
      | O => None
      end
  | None => None
  end.
Proof.
  intros Ho Ha.
  set (b2 := set_symbols _ bin1). set (w2 := set_handles _ _).
  unfold load_binary_lem. unfold bind at 1. unfold log at 1. rewrite Ho.
  unfold bind at 1. unfold open_handle at 1.
  unfold arch_lem in Ha.
  destruct (obj_arch obj); simplify_eq;
    unfold bind at 1; unfold bind at 1; rewrite load_symbols_lem_spec;
    unfold bind at 1; rewrite load_dynsym_lem_spec;
    cbn [fst snd];
    match goal with
    | |- context [load_sections_lem _ _ _ ?b] =>
        replace b with b2 by (subst b2; cbn; by rewrite <- app_assoc)
    end;
    match goal with
    | |- context [bind (load_sections_lem _ _ _ _) _ ?w] =>
        replace w with w2
          by (subst w2; unfold logged, set_handles; cbn;
              by rewrite <- !app_assoc)
    end;
    unfold bind at 1;
    destruct (load_sections_lem env pbin obj b2 w2) as [[[r3 b3] w3]|];
    try done; cbn [fst snd];
    destruct (r3 <? 0); unfold ret at 1, bind, close_handle;
    by destruct (handles w3).
Qed.

Lemma load_binary_lem_supported fname pbin bin w obj bin1 r bin' w' :
  elf_open_object env fname = Some obj →
  arch_lem obj (header_lem fname obj bin) = Some bin1 →
  owns (heap w) (sections bin) →
  load_binary_lem env fname pbin bin w = Some ((r, bin'), w') →
  sections_post (obj_plan_lem env pbin obj) load_sections_lem_fn
    (fault_lem env obj (mallocs w))
    (set_symbols (symbols bin ++ symtab_lem env obj ++ dynsym_lem env obj) bin1)
    (logged w [call load_binary_lem_fn; call load_symbols_lem_fn;
               call load_dynsym_lem_fn])
    r bin' w'.
Proof.
  intros Ho Ha Hown Heq.
  rewrite (load_binary_lem_opened _ _ _ _ _ _ Ho Ha) in Heq.
  set (b2 := set_symbols _ bin1) in *. set (w2 := set_handles _ _) in *.
  destruct (load_sections_lem env pbin obj b2 w2)
    as [[[r3 b3] w3]|] eqn:H3; [|done].
  apply load_sections_lem_spec in H3.
  2: { subst b2 w2. cbn. unfold arch_lem in Ha.
       destruct (obj_arch obj); by simplify_eq. }
  pose proof H3 as ([_ Hh] & _ & new & _ & Hcase).
  subst w2. cbn in Hh. rewrite Hh in Heq.
  assert ((if r3 <? 0 then -1 else 0) = r3) as Hr
    by (destruct Hcase as [[-> _]|[-> _]]; done).
  rewrite Hr in Heq. simplify_eq.
  by apply (sections_post_set_handles _ _ _ _ _ _ _ _ (handles w)) in H3.
Qed.

Lemma load_binary_lem_defined fname pbin bin w :
  owns (heap w) (sections bin) → lem_readable env fname →
  is_Some (load_binary_lem env fname pbin bin w).
Proof.
  intros Hown Hread. unfold lem_readable in Hread.
  destruct (elf_open_object env fname) as [obj|] eqn:Ho.
  2: { rewrite load_binary_lem_not_opened by done. by eexists. }
  destruct (arch_lem obj (header_lem fname obj bin)) as [bin1|] eqn:Ha.
  2: { rewrite (load_binary_lem_unsupported _ _ _ _ obj) by done.
       by eexists. }
  rewrite (load_binary_lem_opened _ _ _ _ _ _ Ho Ha).
  set (b2 := set_symbols _ bin1). set (w2 := set_handles _ _).
  assert (owns (heap w2) (sections b2)) as Hown2.
  { subst b2 w2. cbn. unfold arch_lem in Ha.
    destruct (obj_arch obj); by simplify_eq. }
  destruct (load_sections_lem_defined pbin obj b2 w2 Hown2 Hread)
    as [[[r3 b3] w3] H3].
  rewrite H3.
  apply load_sections_lem_spec in H3 as ([_ Hh] & _); [|done].
  subst w2. cbn in Hh. rewrite Hh. by eexists.
Qed.

(** A successful [load_binary_lem] has copied the sections it keeps. *)
Lemma load_binary_lem_copied fname pbin bin w obj bin' w' :
  elf_open_object env fname = Some obj →
  has_flag (obj_flags obj) (ELF_SHDRS_F env) = true →
  owns (heap w) (sections bin) →
  load_binary_lem env fname pbin bin w = Some ((0, bin'), w') →
  ∃ new, sections bin' = sections bin ++ new ∧
         Forall2 (copied_lem (heap w')) new
           (filter (kept_lem env) (yielded (obj_sections obj))).
Proof.
  intros Ho Hflag Hown Heq.
  destruct (arch_lem obj (header_lem fname obj bin)) as [bin1|] eqn:Ha.
  2: { by rewrite (load_binary_lem_unsupported _ _ _ _ obj) in Heq. }
  rewrite (load_binary_lem_opened _ _ _ _ _ _ Ho Ha) in Heq.
  set (b2 := set_symbols _ bin1) in *. set (w2 := set_handles _ _) in *.
  assert (sections b2 = sections bin ∧ heap w2 = heap w) as [Hs2 Hh2].
  { subst b2 w2. cbn. unfold arch_lem in Ha.
    destruct (obj_arch obj); by simplify_eq. }
  destruct (load_sections_lem env pbin obj b2 w2)
    as [[[r3 b3] w3]|] eqn:H3; [|done].
  assert (owns (heap w2) (sections b2)) as Hown2 by (by rewrite Hs2, Hh2).
  destruct (handles w3); [done|].
  assert (r3 = 0) as ->.
  { pose proof (load_sections_lem_spec _ _ _ _ _ _ _ Hown2 H3)
      as (_ & _ & new & _ & [[-> _]|[-> _]]); [done|]. by simplify_eq. }
  simplify_eq.
  apply load_sections_lem_copied in H3; [|done|done].
  destruct H3 as (new & Hn & Hcp). exists new. by rewrite <- Hs2.
Qed.

End BackendA.

(** ** Backend B *)

Section BackendB.

Variable env : Env.

Lemma symbols_bfd_loop_spec tab bin :
  symbols_bfd_loop env tab bin =
  set_symbols (symbols bin ++ funcs_bfd env tab) bin.
Proof.
  unfold funcs_bfd. revert bin.
  induction tab as [|sym tab IH]; intros bin; cbn [symbols_bfd_loop].
  - by rewrite filter_nil, fmap_nil, app_nil_r, set_symbols_id.
  - rewrite filter_cons.
    destruct (has_flag (as_flags sym) (BSF_FUNCTION env)) eqn:Hf.
    + rewrite decide_True by done. rewrite IH. cbn.
      by rewrite <- app_assoc.
    + rewrite decide_False by done. apply IH.
Qed.

Lemma load_table_bfd_spec n canon d1 d2 bin w :
  is_table_failure d1 = true → is_table_failure d2 = true →
  ∃ r syms evs,
    load_table_bfd env n canon d1 d2 bin w =
      Some ((r, set_symbols (symbols bin ++ syms) bin),
            mkWorld (heap w) (mallocs w + table_allocs n)%nat (bfd_inited w)
                    (handles w) (trace w ++ evs)) ∧
    table_post env (mallocs w) n canon r syms evs.
Proof.
  intros Hd1 Hd2.
  unfold load_table_bfd, table_post, table_bfd, table_failed, table_allocs.
  destruct (Z.ltb_spec n 0) as [Hneg|Hnn].
  { exists (-1), [], [stderr d1].
    assert (Hlt : (0 <? n) = false) by (apply Z.ltb_ge; lia).
    rewrite Hlt, app_nil_r, set_symbols_id, Nat.add_0_r.
    split; [done|]. right. split; [done|]. split; [done|].
    split; [by eauto|]. by left. }
  destruct (Z.eqb_spec n 0) as [->|Hnz].
  { exists 0, [], [].
    rewrite !app_nil_r, set_symbols_id, Nat.add_0_r, World_eta.
    split; [done|]. left. cbn. split; [done|]. split; [done|].
    split; [done|]. intros [?|[? _]]; lia. }
  assert (Hlt : (0 <? n) = true) by (apply Z.ltb_lt; lia).
  rewrite Hlt. cbn [andb]. unfold bind at 1. unfold malloc.
  destruct (malloc_ok env (mallocs w) (Z.to_N n)) eqn:Hok.
  - destruct (fresh_ptr_spec (heap w)) as [Hp Hfresh].
    apply N.eqb_neq in Hp as Hb. rewrite Hb.
    destruct canon as [tab|].
    + exists 0, (funcs_bfd env tab), [].
      unfold bind, free, ret. cbn. rewrite Hb, lookup_insert_eq.
      rewrite delete_insert_id by done.
      rewrite symbols_bfd_loop_spec, app_nil_r, Nat.add_1_r.
      split; [done|]. left. split; [done|]. split; [done|].
      split; [done|]. intros [?|[_ [?|?]]]; [lia|congruence|done].
    + exists (-1), [], [stderr d1].
      unfold bind, free, log, ret. cbn. rewrite Hb, lookup_insert_eq.
      rewrite delete_insert_id by done.
      rewrite app_nil_r, set_symbols_id, Nat.add_1_r.
      split; [done|]. right. split; [done|]. split; [done|].
      split; [by eauto|]. right. split; [lia|]. by right.
  - exists (-1), [], [stderr d2]. cbn.
    rewrite app_nil_r, set_symbols_id, Nat.add_1_r.
    split; [done|]. right. split; [done|]. split; [done|].
    split; [by eauto|]. right. split; [lia|]. by left.
Qed.

(** The symbols a table contributes are a function of what BFD and the
    allocator answer. *)
Lemma table_post_syms k n canon r syms evs :
  table_post env k n canon r syms evs → syms = table_bfd env k n canon.
Proof.
  intros [(_ & _ & -> & _)|(_ & -> & _ & Hf)]; [done|].
  unfold table_bfd, table_failed in *.
  destruct Hf as [Hneg|[Hpos [Hno| ->]]].
  - assert ((0 <? n) = false) as -> by (apply Z.ltb_ge; lia). done.
  - rewrite Hno, andb_false_r. done.
  - by destruct (_ && _).
Qed.

Lemma section_type_bfd_kept bfd_sec :
  match section_type_bfd env bfd_sec with
  | Some _ => kept_bfd env bfd_sec
  | None => ¬ kept_bfd env bfd_sec
  end.
Proof.
  unfold section_type_bfd, kept_bfd.
  destruct (has_flag (bs_flags bfd_sec) (SEC_CODE env)) eqn:Hx.
  { by left. }
  destruct (has_flag (bs_flags bfd_sec) (SEC_DATA env)) eqn:Hal.
  { by right. }
  intros [?|?]; congruence.
Qed.

Lemma overwrite_take dst src n :
  length dst = n → (n ≤ length src)%nat → overwrite dst src n = take n src.
Proof.
  intros Hd Hs. unfold overwrite.
  rewrite length_take, Nat.min_l by done.
  rewrite drop_ge by lia. apply app_nil_r.
Qed.

Lemma filled_fresh (h : gmap N (list byte)) s data :
  h !! sec_bytes s
  = Some (overwrite (repeat x00 (N.to_nat (sec_size s))) data
            (N.to_nat (sec_size s))) →
  filled h s data.
Proof.
  intros Hl. eexists. split; [exact Hl|]. split.
  - apply length_overwrite, repeat_length.
  - intros Hlen. apply overwrite_take; [apply repeat_length | done].
Qed.

Lemma fault_sections_nil m : ¬ fault_sections env m [].
Proof.
  intros [Hr|Hex]; [by apply refused_nil in Hr | by apply Exists_nil in Hex].
Qed.

Lemma fault_sections_cons m bfd_sec kept data :
  malloc_ok env m (bs_size bfd_sec) = true →
  bs_contents bfd_sec = Some data →
  fault_sections env m (bfd_sec :: kept) → fault_sections env (S m) kept.
Proof.
  intros Hok Hdata [Hr|Hex].
  - left. rewrite fmap_cons in Hr. by eapply refused_cons.
  - right. apply Exists_cons in Hex as [Hno|Hex]; [congruence|done].
Qed.

Lemma fault_sections_later m bfd_sec kept :
  fault_sections env (S m) kept → fault_sections env m (bfd_sec :: kept).
Proof.
  intros [Hr|Hex].
  - left. rewrite fmap_cons. by apply refused_later.
  - right. by apply Exists_cons_tl.
Qed.

Lemma plan_bfd_cons pbin bfd_sec secs :
  plan_bfd env pbin (bfd_sec :: secs) =
  match section_type_bfd env bfd_sec with
  | Some type =>
      (pbin, name_or_unnamed (bs_name bfd_sec), type, bs_vma bfd_sec,
       bs_size bfd_sec) :: plan_bfd env pbin secs
  | None => plan_bfd env pbin secs
  end.
Proof. unfold plan_bfd. cbn. by destruct (section_type_bfd env bfd_sec). Qed.

Lemma owns_push_null h secs s :
  owns h secs → sec_bytes s = NULL → owns h (secs ++ [s]).
Proof.
  intros Hown Hnull. unfold owns.
  rewrite live_ptrs_app, live_ptrs_cons, decide_True by done.
  change (live_ptrs []) with (@nil N). by rewrite app_nil_r.
Qed.

Lemma sections_bfd_loop_spec pbin secs bin w :
  owns (heap w) (sections bin) →
  ∃ ok new w',
    sections_bfd_loop env pbin secs bin w =
      Some ((ok, set_sections (sections bin ++ new) bin), w') ∧
    owns (heap w') (sections bin ++ new) ∧
    extends_heap (heap w) (heap w') new ∧
    (bfd_inited w' = bfd_inited w ∧ handles w' = handles w) ∧
    (sec_meta <$> new) `prefix_of` plan_bfd env pbin secs ∧
    if ok then
      sec_meta <$> new = plan_bfd env pbin secs ∧
      Forall (sized (heap w')) new ∧ trace w' = trace w ∧
      ¬ fault_sections env (mallocs w) (filter (kept_bfd env) secs) ∧
      Forall2 (copied_bfd (heap w')) new (filter (kept_bfd env) secs)
    else
      (∃ d, is_section_failure d = true ∧ trace w' = trace w ++ [stderr d]) ∧
      fault_sections env (mallocs w) (filter (kept_bfd env) secs).
Proof.
  revert bin w.
  induction secs as [|bfd_sec secs IH]; intros bin w Hown.
  { exists true, [], w. rewrite app_nil_r, set_sections_id.
    split; [done|]. split; [done|]. split; [by split; [constructor|]|].
    split; [done|]. split; [done|]. split; [done|]. split; [constructor|].
    split; [done|]. rewrite filter_nil.
    split; [apply fault_sections_nil | constructor]. }
  cbn [sections_bfd_loop]. rewrite plan_bfd_cons, filter_cons.
  pose proof (section_type_bfd_kept bfd_sec) as Hkept.
  destruct (section_type_bfd env bfd_sec) as [type|] eqn:Hty.
  2: { rewrite decide_False by done. by apply IH. }
  rewrite decide_True by done.
  unfold bind at 1. unfold malloc.
  destruct (malloc_ok env (mallocs w) (bs_size bfd_sec)) eqn:Hok.
  - destruct (fresh_ptr_spec (heap w)) as [Hnn Hfresh].
    set (p := fresh_ptr (heap w)) in *.
    apply N.eqb_neq in Hnn as Hb. rewrite Hb.
    set (s := mkSection pbin _ type _ _ p).
    destruct (bs_contents bfd_sec) as [data|] eqn:Hdata.
    + unfold bind at 1, store_bytes.
      cbn [heap mallocs bfd_inited handles trace].
      rewrite lookup_insert_eq, insert_insert_eq.
      set (buf := overwrite _ _ _).
      set (w1 := mkWorld _ _ _ _ _).
      destruct (IH (push_section s bin) w1)
        as (ok & new & w' & Heq & Hown' & [Hfr Hframe] & Hinit & Hpre & Hok').
      { by apply (owns_push _ _ s). }
      unfold push_section in Heq, Hown'.
      rewrite sections_set_sections in Heq, Hown'.
      rewrite set_sections_twice, <- app_assoc in Heq.
      rewrite <- app_assoc in Hown'.
      cbn [app] in Heq, Hown'.
      assert (p ∉ live_ptrs new) as Hpnew.
      { intros Hin. eapply Forall_forall in Hfr; [|done].
        subst w1; cbn in Hfr. by rewrite lookup_insert_eq in Hfr. }
      assert (heap w' !! p = Some buf) as Hbuf.
      { rewrite Hframe by done. subst w1. cbn. apply lookup_insert_eq. }
      exists ok, (s :: new), w'. split; [exact Heq|]. split; [done|].
      split.
      { split.
        - rewrite live_ptrs_cons, decide_False by done.
          constructor; [done|].
          eapply Forall_impl; [exact Hfr|]. intros q Hq. cbn in Hq.
          by apply lookup_insert_None in Hq as [? _].
        - intros q Hq. rewrite live_ptrs_cons, decide_False in Hq by done.
          apply not_elem_of_cons in Hq as [Hqp Hq].
          rewrite Hframe by done. cbn. by rewrite lookup_insert_ne. }
      split; [done|]. split.
      { rewrite fmap_cons. by apply prefix_cons. }
      destruct ok.
      * destruct Hok' as (Hm & Hsized & Ht & Hnf & Hcp).
        split; [rewrite fmap_cons; by rewrite Hm|]. split.
        { constructor; [|done]. split; [done|]. exists buf. split; [done|].
          apply length_overwrite, repeat_length. }
        split; [done|]. split.
        { intros Hf. apply Hnf. by eapply fault_sections_cons. }
        constructor; [|done]. do 3 (split; [done|]).
        exists data. split; [done|]. by apply filled_fresh.
      * destruct Hok' as [Ht Hf]. split; [done|].
        by apply fault_sections_later.
    + eexists false, [s], _. unfold bind, log, ret.
      split; [done|]. cbn [heap mallocs bfd_inited handles trace].
      split; [by apply (owns_push _ _ s)|].
      split.
      { split.
        - rewrite live_ptrs_cons, decide_False by done. by repeat constructor.
        - intros q Hq. rewrite live_ptrs_cons, decide_False in Hq by done.
          apply not_elem_of_cons in Hq as [Hqp Hq].
          by rewrite lookup_insert_ne. }
      split; [done|]. split.
      { rewrite fmap_cons. apply prefix_cons, prefix_nil. }
      split; [by eexists (failed_to_read_section _)|].
      right. by apply Exists_cons_hd.
  - change (NULL =? NULL)%N with true. cbn match.
    set (s := mkSection pbin _ type _ _ NULL).
    eexists false, [s], _. unfold bind, log, ret.
    split; [done|]. cbn [heap mallocs bfd_inited handles trace].
    split; [by apply owns_push_null|].
    split; [by split; [constructor|]|].
    split; [done|]. split.
    { rewrite fmap_cons. apply prefix_cons, prefix_nil. }
    split; [by eexists (failed_to_allocate_section _ _)|].
    left. rewrite fmap_cons. by apply refused_here.
Qed.

Lemma load_sections_bfd_spec pbin bfd_h bin w :
  owns (heap w) (sections bin) →
  ∃ r bin' w',
    load_sections_bfd env pbin bfd_h bin w = Some ((r, bin'), w') ∧
    sections_post (plan_bfd env pbin (bfd_sections bfd_h)) load_sections_bfd_fn
                  (fault_bfd env bfd_h (mallocs w)) bin w r bin' w' ∧
    (r = 0 →
     ∃ new, sections bin' = sections bin ++ new ∧
            Forall2 (copied_bfd (heap w')) new
              (filter (kept_bfd env) (bfd_sections bfd_h))).
Proof.
  intros Hown. unfold load_sections_bfd, sections_post, fault_bfd.
  unfold bind at 1. unfold log at 1.
  set (w0 := mkWorld _ _ _ _ _).
  destruct (sections_bfd_loop_spec pbin (bfd_sections bfd_h) bin w0 Hown)
    as (ok & new & w' & Heq & Hown' & Hext & Hinit & Hpre & Hok).
  unfold bind at 1. rewrite Heq. cbn [fst snd].
  destruct ok.
  - destruct Hok as (Hm & Hsized & Ht & Hnf & Hcp). eexists 0, _, w'.
    split; [done|]. split.
    + split; [done|]. split; [done|].
      exists new. split; [done|]. left.
      rewrite sections_set_sections, Ht. done.
    + intros _. by exists new.
  - destruct Hok as [(d & Hd & Ht) Hf].
    unfold bind. rewrite sections_set_sections.
    rewrite release_sections_owned by done.
    eexists (-1), _, _. split; [done|]. cbn. split; [|done].
    split; [done|]. split; [done|].
    exists new. split; [done|]. right.
    split; [done|]. split; [done|].
    split; [by apply release_after_extend|].
    split; [|done].
    exists d. split; [done|].
    rewrite Ht. cbn. by rewrite <- app_assoc.
Qed.

Lemma bfd_opened_Some fname bfd_h :
  bfd_opened env fname = Some bfd_h →
  bfd_openr env fname = Some bfd_h ∧ check_format_object bfd_h = true ∧
  xvec_flavour bfd_h ≠ bfd_target_unknown_flavour.
Proof.
  unfold bfd_opened. intros Ho.
  destruct (bfd_openr env fname) as [h|]; [|done].
  destruct (check_format_object h) eqn:Hc; [|done].
  destruct (xvec_flavour h) eqn:Hf; simplify_eq; by rewrite Hf.
Qed.

Lemma leaked_bfd_opened fname bfd_h :
  bfd_opened env fname = Some bfd_h → leaked_bfd env fname = 0%nat.
Proof.
  intros Ho. unfold leaked_bfd. rewrite Ho. by destruct (bfd_openr env fname).
Qed.

Lemma open_bfd_spec fname w :
  ∃ evs,
    open_bfd env fname w =
      Some (bfd_opened env fname,
            mkWorld (heap w) (mallocs w) true
                    (match bfd_openr env fname with
                     | Some _ => S (handles w)
                     | None => handles w
                     end)
                    (trace w ++ call open_bfd_fn :: evs)) ∧
    match bfd_opened env fname with
    | Some _ => evs = []
    | None => ∃ d, evs = [stderr d] ∧ is_open_failure d = true
    end.
Proof.
  unfold open_bfd, bfd_opened, bind, log, ret, open_handle, set_handles.
  destruct (bfd_openr env fname) as [bfd_h|]; cbn.
  2: { eexists [_]. rewrite <- app_assoc. split; [done|]. by eexists. }
  destruct (check_format_object bfd_h); cbn.
  2: { eexists [_]. rewrite <- app_assoc. split; [done|]. by eexists. }
  destruct (xvec_flavour bfd_h); cbn;
    try (by exists []).
  eexists [_]. rewrite <- app_assoc. split; [done|]. by eexists.
Qed.

Lemma load_binary_bfd_not_opened fname pbin bin type w :
  bfd_opened env fname = None →
  ∃ d, is_open_failure d = true ∧
    load_binary_bfd env fname pbin bin type w =
    Some ((-1, bin),
          mkWorld (heap w) (mallocs w) true
            (handles w + leaked_bfd env fname)
            (trace w ++ [call load_binary_bfd_fn; call open_bfd_fn;
                         stderr d])).
Proof.
  intros Ho. unfold load_binary_bfd. unfold bind at 1. unfold log at 1.
  unfold bind.
  destruct (open_bfd_spec fname
              (mkWorld (heap w) (mallocs w) (bfd_inited w) (handles w)
                       (trace w ++ [call load_binary_bfd_fn])))
    as (evs & -> & Hevs).
  rewrite Ho in Hevs. destruct Hevs as (d & -> & Hd). rewrite Ho.
  exists d. split; [done|]. unfold ret, leaked_bfd. rewrite Ho. cbn.
  rewrite <- app_assoc.
  destruct (bfd_openr env fname); cbn; by rewrite ?Nat.add_1_r, ?Nat.add_0_r.
Qed.

Lemma load_binary_bfd_opened fname pbin bin type w bfd_h :
  bfd_opened env fname = Some bfd_h →
  load_binary_bfd env fname pbin bin type w =
  match type_bfd bfd_h (header_bfd fname bfd_h bin) with
  | None =>
      Some ((-1, header_bfd fname bfd_h bin),
            mkWorld (heap w) (mallocs w) true (handles w)
              (trace w ++ [call load_binary_bfd_fn; call open_bfd_fn;
                           stderr unsupported_binary_type]))
  | Some bin1 =>
      match arch_bfd env bfd_h bin1 with
      | None =>
          Some ((-1, set_arch_str (printable_name (arch_info bfd_h)) bin1),
                mkWorld (heap w) (mallocs w) true (handles w)
                  (trace w ++ [call load_binary_bfd_fn; call open_bfd_fn;
                               stderr unsupported_architecture]))
      | Some bin2 =>
          (r <- (r1 <- load_symbols_bfd env bfd_h bin2 ;;
                 r2 <- load_dynsym_bfd env bfd_h r1.2 ;;
                 r3 <- load_sections_bfd env pbin bfd_h r2.2 ;;
                 if r3.1 <? 0 then ret (-1, r3.2) else ret (0, r3.2)) ;;
           close_handle ;;; ret r)
            (mkWorld (heap w) (mallocs w) true (S (handles w))
               (trace w ++ [call load_binary_bfd_fn; call open_bfd_fn]))
      end
  end.
Proof.
  intros Ho. unfold load_binary_bfd. unfold bind at 1. unfold log at 1.
  unfold bind at 1.
  destruct (open_bfd_spec fname
              (mkWorld (heap w) (mallocs w) (bfd_inited w) (handles w)
                       (trace w ++ [call load_binary_bfd_fn])))
    as (evs & -> & Hevs).
  rewrite Ho in Hevs. subst evs. rewrite Ho.
  destruct (bfd_opened_Some _ _ Ho) as (-> & _ & _).
  cbn [heap mallocs handles trace].
  rewrite <- app_assoc. cbn [app].
  unfold type_bfd, arch_bfd.
  destruct (xvec_flavour bfd_h);
    try (unfold bind, log, ret, close_handle, set_handles; cbn;
         by rewrite <- app_assoc);
    (destruct (mach (arch_info bfd_h) =? bfd_mach_i386_i386 env); [done|];
     destruct (mach (arch_info bfd_h) =? bfd_mach_x86_64 env); [done|];
     unfold bind, log, ret, close_handle, set_handles; cbn;
     by rewrite <- app_assoc).
Qed.

Lemma type_arch_bfd_lists bfd_h fname bin bin1 bin2 :
  type_bfd bfd_h (header_bfd fname bfd_h bin) = Some bin1 →
  arch_bfd env bfd_h bin1 = Some bin2 →
  sections bin2 = sections bin ∧ symbols bin2 = symbols bin.
Proof.
  unfold type_bfd, arch_bfd. intros Ht Ha.
  destruct (xvec_flavour bfd_h); simplify_eq;
    destruct (mach (arch_info bfd_h) =? bfd_mach_i386_i386 env);
    simplify_eq; try done;
    destruct (mach (arch_info bfd_h) =? bfd_mach_x86_64 env);
    by simplify_eq.
Qed.

(** [load_binary_bfd] goes on to extraction exactly on the files it
    accepts. *)
Lemma accepted_bfd_iff bfd_h fname bin :
  accepted_bfd env bfd_h ↔
  ∃ bin1 bin2, type_bfd bfd_h (header_bfd fname bfd_h bin) = Some bin1 ∧
               arch_bfd env bfd_h bin1 = Some bin2.
Proof.
  unfold accepted_bfd, type_bfd, arch_bfd. split.
  - intros [Hfl Hm].
    destruct Hfl as [-> | ->];
      [exists (set_type BIN_TYPE_ELF (header_bfd fname bfd_h bin))
      |exists (set_type BIN_TYPE_PE (header_bfd fname bfd_h bin))];
      (destruct (Z.eqb_spec (mach (arch_info bfd_h)) (bfd_mach_i386_i386 env))
         as [?|Hn1]; [by eexists|];
       destruct (Z.eqb_spec (mach (arch_info bfd_h)) (bfd_mach_x86_64 env))
         as [?|Hn2]; [by eexists|]; by destruct Hm).
  - intros (bin1 & bin2 & Ht & Ha).
    destruct (xvec_flavour bfd_h); simplify_eq;
      (split; [by auto|]);
      destruct (Z.eqb_spec (mach (arch_info bfd_h)) (bfd_mach_i386_i386 env));
      [by left| |by left|];
      destruct (Z.eqb_spec (mach (arch_info bfd_h)) (bfd_mach_x86_64 env));
      [by right|done|by right|done].
Qed.

Lemma load_binary_bfd_supported fname pbin bin type w bfd_h bin1 bin2 :
  bfd_opened env fname = Some bfd_h →
  type_bfd bfd_h (header_bfd fname bfd_h bin) = Some bin1 →
  arch_bfd env bfd_h bin1 = Some bin2 →
  owns (heap w) (sections bin) →
  ∃ r bin' w' r1 r2 syms1 syms2 evs1 evs2,
    load_binary_bfd env fname pbin bin type w = Some ((r, bin'), w') ∧
    table_post env (mallocs w) (symtab_upper_bound bfd_h)
               (canonicalize_symtab bfd_h) r1 syms1 evs1 ∧
    table_post env (mallocs w + table_allocs (symtab_upper_bound bfd_h))
               (dynamic_symtab_upper_bound bfd_h)
               (canonicalize_dynamic_symtab bfd_h) r2 syms2 evs2 ∧
    sections_post (plan_bfd env pbin (bfd_sections bfd_h)) load_sections_bfd_fn
      (fault_bfd env bfd_h (mallocs w + table_mallocs bfd_h))
      (set_symbols (symbols bin ++ syms1 ++ syms2) bin2)
      (mkWorld (heap w) (mallocs w + table_mallocs bfd_h)%nat true (handles w)
         (trace w ++ [call load_binary_bfd_fn; call open_bfd_fn;
                      call load_symbols_bfd_fn] ++ evs1 ++
                     [call load_dynsym_bfd_fn] ++ evs2))
      r bin' w' ∧
    (r = 0 →
     ∃ new, sections bin' = sections bin ++ new ∧
            Forall2 (copied_bfd (heap w')) new
              (filter (kept_bfd env) (bfd_sections bfd_h))).
Proof.
  intros Ho Ht Ha Hown.
  destruct (type_arch_bfd_lists _ _ _ _ _ Ht Ha) as [Hsecs Hsyms].
  rewrite (load_binary_bfd_opened _ _ _ _ _ _ Ho), Ht, Ha.
  unfold bind at 1. unfold bind at 1.
  unfold load_symbols_bfd. unfold bind at 1.
  unfold log at 1. cbn [heap mallocs bfd_inited handles trace].
  set (w1 := mkWorld _ _ _ _ _).
  destruct (load_table_bfd_spec (symtab_upper_bound bfd_h)
              (canonicalize_symtab bfd_h) failed_to_read_symtab
              failed_to_allocate_symtab bin2 w1 eq_refl eq_refl)
    as (r1 & syms1 & evs1 & -> & Hp1).
  cbn [fst snd]. unfold bind at 1. unfold load_dynsym_bfd. unfold bind at 1.
  unfold log at 1. cbn [heap mallocs bfd_inited handles trace].
  set (b1 := set_symbols _ bin2). set (w2 := mkWorld _ _ _ _ _).
  destruct (load_table_bfd_spec (dynamic_symtab_upper_bound bfd_h)
              (canonicalize_dynamic_symtab bfd_h) failed_to_read_dynsym
              failed_to_allocate_dynsym b1 w2 eq_refl eq_refl)
    as (r2 & syms2 & evs2 & -> & Hp2).
  cbn [fst snd heap mallocs bfd_inited handles trace].
  set (b2 := set_symbols _ b1). set (w3 := mkWorld _ _ _ _ _).
  destruct (load_sections_bfd_spec pbin bfd_h b2 w3)
    as (r & bin' & w' & Heq & Hpost & Hcp).
  { subst b2 b1 w3. cbn. by rewrite Hsecs. }
  pose proof Hpost as ([_ Hh] & _ & new & _ & Hcase).
  assert ((if r <? 0 then -1 else 0) = r) as Hr
    by (destruct Hcase as [[-> _]|[-> _]]; done).
  exists r, bin', (set_handles (handles w) w'), r1, r2, syms1, syms2, evs1, evs2.
  split.
  { unfold bind at 1. rewrite Heq. cbn [fst snd].
    unfold bind, ret, close_handle.
    destruct Hcase as [[-> _]|[-> _]]; cbn; rewrite Hh; by subst w3. }
  split; [done|]. split; [done|]. split.
  - replace (set_symbols (symbols bin ++ syms1 ++ syms2) bin2) with b2.
    2: { subst b2 b1. cbn. by rewrite Hsyms, <- app_assoc. }
    apply (sections_post_set_handles _ _ _ _ _ _ _ _ (handles w)) in Hpost.
    replace (mkWorld _ _ _ _ _) with (set_handles (handles w) w3).
    + replace (mallocs w + table_mallocs bfd_h)%nat with (mallocs w3); [done|].
      subst w3 w2 w1. unfold table_mallocs. cbn. lia.
    + subst w3 w2 w1. unfold set_handles, table_mallocs. cbn.
      f_equal; [lia|]. rewrite <- !app_assoc. done.
  - intros Hr0. destruct (Hcp Hr0) as (new' & Hn & Hc).
    exists new'. split; [|done]. rewrite Hn. subst b2 b1. cbn.
    by rewrite Hsecs.
Qed.

End BackendB.

(** ** Outcomes of the two backends *)

(** Membership in an explicit list of events, case by case. *)
Ltac elem_cases H :=
  repeat (apply elem_of_cons in H as [H|H]; [try discriminate H|]);
  try (by apply elem_of_nil in H).

Section Outcomes.

Variable env : Env.

Lemma new_events_app w w' evs :
  trace w' = trace w ++ evs → new_events w w' = evs.
Proof. unfold new_events. intros ->. by rewrite drop_app_length. Qed.

Lemma arch_lem_Some obj bin bin1 :
  arch_lem obj bin = Some bin1 →
  arch_ok bin1 ∧ sections bin1 = sections bin ∧ symbols bin1 = symbols bin.
Proof.
  unfold arch_lem, arch_ok. intros Ha.
  destruct (obj_arch obj); simplify_eq; cbn; tauto.
Qed.

Lemma arch_bfd_Some bfd_h bin bin1 :
  arch_bfd env bfd_h bin = Some bin1 → arch_ok bin1.
Proof.
  unfold arch_bfd, arch_ok. intros Ha.
  destruct (mach (arch_info bfd_h) =? bfd_mach_i386_i386 env);
    simplify_eq; cbn; [tauto|].
  destruct (mach (arch_info bfd_h) =? bfd_mach_x86_64 env);
    simplify_eq; cbn; tauto.
Qed.

(** Sections that were sized stay so when fresh buffers are added. *)
Lemma sized_extends h h' new s :
  extends_heap h h' new → sized h s → sized h' s.
Proof.
  intros [Hfr Hframe] [Hnn (buf & Hbuf & Hlen)]. split; [done|].
  exists buf. split; [|done]. rewrite Hframe; [done|].
  intros Hin. eapply Forall_forall in Hfr; [|done]. by rewrite Hbuf in Hfr.
Qed.

(** What both backends have in common once the sections are extracted. *)
Lemma sections_post_facts plan f fault bin w r bin' w' :
  owns (heap w) (sections bin) →
  sections_post plan f fault bin w r bin' w' →
  (r = 0 ∨ r = -1) ∧
  owns (heap w') (sections bin') ∧
  symbols bin' = symbols bin ∧
  bin_arch bin' = bin_arch bin ∧ bin_bits bin' = bin_bits bin ∧
  (∃ evs, trace w' = trace w ++ call f :: evs ∧
          Forall (λ e, ∃ d, e = stderr d ∧ is_section_failure d = true) evs ∧
          (r = 0 → evs = []) ∧ (r = -1 → evs ≠ [])) ∧
  (r = 0 →
     (∃ new, sections bin' = sections bin ++ new ∧ sec_meta <$> new = plan) ∧
     (Forall (sized (heap w)) (sections bin) →
      Forall (sized (heap w')) (sections bin'))) ∧
  (r = -1 →
     Forall (λ s, sec_bytes s = NULL) (sections bin') ∧
     heap w' = delete_all (live_ptrs (sections bin)) (heap w)).
Proof.
  intros Hown (Hinit & Hbin & new & Hpre & Hcase).
  assert (symbols bin' = symbols bin ∧ bin_arch bin' = bin_arch bin ∧
          bin_bits bin' = bin_bits bin) as (Hs & Ha & Hb).
  { by rewrite Hbin. }
  destruct Hcase as [(-> & Hsecs & Hm & Hown' & Hext & Hsized & Ht & _)
                    |(-> & Hsecs & Hheap & (d & Hd & Ht) & _)].
  - split; [by left|]. split; [done|]. split; [done|]. split; [done|].
    split; [done|]. split.
    { exists []. split; [done|]. split; [constructor|]. done. }
    split; [|done]. intros _. split; [by exists new|].
    intros Hold. rewrite Hsecs. apply Forall_app. split; [|done].
    eapply Forall_impl; [exact Hold|]. intros s.
    by apply (sized_extends _ _ new).
  - split; [by right|]. split; [rewrite Hsecs; apply owns_clear|].
    split; [done|]. split; [done|]. split; [done|]. split.
    { exists [stderr d]. split; [done|]. split; [|done].
      constructor; [by exists d|constructor]. }
    split; [done|]. intros _. split; [|done].
    rewrite Hsecs. apply Forall_clear_null.
Qed.

(** Section extraction fails exactly on a fault, and keeps the handles. *)
Lemma sections_post_fault plan f fault bin w r bin' w' :
  sections_post plan f fault bin w r bin' w' →
  (fault → r = -1) ∧ (¬ fault → r = 0) ∧ handles w' = handles w.
Proof.
  intros ([_ Hh] & _ & new & _ & Hcase).
  destruct Hcase as [(-> & _ & _ & _ & _ & _ & _ & Hnf)
                    |(-> & _ & _ & _ & Hf)]; by repeat split.
Qed.

Lemma load_binary_lem_outcome fname pbin bin w r bin' w' :
  owns (heap w) (sections bin) →
  load_binary_lem env fname pbin bin w = Some ((r, bin'), w') →
  ∃ evs,
    (r = 0 ∨ r = -1) ∧
    trace w' = trace w ++ call load_binary_lem_fn :: evs ∧
    Forall (λ e, is_lem_event e = true) evs ∧
    owns (heap w') (sections bin') ∧
    (∃ syms, symbols bin' = symbols bin ++ syms) ∧
    (r = 0 →
       arch_ok bin' ∧ (∃ new, sections bin' = sections bin ++ new) ∧
       (Forall (sized (heap w)) (sections bin) →
        Forall (sized (heap w')) (sections bin'))) ∧
    ((∃ d, is_section_failure d = true ∧ stderr d ∈ evs) →
       r = -1 ∧ Forall (λ s, sec_bytes s = NULL) (sections bin') ∧
       heap w' = delete_all (live_ptrs (sections bin)) (heap w)) ∧
    handles w' = handles w.
Proof.
  intros Hown Heq.
  destruct (elf_open_object env fname) as [obj|] eqn:Ho.
  2: { rewrite load_binary_lem_not_opened in Heq by done. simplify_eq.
       exists [].
       split; [by right|]. split; [done|].
       split; [constructor|]. split; [done|].
       split; [by exists []; rewrite app_nil_r|].
       split; [done|]. split; [|done]. intros (d & _ & Hd). elem_cases Hd. }
  destruct (arch_lem obj (header_lem fname obj bin)) as [bin1|] eqn:Ha.
  2: { rewrite (load_binary_lem_unsupported env _ _ _ _ obj) in Heq by done.
       simplify_eq. exists [stderr unsupported_architecture].
       split; [by right|]. split; [done|].
       split; [by repeat constructor|]. split; [done|].
       split; [by exists []; rewrite app_nil_r|].
       split; [done|]. split; [|done]. intros (d & Hsf & Hd). elem_cases Hd.
       by simplify_eq. }
  pose proof (load_binary_lem_supported env fname pbin bin w obj bin1 r bin' w'
                Ho Ha Hown Heq) as Hpost.
  apply arch_lem_Some in Ha as (Harch & Hsecs1 & Hsyms1).
  pose proof (sections_post_fault _ _ _ _ _ _ _ _ Hpost) as (_ & _ & Hh).
  apply sections_post_facts in Hpost
    as (Hr & Hown' & Hsyms & Hba & Hbb & (evs & Ht & Hevs & Hev0 & Hev1)
        & Hsucc & Hfail).
  2: { cbn. by rewrite Hsecs1. }
  cbn in Hsyms, Hba, Hbb, Ht, Hsucc, Hfail, Hh.
  rewrite Hsecs1 in Hsucc, Hfail.
  exists ([call load_symbols_lem_fn; call load_dynsym_lem_fn;
           call load_sections_lem_fn] ++ evs).
  split; [done|].
  split; [rewrite Ht, <- !app_assoc; done|].
  split.
  { apply Forall_app. split; [by repeat constructor|].
    eapply Forall_impl; [exact Hevs|]. by intros e (d & -> & _). }
  split; [done|].
  split; [by eexists|].
  split.
  { intros Hr0. destruct (Hsucc Hr0) as [(new & Hnew & _) Hsized].
    split; [|split; [by exists new|done]].
    unfold arch_ok. by rewrite Hba, Hbb. }
  split; [|done].
  intros (d & Hsf & Hd). destruct Hr as [-> | ->]; [|by split; [|apply Hfail]].
  rewrite (Hev0 eq_refl), app_nil_r in Hd. elem_cases Hd.
Qed.

Lemma table_failure_not_section d :
  is_table_failure d = true → is_section_failure d = false.
Proof. by destruct d. Qed.

Lemma table_post_events k n canon r syms evs :
  table_post env k n canon r syms evs →
  Forall (λ e, is_bfd_event e = true) evs ∧
  ∀ d, is_section_failure d = true → stderr d ∉ evs.
Proof.
  intros [(_ & -> & _)|(_ & _ & (d & -> & Hd) & _)].
  - split; [constructor|]. intros d _ Hin. elem_cases Hin.
  - split; [by repeat constructor|]. intros d' Hsf Hin. elem_cases Hin.
    simplify_eq. apply table_failure_not_section in Hd. congruence.
Qed.

Lemma load_binary_bfd_outcome fname pbin bin type w :
  owns (heap w) (sections bin) →
  ∃ r bin' w' evs,
    load_binary_bfd env fname pbin bin type w = Some ((r, bin'), w') ∧
    (r = 0 ∨ r = -1) ∧
    trace w' = trace w ++ call load_binary_bfd_fn :: evs ∧
    Forall (λ e, is_bfd_event e = true) evs ∧
    owns (heap w') (sections bin') ∧
    (∃ syms, symbols bin' = symbols bin ++ syms) ∧
    (r = 0 →
       arch_ok bin' ∧ (∃ new, sections bin' = sections bin ++ new) ∧
       (Forall (sized (heap w)) (sections bin) →
        Forall (sized (heap w')) (sections bin'))) ∧
    ((∃ d, is_section_failure d = true ∧ stderr d ∈ evs) →
       r = -1 ∧ Forall (λ s, sec_bytes s = NULL) (sections bin') ∧
       heap w' = delete_all (live_ptrs (sections bin)) (heap w)) ∧
    handles w' = (handles w + leaked_bfd env fname)%nat.
Proof.
  intros Hown.
  destruct (bfd_opened env fname) as [bfd_h|] eqn:Ho.
  2: { destruct (load_binary_bfd_not_opened env fname pbin bin type w Ho)
         as (d & Hd & Heq).
       eexists _, _, _, [_; _]. split; [exact Heq|].
       split; [by right|]. split; [done|].
       split; [by repeat constructor|]. split; [done|].
       split; [by exists []; rewrite app_nil_r|].
       split; [done|]. split; [|done].
       intros (d' & Hsf & Hin). elem_cases Hin.
       simplify_eq.
       match goal with H : is_open_failure ?x = true |- _ => by destruct x end. }
  rewrite (load_binary_bfd_opened env _ _ _ _ _ _ Ho).
  rewrite (leaked_bfd_opened env _ _ Ho), Nat.add_0_r.
  destruct (type_bfd bfd_h (header_bfd fname bfd_h bin)) as [bin1|] eqn:Hty.
  2: { eexists _, _, _, [_; _]. split; [done|].
       split; [by right|]. split; [done|].
       split; [by repeat constructor|]. split; [done|].
       split; [by exists []; rewrite app_nil_r|].
       split; [done|]. split; [|done].
       intros (d' & Hsf & Hin). elem_cases Hin.
       by simplify_eq. }
  destruct (arch_bfd env bfd_h bin1) as [bin2|] eqn:Ha.
  2: { eexists _, _, _, [_; _]. split; [done|].
       split; [by right|]. split; [done|].
       split; [by repeat constructor|].
       assert (sections bin1 = sections bin ∧ symbols bin1 = symbols bin)
         as [Hs1 Hs2].
       { unfold type_bfd in Hty. destruct (xvec_flavour bfd_h); by simplify_eq. }
       cbn. rewrite Hs1, Hs2.
       split; [done|].
       split; [by exists []; rewrite app_nil_r|].
       split; [done|]. split; [|done].
       intros (d' & Hsf & Hin). elem_cases Hin.
       by simplify_eq. }
  destruct (load_binary_bfd_supported env fname pbin bin type w bfd_h bin1 bin2
              Ho Hty Ha Hown)
    as (r & bin' & w' & r1 & r2 & syms1 & syms2 & evs1 & evs2
        & Heq & Hp1 & Hp2 & Hpost & _).
  pose proof (sections_post_fault _ _ _ _ _ _ _ _ Hpost) as (_ & _ & Hh).
  rewrite (load_binary_bfd_opened env _ _ _ _ _ _ Ho), Hty, Ha in Heq.
  destruct (type_arch_bfd_lists env _ _ _ _ _ Hty Ha) as [Hsecs2 Hsyms2].
  apply arch_bfd_Some in Ha as Harch.
  apply table_post_events in Hp1 as [He1 Hn1].
  apply table_post_events in Hp2 as [He2 Hn2].
  apply sections_post_facts in Hpost
    as (Hr & Hown' & Hsyms & Hba & Hbb & (evs & Ht & Hevs & Hev0 & Hev1)
        & Hsucc & Hfail).
  2: { cbn. by rewrite Hsecs2. }
  cbn in Hsyms, Hba, Hbb, Ht, Hsucc, Hfail.
  rewrite Hsecs2 in Hsucc, Hfail.
  exists r, bin', w',
    ([call open_bfd_fn; call load_symbols_bfd_fn] ++ evs1 ++
     [call load_dynsym_bfd_fn] ++ evs2 ++ [call load_sections_bfd_fn] ++ evs).
  split; [done|]. split; [done|].
  split.
  { rewrite Ht. by repeat (cbn; rewrite <- app_assoc). }
  split.
  { repeat (apply Forall_app; split); try done; try (by repeat constructor).
    eapply Forall_impl; [exact Hevs|]. by intros e (d & -> & _). }
  split; [done|].
  split; [by eexists|].
  split.
  { intros Hr0. destruct (Hsucc Hr0) as [(new & Hnew & _) Hsized].
    split; [|split; [by exists new|done]].
    unfold arch_ok. by rewrite Hba, Hbb. }
  split; [|done].
  intros (d & Hsf & Hd). destruct Hr as [-> | ->]; [|by split; [|apply Hfail]].
  rewrite (Hev0 eq_refl), app_nil_r in Hd.
  exfalso.
  apply elem_of_app in Hd as [Hd|Hd]; [elem_cases Hd|].
  apply elem_of_app in Hd as [Hd|Hd]; [by eapply Hn1|].
  apply elem_of_app in Hd as [Hd|Hd]; [elem_cases Hd|].
  apply elem_of_app in Hd as [Hd|Hd]; [by eapply Hn2|].
  elem_cases Hd.
Qed.

End Outcomes.

(** ** Properties of the loader *)

Section Properties.

Variable env : Env.

Lemma lem_event_not_bfd evs :
  Forall (λ e, is_lem_event e = true) evs → call load_binary_bfd_fn ∉ evs.
Proof.
  intros Hall Hin. eapply Forall_forall in Hall; [|exact Hin].
  discriminate Hall.
Qed.

Lemma bfd_event_not_lem evs :
  Forall (λ e, is_bfd_event e = true) evs → call load_binary_lem_fn ∉ evs.
Proof.
  intros Hall Hin. eapply Forall_forall in Hall; [|exact Hin].
  discriminate Hall.
Qed.

(** The three ways [load_binary] runs the backends. *)
Lemma load_binary_cases fname pbin bin type w r bin' w' :
  owns (heap w) (sections bin) →
  load_binary env fname pbin bin type w = Some ((r, bin'), w') →
  (type ≠ BIN_TYPE_PE ∧ (r = 0 ∨ type = BIN_TYPE_ELF) ∧
   run_backend env BackendA fname pbin bin type w = Some ((r, bin'), w')) ∨
  (type = BIN_TYPE_PE ∧
   run_backend env BackendB fname pbin bin type w = Some ((r, bin'), w')) ∨
  (type = BIN_TYPE_AUTO ∧
   ∃ binA wA,
     run_backend env BackendA fname pbin bin type w = Some ((-1, binA), wA) ∧
     owns (heap wA) (sections binA) ∧
     run_backend env BackendB fname pbin binA type wA
       = Some ((r, bin'), w')).
Proof.
  intros Hown Heq. cbn [run_backend].
  destruct type; [| |right; by left]; unfold load_binary, bind in Heq;
    (destruct (load_binary_lem env fname pbin bin w)
       as [[[rA binA] wA]|] eqn:HeqA; [|done]);
    destruct (load_binary_lem_outcome env _ _ _ _ _ _ _ Hown HeqA)
      as (evsA & HrA & _ & _ & HownA & _);
    cbn [fst snd] in Heq.
  - destruct HrA as [-> | ->]; cbn [Z.eqb orb] in Heq.
    + unfold ret in Heq. simplify_eq. left. split; [done|]. by split; [left|].
    + right. right. split; [done|]. by exists binA, wA.
  - rewrite orb_true_r in Heq. unfold ret in Heq. simplify_eq.
    left. split; [done|]. by split; [right|].
Qed.

(** [load_binary] returns on a [Binary] that owns its buffers when the
    sections Backend A is to copy have their bytes. *)
Lemma load_binary_defined fname pbin bin type w :
  owns (heap w) (sections bin) → lem_readable env fname →
  is_Some (load_binary env fname pbin bin type w).
Proof.
  intros Hown Hread.
  destruct (load_binary_lem_defined env fname pbin bin w Hown Hread)
    as [[[rA binA] wA] HeqA].
  destruct (load_binary_lem_outcome env _ _ _ _ _ _ _ Hown HeqA)
    as (evsA & HrA & _ & _ & HownA & _).
  destruct type; unfold load_binary, bind.
  - rewrite HeqA. cbn [fst snd].
    destruct HrA as [-> | ->]; cbn [Z.eqb orb]; [by eexists|].
    destruct (load_binary_bfd_outcome env fname pbin binA BIN_TYPE_AUTO wA
                HownA) as (r & bin' & w' & evs & -> & _).
    by eexists.
  - rewrite HeqA, orb_true_r. by eexists.
  - destruct (load_binary_bfd_outcome env fname pbin bin BIN_TYPE_PE w Hown)
      as (r & bin' & w' & evs & -> & _).
    by eexists.
Qed.

(** C1: on a [Binary] that owns its buffers, and for a file whose sections
    have their bytes (so that the [memcpy] of Backend A is defined),
    [load_binary] returns, and
    - with hint ELF its result is the result of Backend A, whose entry is
      the first event, and Backend B is not entered;
    - with hint PE its result is the result of Backend B, whose entry is
      the first event, and Backend A is not entered;
    - with hint AUTO Backend A is entered first; when it returns 0 that is
      the result and Backend B is not entered; otherwise Backend B is
      entered, on the [Binary] and world Backend A left, and its result is
      the result. *)
Theorem load_binary_dispatch fname pbin bin type w :
  owns (heap w) (sections bin) →
  lem_readable env fname →
  ∃ r bin' w',
    load_binary env fname pbin bin type w = Some ((r, bin'), w') ∧
    match type with
    | BIN_TYPE_ELF =>
        load_binary_lem env fname pbin bin w = Some ((r, bin'), w') ∧
        head (new_events w w') = Some (call load_binary_lem_fn) ∧
        ¬ invoked load_binary_bfd_fn w w'
    | BIN_TYPE_PE =>
        load_binary_bfd env fname pbin bin type w = Some ((r, bin'), w') ∧
        head (new_events w w') = Some (call load_binary_bfd_fn) ∧
        ¬ invoked load_binary_lem_fn w w'
    | BIN_TYPE_AUTO =>
        ∃ rA binA wA,
          load_binary_lem env fname pbin bin w = Some ((rA, binA), wA) ∧
          head (new_events w w') = Some (call load_binary_lem_fn) ∧
          if rA =? 0
          then (r, bin', w') = (rA, binA, wA) ∧
               ¬ invoked load_binary_bfd_fn w w'
          else load_binary_bfd env fname pbin binA type wA
                 = Some ((r, bin'), w') ∧
               invoked load_binary_bfd_fn w w'
    end.
Proof.
  intros Hown Hread. unfold invoked.
  destruct (load_binary_lem_defined env fname pbin bin w Hown Hread)
    as [[[rA binA] wA] HeqA].
  destruct (load_binary_lem_outcome env _ _ _ _ _ _ _ Hown HeqA)
    as (evsA & HrA & HtA & HevA & HownA & _).
  destruct (load_binary_bfd_outcome env fname pbin bin type w Hown)
    as (rB & binB & wB & evsB & HeqB & HrB & HtB & HevB & HownB & _).
  destruct type.
  - (* AUTO *)
    unfold load_binary, bind. rewrite HeqA. cbn [fst snd].
    destruct HrA as [-> | ->]; cbn [Z.eqb orb].
    + exists 0, binA, wA. split; [done|]. exists 0, binA, wA.
      split; [done|]. rewrite (new_events_app _ _ _ HtA).
      split; [done|]. cbn. split; [done|].
      intros [?|Hin]%elem_of_cons; [done|].
      by apply lem_event_not_bfd in HevA.
    + destruct (load_binary_bfd_outcome env fname pbin binA BIN_TYPE_AUTO wA
                  HownA)
        as (r & bin' & w' & evs & Heq & _ & Ht & _).
      exists r, bin', w'. split; [done|]. exists (-1), binA, wA.
      split; [done|].
      rewrite HtA, <- app_assoc in Ht.
      rewrite (new_events_app _ _ _ Ht). split; [done|]. cbn.
      split; [done|]. right. apply elem_of_app. right. by left.
  - (* ELF *)
    exists rA, binA, wA. unfold load_binary, bind. rewrite HeqA.
    rewrite orb_true_r. split; [done|]. split; [done|].
    rewrite (new_events_app _ _ _ HtA). split; [done|].
    intros [?|Hin]%elem_of_cons; [done|].
    by apply lem_event_not_bfd in HevA.
  - (* PE *)
    exists rB, binB, wB. split; [done|]. split; [done|].
    rewrite (new_events_app _ _ _ HtB). split; [done|].
    intros [?|Hin]%elem_of_cons; [done|].
    by apply bfd_event_not_lem in HevB.
Qed.

Lemma run_backend_outcome backend fname pbin bin type w r bin' w' :
  owns (heap w) (sections bin) →
  run_backend env backend fname pbin bin type w = Some ((r, bin'), w') →
  ∃ evs,
    (r = 0 ∨ r = -1) ∧
    trace w' = trace w ++ call (backend_fn backend) :: evs ∧
    owns (heap w') (sections bin') ∧
    (∃ syms, symbols bin' = symbols bin ++ syms) ∧
    (r = 0 →
       arch_ok bin' ∧ (∃ new, sections bin' = sections bin ++ new) ∧
       (Forall (sized (heap w)) (sections bin) →
        Forall (sized (heap w')) (sections bin'))) ∧
    ((∃ d, is_section_failure d = true ∧ stderr d ∈ evs) →
       r = -1 ∧ Forall (λ s, sec_bytes s = NULL) (sections bin') ∧
       heap w' = delete_all (live_ptrs (sections bin)) (heap w)).
Proof.
  intros Hown Heq. destruct backend; cbn [run_backend backend_fn] in *.
  - destruct (load_binary_lem_outcome env _ _ _ _ _ _ _ Hown Heq)
      as (evs & ? & ? & ? & ? & ? & ? & ? & ?).
    by exists evs.
  - destruct (load_binary_bfd_outcome env fname pbin bin type w Hown)
      as (r1 & b1 & w1 & evs & Heq1 & ? & ? & ? & ? & ? & ? & ? & ?).
    rewrite Heq in Heq1. simplify_eq. by exists evs.
Qed.





(** C10: when Backend A opens the file, finds a supported machine and the
    object lacks the section-headers flag, [load_sections_lem] returns 0 at
    once, leaving the [Binary] and the heap as they are; [load_binary]
    with hint AUTO or ELF then returns 0 with the sections the [Binary] had
    before the call: none for a new [Binary]. *)
Theorem no_section_headers_no_sections fname pbin bin type w obj :
  elf_open_object env fname = Some obj →
  obj_arch obj ≠ unsupported →
  has_flag (obj_flags obj) (ELF_SHDRS_F env) = false →
  type ≠ BIN_TYPE_PE →
  (∀ b0 w0,
     load_sections_lem env pbin obj b0 w0 =
     Some ((0, b0), logged w0 [call load_sections_lem_fn])) ∧
  ∃ bin' w',
    load_binary env fname pbin bin type w = Some ((0, bin'), w') ∧
    sections bin' = sections bin ∧
    (bin = Binary_new → sections bin' = []) ∧
    heap w' = heap w ∧ mallocs w' = mallocs w.
Proof.
  intros Ho Ha Hf Hty.
  assert (∀ b0 w0,
     load_sections_lem env pbin obj b0 w0 =
     Some ((0, b0), logged w0 [call load_sections_lem_fn])) as Hsec.
  { intros b0 w0. unfold load_sections_lem, bind, log. by rewrite Hf. }
  split; [done|].
  assert (∃ bin' w',
    load_binary_lem env fname pbin bin w = Some ((0, bin'), w') ∧
    sections bin' = sections bin ∧ heap w' = heap w ∧
    mallocs w' = mallocs w) as (bin' & w' & Heq & Hs & Hh & Hm).
  { assert (∃ bh, arch_lem obj (header_lem fname obj bin) = Some bh)
      as [bh Hbh].
    { unfold arch_lem. destruct (obj_arch obj); by eauto. }
    rewrite (load_binary_lem_opened env _ _ _ _ _ _ Ho Hbh), Hsec. cbn.
    eexists _, _. split; [done|]. cbn.
    apply arch_lem_Some in Hbh as (_ & Hs & _). by rewrite Hs. }
  exists bin', w'. split.
  { unfold load_binary, bind. destruct type; [| |done]; by rewrite Heq. }
  split; [done|]. split; [|done]. intros ->. by rewrite Hs.
Qed.

(** C5 (as amended): on a [Binary] that owns its buffers, a backend that
    has opened and accepted the file returns (Backend A: when the sections
    of the object have their bytes), and returns 0 whenever section
    extraction meets no fault, whatever the symbol tables are.  The symbols
    of the [Binary] are then the ones it had, followed by those of the
    static table and those of the dynamic table.  In Backend A a table
    contributes the function entries its iterator yields before it stops,
    whatever stops it, and nothing when the table's flag is absent.  In
    Backend B a table contributes every function entry it holds when it can
    be read (positive upper bound, buffer granted, canonicalisation
    succeeded), and nothing otherwise. *)
Theorem symbols_are_best_effort fname pbin bin type w :
  owns (heap w) (sections bin) →
  (∀ obj,
     elf_open_object env fname = Some obj →
     obj_arch obj ≠ unsupported →
     readable_lem env obj →
     ∃ r bin' w',
       load_binary_lem env fname pbin bin w = Some ((r, bin'), w') ∧
       symbols bin' =
         symbols bin ++ symtab_lem env obj ++ dynsym_lem env obj ∧
       (¬ fault_lem env obj (mallocs w) → r = 0)) ∧
  (∀ bfd_h,
     bfd_opened env fname = Some bfd_h →
     accepted_bfd env bfd_h →
     ∃ r bin' w',
       load_binary_bfd env fname pbin bin type w = Some ((r, bin'), w') ∧
       symbols bin' =
         symbols bin ++
         table_bfd env (mallocs w) (symtab_upper_bound bfd_h)
           (canonicalize_symtab bfd_h) ++
         table_bfd env (mallocs w + table_allocs (symtab_upper_bound bfd_h))
           (dynamic_symtab_upper_bound bfd_h)
           (canonicalize_dynamic_symtab bfd_h) ∧
       (¬ fault_bfd env bfd_h (mallocs w + table_mallocs bfd_h) → r = 0)).
Proof.
  intros Hown. split.
  - intros obj Ho Ha Hread.
    assert (∃ bh, arch_lem obj (header_lem fname obj bin) = Some bh)
      as [bh Hbh].
    { unfold arch_lem. destruct (obj_arch obj); by eauto. }
    destruct (load_binary_lem_defined env fname pbin bin w Hown)
      as [[[r bin'] w'] Heq].
    { unfold lem_readable. by rewrite Ho. }
    pose proof (load_binary_lem_supported env _ _ _ _ _ _ _ _ _
                  Ho Hbh Hown Heq) as Hpost.
    apply arch_lem_Some in Hbh as (_ & Hsecs & _).
    pose proof (sections_post_fault _ _ _ _ _ _ _ _ Hpost) as (_ & Hnf & _).
    apply sections_post_facts in Hpost as (_ & _ & Hsyms & _).
    2: { cbn. by rewrite Hsecs. }
    by exists r, bin', w'.
  - intros bfd_h Ho Hacc.
    apply (accepted_bfd_iff env bfd_h fname bin) in Hacc
      as (b1 & b2 & Hb1 & Hb2).
    destruct (load_binary_bfd_supported env fname pbin bin type w bfd_h
                b1 b2 Ho Hb1 Hb2 Hown)
      as (r & bin' & w' & r1 & r2 & syms1 & syms2 & evs1 & evs2
          & Heq & Hp1 & Hp2 & Hpost & _).
    destruct (type_arch_bfd_lists env _ _ _ _ _ Hb1 Hb2) as [Hsecs _].
    pose proof (sections_post_fault _ _ _ _ _ _ _ _ Hpost) as (_ & Hnf & _).
    apply sections_post_facts in Hpost as (_ & _ & Hsyms & _).
    2: { cbn. by rewrite Hsecs. }
    apply table_post_syms in Hp1, Hp2. subst syms1 syms2.
    by exists r, bin', w'.
Qed.

Lemma plan_lem_filter pbin iter :
  plan_lem env pbin iter = meta_lem env pbin <$> filter (kept_lem env) (yielded iter).
Proof.
  unfold plan_lem. induction (yielded iter) as [|section l IH]; [done|].
  rewrite filter_cons. cbn [omap list_omap]. rewrite IH.
  unfold section_type_lem, meta_lem, kind_of.
  destruct (Z.eqb_spec (esec_type section) (SHT_NOBITS env)) as [Hn|Hn].
  { rewrite decide_False; [done|]. by intros [? _]. }
  destruct (has_flag (esec_flags section) (SHF_EXECINSTR env)) eqn:Hx.
  { rewrite decide_True; [cbn; by rewrite Hx|]. split; [done|]. by left. }
  destruct (has_flag (esec_flags section) (SHF_ALLOC env)) eqn:Hal.
  { rewrite decide_True; [cbn; by rewrite Hx|]. split; [done|]. by right. }
  rewrite decide_False; [done|]. intros [_ [?|?]]; congruence.
Qed.

Lemma plan_bfd_filter pbin secs :
  plan_bfd env pbin secs = meta_bfd env pbin <$> filter (kept_bfd env) secs.
Proof.
  unfold plan_bfd. induction secs as [|bfd_sec l IH]; [done|].
  rewrite filter_cons. cbn [omap list_omap]. rewrite IH.
  unfold section_type_bfd, meta_bfd, kind_of.
  destruct (has_flag (bs_flags bfd_sec) (SEC_CODE env)) eqn:Hx.
  { rewrite decide_True; [cbn; by rewrite Hx|]. by left. }
  destruct (has_flag (bs_flags bfd_sec) (SEC_DATA env)) eqn:Hal.
  { rewrite decide_True; [cbn; by rewrite Hx|]. by right. }
  rewrite decide_False; [done|]. intros [?|?]; congruence.
Qed.

Lemma sections_post_meta plan f fault bin w r bin' w' :
  sections_post plan f fault bin w r bin' w' →
  ∃ new,
    sec_meta <$> sections bin' = sec_meta <$> (sections bin ++ new) ∧
    (sec_meta <$> new) `prefix_of` plan ∧
    (r = 0 → sections bin' = sections bin ++ new ∧ sec_meta <$> new = plan ∧
             Forall (sized (heap w')) new).
Proof.
  intros (_ & _ & new & Hpre & Hcase). exists new.
  destruct Hcase as [(-> & Hsecs & Hm & _ & _ & Hsized & _)
                    |(-> & Hsecs & _)].
  - rewrite Hsecs. done.
  - rewrite Hsecs, <- list_fmap_compose. split; [done|]. split; [done|].
    done.
Qed.

(** Each backend keeps the sections of a [Binary] sized: when they all have
    a live buffer of their size before the call and the backend returns 0,
    they all have one after it. *)
Lemma run_backend_sized backend fname pbin bin type w bin' w' :
  owns (heap w) (sections bin) →
  Forall (sized (heap w)) (sections bin) →
  run_backend env backend fname pbin bin type w = Some ((0, bin'), w') →
  Forall (sized (heap w')) (sections bin').
Proof.
  intros Hown Hsized Heq.
  destruct (run_backend_outcome _ _ _ _ _ _ _ _ _ Hown Heq)
    as (evs & _ & _ & _ & _ & Hsucc & _).
  by apply Hsucc.
Qed.

End Properties.

(** ** The two stages of a backend call *)

Section Stages.

Variable env : Env.

Lemma funcs_lem_func iter :
  Forall (λ s, sym_type s = SYM_TYPE_FUNC) (funcs_lem env iter).
Proof. unfold funcs_lem. apply Forall_fmap, Forall_true. done. Qed.

Lemma funcs_bfd_func tab :
  Forall (λ s, sym_type s = SYM_TYPE_FUNC) (funcs_bfd env tab).
Proof. unfold funcs_bfd. apply Forall_fmap, Forall_true. done. Qed.

Lemma table_post_func k n canon r syms evs :
  table_post env k n canon r syms evs →
  Forall (λ s, sym_type s = SYM_TYPE_FUNC) syms.
Proof.
  intros [(_ & _ & -> & _)|(_ & -> & _)]; [|constructor].
  unfold table_bfd. destruct (_ && _); [|constructor].
  destruct canon; [apply funcs_bfd_func | constructor].
Qed.

Lemma plan_lem_ok pbin obj : plan_ok pbin (obj_plan_lem env pbin obj).
Proof.
  unfold plan_ok, obj_plan_lem.
  destruct (has_flag (obj_flags obj) (ELF_SHDRS_F env)); [|constructor].
  rewrite plan_lem_filter. apply Forall_fmap, Forall_true.
  intros section. cbn. split; [done|]. unfold kind_of.
  by destruct (has_flag _ _).
Qed.

Lemma plan_bfd_ok pbin secs : plan_ok pbin (plan_bfd env pbin secs).
Proof.
  unfold plan_ok. rewrite plan_bfd_filter. apply Forall_fmap, Forall_true.
  intros section. cbn. split; [done|]. unfold kind_of.
  by destruct (has_flag _ _).
Qed.

(** A backend call on a [Binary] that owns its buffers, when it returns,
    has ended early or gone through section extraction from a staged
    state. *)
Lemma run_backend_cases backend fname pbin bin type w r bin' w' :
  owns (heap w) (sections bin) →
  run_backend env backend fname pbin bin type w = Some ((r, bin'), w') →
  ended_early (leaked env backend fname) bin w r bin' w' ∨
  ∃ plan f fault b0 w0,
    staged fname bin w b0 w0 ∧ plan_ok pbin plan ∧
    sections_post plan f fault b0 w0 r bin' w'.
Proof.
  intros Hown Heq. destruct backend; cbn [run_backend leaked] in *.
  - destruct (elf_open_object env fname) as [obj|] eqn:Ho.
    2: { rewrite load_binary_lem_not_opened in Heq by done. simplify_eq.
         left. unfold ended_early, new_events, logged. cbn.
         rewrite drop_app_length, Nat.add_0_r. repeat (split; [done|]).
         intros d _ Hin. elem_cases Hin. }
    destruct (arch_lem obj (header_lem fname obj bin)) as [bin1|] eqn:Ha.
    2: { rewrite (load_binary_lem_unsupported env _ _ _ _ obj) in Heq by done.
         simplify_eq.
         left. unfold ended_early, new_events, logged. cbn.
         rewrite drop_app_length, Nat.add_0_r. repeat (split; [done|]).
         intros d Hd Hin. elem_cases Hin. by simplify_eq. }
    pose proof (load_binary_lem_supported env _ _ _ _ _ _ _ _ _
                  Ho Ha Hown Heq) as Hpost.
    right.
    eexists _, _, _, _, _. split; [|split; [apply plan_lem_ok | exact Hpost]].
    unfold arch_lem in Ha. unfold staged.
    split; [destruct (obj_arch obj); by simplify_eq|].
    split.
    { eexists. split; [done|]. apply Forall_app. split.
      - unfold symtab_lem. destruct (has_flag _ _);
          [apply funcs_lem_func | constructor].
      - unfold dynsym_lem. destruct (has_flag _ _);
          [apply funcs_lem_func | constructor]. }
    split; [destruct (obj_arch obj); by simplify_eq|].
    split; [destruct (obj_arch obj); by simplify_eq|].
    split; [done|]. eexists. split; [done|].
    intros d _ Hin. elem_cases Hin.
  - destruct (bfd_opened env fname) as [bfd_h|] eqn:Ho.
    2: { destruct (load_binary_bfd_not_opened env fname pbin bin type w Ho)
           as (d & Hd & Heq1).
         rewrite Heq in Heq1. simplify_eq. left.
         unfold ended_early, new_events. cbn.
         rewrite drop_app_length. repeat (split; [done|]).
         intros d' Hd' Hin. elem_cases Hin. simplify_eq.
         by destruct d. }
    rewrite (leaked_bfd_opened env _ _ Ho).
    destruct (type_bfd bfd_h (header_bfd fname bfd_h bin)) as [bin1|] eqn:Hty.
    2: { rewrite (load_binary_bfd_opened env _ _ _ _ _ _ Ho), Hty in Heq.
         simplify_eq. left.
         unfold ended_early, new_events. cbn.
         rewrite drop_app_length, Nat.add_0_r. repeat (split; [done|]).
         intros d' Hd' Hin. elem_cases Hin. by simplify_eq. }
    destruct (arch_bfd env bfd_h bin1) as [bin2|] eqn:Ha.
    2: { rewrite (load_binary_bfd_opened env _ _ _ _ _ _ Ho), Hty, Ha in Heq.
         simplify_eq.
         assert (sections bin1 = sections bin ∧ symbols bin1 = symbols bin)
           as [Hs1 Hs2].
         { unfold type_bfd in Hty.
           destruct (xvec_flavour bfd_h); by simplify_eq. }
         left.
         unfold ended_early, new_events. cbn.
         rewrite drop_app_length, Hs1, Hs2, Nat.add_0_r.
         repeat (split; [done|]).
         intros d' Hd' Hin. elem_cases Hin. by simplify_eq. }
    destruct (load_binary_bfd_supported env fname pbin bin type w bfd_h
                bin1 bin2 Ho Hty Ha Hown)
      as (r1 & b1 & w1 & rt1 & rt2 & syms1 & syms2 & evs1 & evs2
          & Heq1 & Hp1 & Hp2 & Hpost & _).
    rewrite Heq in Heq1. simplify_eq.
    destruct (type_arch_bfd_lists env _ _ _ _ _ Hty Ha) as [Hsecs Hsyms].
    right.
    eexists _, _, _, _, _. split; [|split; [apply plan_bfd_ok | exact Hpost]].
    unfold staged. split; [done|]. split.
    { eexists. split; [done|]. apply Forall_app. split.
      - by eapply table_post_func.
      - by eapply table_post_func. }
    split.
    { unfold type_bfd, arch_bfd in *.
      destruct (xvec_flavour bfd_h); simplify_eq;
        destruct (mach (arch_info bfd_h) =? bfd_mach_i386_i386 env);
        simplify_eq; try done;
        destruct (mach (arch_info bfd_h) =? bfd_mach_x86_64 env);
        by simplify_eq. }
    split.
    { unfold type_bfd, arch_bfd in *.
      destruct (xvec_flavour bfd_h); simplify_eq;
        destruct (mach (arch_info bfd_h) =? bfd_mach_i386_i386 env);
        simplify_eq; try done;
        destruct (mach (arch_info bfd_h) =? bfd_mach_x86_64 env);
        by simplify_eq. }
    split; [done|]. eexists. split; [done|].
    apply table_post_events in Hp1 as [_ Hn1].
    apply table_post_events in Hp2 as [_ Hn2].
    intros d Hd Hin.
    apply elem_of_app in Hin as [Hin|Hin]; [elem_cases Hin|].
    apply elem_of_app in Hin as [Hin|Hin]; [by eapply Hn1|].
    apply elem_of_app in Hin as [Hin|Hin]; [elem_cases Hin|].
    by eapply Hn2.
Qed.

End Stages.

(** ** Further properties of the loader *)

Section Further.

Variable env : Env.

(** Section extraction keeps the heap outside the [Binary]. *)
Lemma sections_post_heap plan f fault bin w r bin' w' :
  sections_post plan f fault bin w r bin' w' →
  delete_all (live_ptrs (sections bin')) (heap w')
  = delete_all (live_ptrs (sections bin)) (heap w).
Proof.
  intros (_ & _ & new & _ & Hcase).
  destruct Hcase as [(_ & Hsecs & _ & _ & Hext & _)|(_ & Hsecs & Hheap & _)].
  - rewrite Hsecs. by apply release_after_extend.
  - by rewrite Hsecs, live_ptrs_clear.
Qed.

Lemma run_backend_heap backend fname pbin bin type w r bin' w' :
  owns (heap w) (sections bin) →
  run_backend env backend fname pbin bin type w = Some ((r, bin'), w') →
  owns (heap w') (sections bin') ∧
  delete_all (live_ptrs (sections bin')) (heap w')
  = delete_all (live_ptrs (sections bin)) (heap w).
Proof.
  intros Hown Heq.
  destruct (run_backend_cases env _ _ _ _ _ _ _ _ _ Hown Heq)
    as [(_ & Hs & _ & Hh & _)
       |(plan & f & fault & b0 & w0 & (Hs0 & _ & _ & _ & [Hh0 _] & _) & _
         & Hpost)].
  - by rewrite Hs, Hh.
  - split.
    + apply sections_post_facts in Hpost as (_ & Hown' & _); [done|].
      by rewrite Hs0, Hh0.
    + rewrite (sections_post_heap _ _ _ _ _ _ _ _ Hpost). by rewrite Hs0, Hh0.
Qed.

(** The handles a backend leaves open: none in Backend A, and in Backend B
    the one [open_bfd] has left. *)
Lemma run_backend_handles backend fname pbin bin type w r bin' w' :
  owns (heap w) (sections bin) →
  run_backend env backend fname pbin bin type w = Some ((r, bin'), w') →
  handles w' = (handles w + leaked env backend fname)%nat.
Proof.
  intros Hown Heq. destruct backend; cbn [run_backend leaked] in *.
  - destruct (load_binary_lem_outcome env _ _ _ _ _ _ _ Hown Heq)
      as (evs & _ & _ & _ & _ & _ & _ & _ & ->).
    by rewrite Nat.add_0_r.
  - destruct (load_binary_bfd_outcome env fname pbin bin type w Hown)
      as (r1 & b1 & w1 & evs & Heq1 & _ & _ & _ & _ & _ & _ & _ & Hh).
    rewrite Heq in Heq1. by simplify_eq.
Qed.

(** X1: [unload_binary] returns exactly on the [Binary]s that own their
    buffers: with a dangling [bytes] pointer, or with two sections that
    share a buffer, a [free] is undefined. *)
Theorem unload_binary_defined_iff_owns bin w :
  is_Some (unload_binary bin w) ↔ owns (heap w) (sections bin).
Proof.
  split; [|intros Hown; rewrite unload_binary_owned by done; by eexists].
  unfold unload_binary, bind. intros [res Hres].
  assert (is_Some (release_sections (sections bin) w)) as Hrel.
  { destruct (release_sections (sections bin) w); [by eexists|done]. }
  clear Hres res. revert w Hrel.
  induction (sections bin) as [|s secs IH]; intros w [res Hres];
    [apply owns_nil|].
  cbn [release_sections] in Hres. unfold bind at 1 in Hres.
  unfold owns. rewrite live_ptrs_cons.
  destruct (decide (sec_bytes s = NULL)) as [Hnull|Hnn].
  - apply N.eqb_eq in Hnull as Hb. rewrite Hb in Hres.
    unfold ret at 1 in Hres. unfold bind in Hres.
    apply IH. destruct (release_sections secs w); [by eexists|done].
  - apply N.eqb_neq in Hnn as Hb. rewrite Hb in Hres.
    unfold bind at 1 in Hres. unfold free in Hres. rewrite Hb in Hres.
    destruct (heap w !! sec_bytes s) as [buf|] eqn:Hbuf; [|done].
    unfold ret at 1 in Hres. unfold bind in Hres.
    set (w1 := mkWorld _ _ _ _ _) in Hres.
    destruct (IH w1) as [Hnd Hlive].
    { destruct (release_sections secs w1); [by eexists|done]. }
    cbn in Hlive.
    assert (sec_bytes s ∉ live_ptrs secs) as Hnotin.
    { intros Hin. eapply Forall_forall in Hlive; [|done].
      rewrite lookup_delete_eq in Hlive. by destruct Hlive. }
    split.
    + by apply NoDup_cons.
    + constructor; [by eexists|].
      apply Forall_forall. intros p Hp.
      eapply Forall_forall in Hlive; [|done].
      rewrite lookup_delete_ne in Hlive; [done|]. by intros <-.
Qed.

(** [load_binary] keeps the heap outside the [Binary]. *)
Lemma load_binary_heap fname pbin bin type w r bin' w' :
  owns (heap w) (sections bin) →
  load_binary env fname pbin bin type w = Some ((r, bin'), w') →
  owns (heap w') (sections bin') ∧
  delete_all (live_ptrs (sections bin')) (heap w')
  = delete_all (live_ptrs (sections bin)) (heap w).
Proof.
  intros Hown Heq.
  destruct (load_binary_cases env _ _ _ _ _ _ _ _ Hown Heq)
    as [(_ & _ & HA)|[(_ & HB)|(_ & binA & wA & HA & HownA & HB)]].
  - by eapply run_backend_heap.
  - by eapply run_backend_heap.
  - destruct (run_backend_heap _ _ _ _ _ _ _ _ _ Hown HA) as [_ Hheap1].
    destruct (run_backend_heap _ _ _ _ _ _ _ _ _ HownA HB) as [Hown2 Hheap2].
    split; [done|]. by rewrite Hheap2.
Qed.

(** A backend only appends to the log, its own entry first; the events of
    Backend A are not an entry of Backend B. *)
Lemma run_backend_trace backend fname pbin bin type w r bin' w' :
  owns (heap w) (sections bin) →
  run_backend env backend fname pbin bin type w = Some ((r, bin'), w') →
  ∃ evs, trace w' = trace w ++ call (backend_fn backend) :: evs ∧
         (backend = BackendA → call load_binary_bfd_fn ∉ evs).
Proof.
  intros Hown Heq. destruct backend; cbn [run_backend backend_fn] in *.
  - destruct (load_binary_lem_outcome env _ _ _ _ _ _ _ Hown Heq)
      as (evs & _ & Ht & Hev & _).
    exists evs. split; [done|]. intros _. by apply lem_event_not_bfd.
  - destruct (load_binary_bfd_outcome env fname pbin bin type w Hown)
      as (r1 & b1 & w1 & evs & Heq1 & _ & Ht & _).
    rewrite Heq in Heq1. simplify_eq. by exists evs.
Qed.

(** The handles [load_binary] leaves open: the one [open_bfd] has left,
    when Backend B was entered. *)
Lemma load_binary_handles fname pbin bin type w r bin' w' :
  owns (heap w) (sections bin) →
  load_binary env fname pbin bin type w = Some ((r, bin'), w') →
  (invoked load_binary_bfd_fn w w' →
   handles w' = (handles w + leaked_bfd env fname)%nat) ∧
  (¬ invoked load_binary_bfd_fn w w' → handles w' = handles w).
Proof.
  intros Hown Heq. unfold invoked.
  destruct (load_binary_cases env _ _ _ _ _ _ _ _ Hown Heq)
    as [(_ & _ & HA)|[(_ & HB)|(_ & binA & wA & HA & HownA & HB)]].
  - pose proof (run_backend_handles _ _ _ _ _ _ _ _ _ Hown HA) as Hh.
    destruct (run_backend_trace _ _ _ _ _ _ _ _ _ Hown HA)
      as (evs & Ht & Hno).
    cbn in Hh. rewrite Nat.add_0_r in Hh.
    rewrite (new_events_app _ _ _ Ht). split; [|done].
    intros [?|Hin]%elem_of_cons; [done|]. by apply Hno in Hin.
  - pose proof (run_backend_handles _ _ _ _ _ _ _ _ _ Hown HB) as Hh.
    destruct (run_backend_trace _ _ _ _ _ _ _ _ _ Hown HB)
      as (evs & Ht & _).
    rewrite (new_events_app _ _ _ Ht). split; [done|].
    intros Hno. exfalso. apply Hno. by left.
  - pose proof (run_backend_handles _ _ _ _ _ _ _ _ _ Hown HA) as HhA.
    pose proof (run_backend_handles _ _ _ _ _ _ _ _ _ HownA HB) as HhB.
    destruct (run_backend_trace _ _ _ _ _ _ _ _ _ Hown HA)
      as (evsA & HtA & _).
    destruct (run_backend_trace _ _ _ _ _ _ _ _ _ HownA HB)
      as (evsB & HtB & _).
    cbn in HhA, HhB. rewrite Nat.add_0_r in HhA. rewrite HhA in HhB.
    rewrite HtA, <- app_assoc in HtB.
    rewrite (new_events_app _ _ _ HtB). split; [done|].
    intros Hno. exfalso. apply Hno. apply elem_of_app. right. by left.
Qed.

(** X2: for a file whose sections have their bytes, whatever the hint and
    the outcome, [load_binary] called on a [Binary] that owns its buffers
    returns a [Binary] that owns its buffers, and every address that is
    not a buffer of the [Binary], before or after the call, holds after the
    call what it held before: no buffer obtained from [malloc] is left
    behind and no foreign buffer is freed or written.  The library handles
    are all closed again, but for one when Backend B was entered and
    [open_bfd] gave up on a file that [bfd_openr] had opened. *)
Theorem load_binary_keeps_foreign_heap fname pbin bin type w :
  owns (heap w) (sections bin) →
  lem_readable env fname →
  ∃ r bin' w',
    load_binary env fname pbin bin type w = Some ((r, bin'), w') ∧
    owns (heap w') (sections bin') ∧
    (∀ p, p ∉ live_ptrs (sections bin) → p ∉ live_ptrs (sections bin') →
          heap w' !! p = heap w !! p) ∧
    (invoked load_binary_bfd_fn w w' →
     handles w' = (handles w + leaked_bfd env fname)%nat) ∧
    (¬ invoked load_binary_bfd_fn w w' → handles w' = handles w).
Proof.
  intros Hown Hread.
  destruct (load_binary_defined env fname pbin bin type w Hown Hread)
    as [[[r bin'] w'] Heq].
  destruct (load_binary_heap _ _ _ _ _ _ _ _ Hown Heq) as [Hown' Hheap].
  exists r, bin', w'. split; [done|]. split; [done|].
  split; [|by eapply load_binary_handles].
  intros p Hp Hp'.
  assert (delete_all (live_ptrs (sections bin')) (heap w') !! p
          = delete_all (live_ptrs (sections bin)) (heap w) !! p) as Hlook
    by (by rewrite Hheap).
  rewrite !lookup_delete_all in Hlook.
  by rewrite !decide_False in Hlook.
Qed.

(** X3: a load followed by an unload gives the buffers back.  For a file
    whose sections have their bytes, whatever the hint and the outcome of
    [load_binary] on a [Binary] that owns its buffers, [unload_binary] then
    returns, leaves every [bytes] null, and the heap is the heap before the
    load without the buffers the [Binary] held then: the same heap when the
    [Binary] had no section.  A handle stays open only when Backend B was
    entered and [open_bfd] gave up on a file that [bfd_openr] had
    opened. *)
Theorem load_then_unload fname pbin bin type w :
  owns (heap w) (sections bin) →
  lem_readable env fname →
  ∃ r bin' w' bin'' w'',
    load_binary env fname pbin bin type w = Some ((r, bin'), w') ∧
    unload_binary bin' w' = Some (bin'', w'') ∧
    Forall (λ s, sec_bytes s = NULL) (sections bin'') ∧
    heap w'' = delete_all (live_ptrs (sections bin)) (heap w) ∧
    (sections bin = [] → heap w'' = heap w) ∧
    (invoked load_binary_bfd_fn w w' →
     handles w'' = (handles w + leaked_bfd env fname)%nat) ∧
    (¬ invoked load_binary_bfd_fn w w' → handles w'' = handles w).
Proof.
  intros Hown Hread.
  destruct (load_binary_defined env fname pbin bin type w Hown Hread)
    as [[[r bin'] w'] Heq].
  destruct (load_binary_heap _ _ _ _ _ _ _ _ Hown Heq) as [Hown' Hheap].
  eexists r, bin', w', _, _. split; [done|].
  split; [by apply unload_binary_owned|].
  split; [apply Forall_clear_null|]. cbn. split; [done|].
  split; [intros Hnil; by rewrite Hheap, Hnil|].
  by eapply load_binary_handles.
Qed.

(** X4: reading a symbol table through BFD never leaks and is never
    undefined, whatever the heap: [load_symbols_bfd] and [load_dynsym_bfd]
    return 0 or -1 with the heap and the sections as they were, on every
    path, and leave the [Binary] as it was when they return -1. *)
Theorem symbol_tables_never_leak bfd_h bin w :
  (∃ r bin' w',
     load_symbols_bfd env bfd_h bin w = Some ((r, bin'), w') ∧
     (r = 0 ∨ r = -1) ∧ heap w' = heap w ∧
     sections bin' = sections bin ∧ (r = -1 → bin' = bin)) ∧
  (∃ r bin' w',
     load_dynsym_bfd env bfd_h bin w = Some ((r, bin'), w') ∧
     (r = 0 ∨ r = -1) ∧ heap w' = heap w ∧
     sections bin' = sections bin ∧ (r = -1 → bin' = bin)).
Proof.
  split.
  - unfold load_symbols_bfd. unfold bind at 1. unfold log at 1.
    set (w1 := mkWorld _ _ _ _ _).
    destruct (load_table_bfd_spec env (symtab_upper_bound bfd_h)
                (canonicalize_symtab bfd_h) failed_to_read_symtab
                failed_to_allocate_symtab bin w1 eq_refl eq_refl)
      as (r & syms & evs & -> & Hp).
    eexists _, _, _. split; [done|]. cbn.
    destruct Hp as [(-> & _)|(-> & -> & _)].
    + split; [by left|]. by repeat split.
    + split; [by right|]. split; [done|]. split; [done|].
      intros _. by rewrite app_nil_r, set_symbols_id.
  - unfold load_dynsym_bfd. unfold bind at 1. unfold log at 1.
    set (w1 := mkWorld _ _ _ _ _).
    destruct (load_table_bfd_spec env (dynamic_symtab_upper_bound bfd_h)
                (canonicalize_dynamic_symtab bfd_h) failed_to_read_dynsym
                failed_to_allocate_dynsym bin w1 eq_refl eq_refl)
      as (r & syms & evs & -> & Hp).
    eexists _, _, _. split; [done|]. cbn.
    destruct Hp as [(-> & _)|(-> & -> & _)].
    + split; [by left|]. by repeat split.
    + split; [by right|]. split; [done|]. split; [done|].
      intros _. by rewrite app_nil_r, set_symbols_id.
Qed.

(** What a backend leaves of the [Binary] it was given. *)
Lemma run_backend_lists backend fname pbin bin type w r bin' w' :
  owns (heap w) (sections bin) →
  run_backend env backend fname pbin bin type w = Some ((r, bin'), w') →
  (r = 0 ∨ r = -1) ∧
  (r = 0 → bin_filename bin' = fname ∧ bin_type bin' ≠ BIN_TYPE_AUTO) ∧
  (∃ syms, symbols bin' = symbols bin ++ syms ∧
           Forall (λ s, sym_type s = SYM_TYPE_FUNC) syms) ∧
  (∃ new, sec_meta <$> sections bin' = sec_meta <$> (sections bin ++ new) ∧
          Forall (λ s, sec_binary s = pbin ∧ sec_type s ≠ SEC_TYPE_NONE)
                 new).
Proof.
  intros Hown Heq.
  destruct (run_backend_cases env _ _ _ _ _ _ _ _ _ Hown Heq)
    as [(-> & Hs & Hsy & _)
       |(plan & f & fault & b0 & w0
         & (Hs0 & (syms & Hsy0 & Hfn) & Hf0 & Ht0 & Hh0 & _)
         & Hplan & Hpost)].
  - split; [by right|]. split; [done|].
    split; [exists []; by rewrite app_nil_r|].
    exists []. by rewrite app_nil_r, Hs.
  - destruct Hpost as (Hinit & Hbin & Hrest).
    assert (sections_post plan f fault b0 w0 r bin' w') as Hpost by done.
    apply sections_post_meta in Hpost as (new & Hmeta & Hpre & _).
    assert (r = 0 ∨ r = -1) as Hr.
    { destruct Hrest as (? & _ & [[-> _]|[-> _]]); auto. }
    split; [done|].
    split; [intros _; by rewrite Hbin|].
    split; [exists syms; by rewrite Hbin|].
    exists new. rewrite <- Hs0. split; [done|].
    destruct Hpre as [rest Hrest'].
    unfold plan_ok in Hplan. rewrite Hrest' in Hplan.
    apply Forall_app in Hplan as [Hplan _].
    apply Forall_fmap in Hplan.
    eapply Forall_impl; [exact Hplan|]. intros s [? ?]. done.
Qed.

(** The same for [load_binary], through the fallback. *)
Lemma load_binary_lists fname pbin bin type w r bin' w' :
  owns (heap w) (sections bin) →
  load_binary env fname pbin bin type w = Some ((r, bin'), w') →
  (r = 0 ∨ r = -1) ∧
  (r = 0 → bin_filename bin' = fname ∧ bin_type bin' ≠ BIN_TYPE_AUTO) ∧
  (∃ syms, symbols bin' = symbols bin ++ syms ∧
           Forall (λ s, sym_type s = SYM_TYPE_FUNC) syms) ∧
  (∃ new, sec_meta <$> sections bin' = sec_meta <$> (sections bin ++ new) ∧
          Forall (λ s, sec_binary s = pbin ∧ sec_type s ≠ SEC_TYPE_NONE)
                 new).
Proof.
  intros Hown Heq.
  destruct (load_binary_cases env _ _ _ _ _ _ _ _ Hown Heq)
    as [(_ & _ & HA)|[(_ & HB)|(_ & binA & wA & HA & HownA & HB)]].
  - by eapply run_backend_lists.
  - by eapply run_backend_lists.
  - destruct (run_backend_lists _ _ _ _ _ _ _ _ _ Hown HA)
      as (_ & _ & (symsA & HsA & HfA) & (newA & HmA & HnA)).
    destruct (run_backend_lists _ _ _ _ _ _ _ _ _ HownA HB)
      as (Hr & Hok & (symsB & HsB & HfB) & (newB & HmB & HnB)).
    split; [done|]. split; [done|]. split.
    + exists (symsA ++ symsB). rewrite HsB, HsA, <- app_assoc.
      split; [done|]. by apply Forall_app.
    + exists (newA ++ newB). split; [|by apply Forall_app].
      rewrite HmB, !fmap_app, HmA, !fmap_app, <- app_assoc. done.
Qed.

(** X5: the return value and the identity of a loaded [Binary].  On a
    [Binary] that owns its buffers, for a file whose sections have their
    bytes, [load_binary] returns 0 or -1, never another value; when it
    returns 0 the file name of the [Binary] is the path it was given and
    its type is ELF or PE, never AUTO. *)
Theorem load_binary_result fname pbin bin type w :
  owns (heap w) (sections bin) →
  lem_readable env fname →
  ∃ r bin' w',
    load_binary env fname pbin bin type w = Some ((r, bin'), w') ∧
    (r = 0 ∨ r = -1) ∧
    (r = 0 →
       bin_filename bin' = fname ∧
       (bin_type bin' = BIN_TYPE_ELF ∨ bin_type bin' = BIN_TYPE_PE)).
Proof.
  intros Hown Hread.
  destruct (load_binary_defined env fname pbin bin type w Hown Hread)
    as [[[r bin'] w'] Heq].
  destruct (load_binary_lists _ _ _ _ _ _ _ _ Hown Heq) as (Hr & Hok & _).
  exists r, bin', w'. split; [done|]. split; [done|].
  intros Hr0. destruct (Hok Hr0) as [Hf Ht]. split; [done|].
  destruct (bin_type bin'); [done|by left|by right].
Qed.

(** X6: for a file whose sections have their bytes, whatever the hint and
    the outcome, [load_binary] only appends to the symbols of the
    [Binary]: the symbols it had stay in front, in order, and every symbol
    added has type FUNC. *)
Theorem load_binary_appends_function_symbols fname pbin bin type w :
  owns (heap w) (sections bin) →
  lem_readable env fname →
  ∃ r bin' w' syms,
    load_binary env fname pbin bin type w = Some ((r, bin'), w') ∧
    symbols bin' = symbols bin ++ syms ∧
    Forall (λ s, sym_type s = SYM_TYPE_FUNC) syms.
Proof.
  intros Hown Hread.
  destruct (load_binary_defined env fname pbin bin type w Hown Hread)
    as [[[r bin'] w'] Heq].
  destruct (load_binary_lists _ _ _ _ _ _ _ _ Hown Heq)
    as (_ & _ & (syms & Hs & Hf) & _).
  by exists r, bin', w', syms.
Qed.

(** X7: for a file whose sections have their bytes, whatever the hint and
    the outcome, [load_binary] only appends to the sections of the
    [Binary]: the sections it had stay in front, in order, with their
    back-reference, name, type, address and size, and every section added
    points back to the [Binary] it was given and has type CODE or DATA,
    never NONE. *)
Theorem load_binary_appends_sections fname pbin bin type w :
  owns (heap w) (sections bin) →
  lem_readable env fname →
  ∃ r bin' w',
    load_binary env fname pbin bin type w = Some ((r, bin'), w') ∧
    sec_meta <$> take (length (sections bin)) (sections bin')
    = sec_meta <$> sections bin ∧
    Forall (λ s, sec_binary s = pbin ∧
                 (sec_type s = SEC_TYPE_CODE ∨ sec_type s = SEC_TYPE_DATA))
           (drop (length (sections bin)) (sections bin')).
Proof.
  intros Hown Hread.
  destruct (load_binary_defined env fname pbin bin type w Hown Hread)
    as [[[r bin'] w'] Heq].
  destruct (load_binary_lists _ _ _ _ _ _ _ _ Hown Heq)
    as (_ & _ & _ & (new & Hm & Hnew)).
  exists r, bin', w'. split; [done|].
  rewrite fmap_app in Hm. split.
  - rewrite fmap_take, Hm.
    rewrite <- (length_fmap sec_meta (sections bin)).
    by rewrite take_app_length.
  - assert (Forall (λ m : N * string * SectionType * N * N,
                      m.1.1.1.1 = pbin ∧ m.1.1.2 ≠ SEC_TYPE_NONE)
                   (sec_meta <$> drop (length (sections bin)) (sections bin')))
      as Hall.
    { rewrite fmap_drop, Hm.
      rewrite <- (length_fmap sec_meta (sections bin)).
      rewrite drop_app_length. apply Forall_fmap.
      eapply Forall_impl; [exact Hnew|]. by intros s [Hb Ht]. }
    apply Forall_fmap in Hall.
    eapply Forall_impl; [exact Hall|]. intros s [Hb Ht]. cbn in Hb, Ht.
    split; [done|]. destruct (sec_type s); [done|by left|by right].
Qed.

(** A backend that logs no section failure keeps the sections sized. *)
Lemma run_backend_sized_unless backend fname pbin bin type w r bin' w' :
  owns (heap w) (sections bin) →
  Forall (sized (heap w)) (sections bin) →
  run_backend env backend fname pbin bin type w = Some ((r, bin'), w') →
  (∀ d, is_section_failure d = true → stderr d ∉ new_events w w') →
  Forall (sized (heap w')) (sections bin').
Proof.
  intros Hown Hsized Heq Hno.
  destruct (run_backend_cases env _ _ _ _ _ _ _ _ _ Hown Heq)
    as [(_ & Hs & _ & Hh & _)
       |(plan & f & fault & b0 & w0
         & (Hs0 & _ & _ & _ & [Hh0 _] & evs0 & Ht0 & _)
         & _ & Hpost)].
  - by rewrite Hs, Hh.
  - assert (owns (heap w0) (sections b0)) as Hown0 by (by rewrite Hs0, Hh0).
    destruct (sections_post_facts _ _ _ _ _ _ _ _ Hown0 Hpost)
      as ([-> | ->] & _ & _ & _ & _ & _ & Hsucc & _).
    + apply Hsucc; [done|]. by rewrite Hs0, Hh0.
    + exfalso.
      destruct Hpost
        as (_ & _ & new & _ & [[? _]|(_ & _ & _ & (d & Hd & Ht) & _)]);
        [done|].
      apply (Hno d Hd). rewrite Ht0, <- app_assoc in Ht.
      rewrite (new_events_app _ _ _ Ht).
      apply elem_of_app. right. right. by left.
Qed.

(** X8: for a file whose sections have their bytes, unless a section
    failure is logged during the call, [load_binary] keeps every section of
    the [Binary] sized, whatever the hint and the return value: when the
    [Binary] owns its buffers and every section has a live buffer of its
    declared size before the call, every section has one after it. *)
Theorem load_binary_sized_unless_section_failure fname pbin bin type w :
  owns (heap w) (sections bin) →
  lem_readable env fname →
  Forall (sized (heap w)) (sections bin) →
  ∃ r bin' w',
    load_binary env fname pbin bin type w = Some ((r, bin'), w') ∧
    ((∀ d, is_section_failure d = true → stderr d ∉ new_events w w') →
     Forall (sized (heap w')) (sections bin')).
Proof.
  intros Hown Hread Hsized.
  destruct (load_binary_defined env fname pbin bin type w Hown Hread)
    as [[[r bin'] w'] Heq].
  exists r, bin', w'. split; [done|]. intros Hno.
  destruct (load_binary_cases env _ _ _ _ _ _ _ _ Hown Heq)
    as [(_ & _ & HA)|[(_ & HB)|(_ & binA & wA & HA & HownA & HB)]].
  - by eapply run_backend_sized_unless.
  - by eapply run_backend_sized_unless.
  - destruct (run_backend_trace _ _ _ _ _ _ _ _ _ Hown HA) as (evsA & HtA & _).
    destruct (run_backend_trace _ _ _ _ _ _ _ _ _ HownA HB)
      as (evsB & HtB & _).
    assert (trace w' = trace w ++ (call (backend_fn BackendA) :: evsA) ++
                       (call (backend_fn BackendB) :: evsB)) as Ht
      by (by rewrite HtB, HtA, <- app_assoc).
    rewrite (new_events_app _ _ _ Ht) in Hno.
    eapply (run_backend_sized_unless BackendB); [exact HownA | | exact HB |].
    + eapply (run_backend_sized_unless BackendA); [exact Hown|done|exact HA|].
      intros d Hd Hin. rewrite (new_events_app _ _ _ HtA) in Hin.
      apply (Hno d Hd). apply elem_of_app. by left.
    + intros d Hd Hin. rewrite (new_events_app _ _ _ HtB) in Hin.
      apply (Hno d Hd). apply elem_of_app. by right.
Qed.

(** X9: a file that neither library recognizes fails under every hint:
    [load_binary] returns -1 with the [Binary] and the heap as they were
    and without calling [malloc].  With hint ELF nothing is written to
    stderr and no handle is left open; with hint AUTO or PE the one
    diagnostic written is that of [open_bfd], and when [bfd_openr] had
    opened the file its handle is left open: [open_bfd] returns without
    [bfd_close]. *)
Theorem unrecognized_file_fails fname pbin bin type w :
  elf_open_object env fname = None →
  bfd_opened env fname = None →
  ∃ w',
    load_binary env fname pbin bin type w = Some ((-1, bin), w') ∧
    heap w' = heap w ∧ mallocs w' = mallocs w ∧
    match type with
    | BIN_TYPE_ELF =>
        new_events w w' = [call load_binary_lem_fn] ∧
        handles w' = handles w
    | BIN_TYPE_AUTO =>
        (∃ d, is_open_failure d = true ∧
              new_events w w' = [call load_binary_lem_fn;
                                 call load_binary_bfd_fn; call open_bfd_fn;
                                 stderr d]) ∧
        handles w' = match bfd_openr env fname with
                     | Some _ => S (handles w)
                     | None => handles w
                     end
    | BIN_TYPE_PE =>
        (∃ d, is_open_failure d = true ∧
              new_events w w' = [call load_binary_bfd_fn; call open_bfd_fn;
                                 stderr d]) ∧
        handles w' = match bfd_openr env fname with
                     | Some _ => S (handles w)
                     | None => handles w
                     end
    end.
Proof.
  intros HoA HoB.
  pose proof (load_binary_lem_not_opened env fname pbin bin w HoA) as HA.
  assert (∀ n, (n + leaked_bfd env fname)%nat
               = match bfd_openr env fname with
                 | Some _ => S n
                 | None => n
                 end) as Hleak.
  { intros n. unfold leaked_bfd. rewrite HoB.
    destruct (bfd_openr env fname); lia. }
  destruct type; unfold load_binary, bind.
  - rewrite HA. cbn [fst snd Z.eqb orb].
    destruct (load_binary_bfd_not_opened env fname pbin bin BIN_TYPE_AUTO
                (logged w [call load_binary_lem_fn]) HoB) as (d & Hd & ->).
    eexists. split; [done|]. cbn. split; [done|]. split; [done|].
    split; [|apply Hleak].
    exists d. split; [done|]. unfold new_events. cbn.
    rewrite <- app_assoc. by rewrite drop_app_length.
  - rewrite HA, orb_true_r. eexists. split; [done|]. cbn.
    split; [done|]. split; [done|]. unfold new_events. cbn.
    by rewrite drop_app_length.
  - destruct (load_binary_bfd_not_opened env fname pbin bin BIN_TYPE_PE w HoB)
      as (d & Hd & ->).
    eexists. split; [done|]. cbn. split; [done|]. split; [done|].
    split; [|apply Hleak].
    exists d. split; [done|]. unfold new_events. cbn.
    by rewrite drop_app_length.
Qed.

(** The type a backend gives to the [Binary] it loads. *)
Lemma run_backend_type backend fname pbin bin type w bin' w' :
  owns (heap w) (sections bin) →
  run_backend env backend fname pbin bin type w = Some ((0, bin'), w') →
  match backend with
  | BackendA => bin_type bin' = BIN_TYPE_ELF
  | BackendB =>
      ∃ bfd_h, bfd_opened env fname = Some bfd_h ∧
        ((xvec_flavour bfd_h = bfd_target_elf_flavour ∧
          bin_type bin' = BIN_TYPE_ELF) ∨
         (xvec_flavour bfd_h = bfd_target_coff_flavour ∧
          bin_type bin' = BIN_TYPE_PE))
  end.
Proof.
  intros Hown Heq. destruct backend; cbn [run_backend] in Heq.
  - destruct (elf_open_object env fname) as [obj|] eqn:Ho.
    2: { by rewrite load_binary_lem_not_opened in Heq. }
    destruct (arch_lem obj (header_lem fname obj bin)) as [bin1|] eqn:Ha.
    2: { by rewrite (load_binary_lem_unsupported env _ _ _ _ obj) in Heq. }
    pose proof (load_binary_lem_supported env _ _ _ _ _ _ _ _ _
                  Ho Ha Hown Heq) as (_ & Hb & _).
    rewrite Hb. cbn.
    unfold arch_lem in Ha. destruct (obj_arch obj); by simplify_eq.
  - destruct (bfd_opened env fname) as [bfd_h|] eqn:Ho.
    2: { destruct (load_binary_bfd_not_opened env fname pbin bin type w Ho)
           as (d & _ & Heq1). by rewrite Heq in Heq1. }
    exists bfd_h. split; [done|].
    destruct (type_bfd bfd_h (header_bfd fname bfd_h bin)) as [bin1|] eqn:Hty.
    2: { by rewrite (load_binary_bfd_opened env _ _ _ _ _ _ Ho), Hty in Heq. }
    destruct (arch_bfd env bfd_h bin1) as [bin2|] eqn:Ha.
    2: { by rewrite (load_binary_bfd_opened env _ _ _ _ _ _ Ho), Hty, Ha
           in Heq. }
    destruct (load_binary_bfd_supported env fname pbin bin type w bfd_h
                bin1 bin2 Ho Hty Ha Hown)
      as (r & b & w1 & r1 & r2 & syms1 & syms2 & evs1 & evs2
          & Heq1 & _ & _ & (_ & Hb & _) & _).
    rewrite Heq in Heq1. simplify_eq. rewrite Hb. cbn.
    unfold type_bfd, arch_bfd in *.
    destruct (xvec_flavour bfd_h); simplify_eq;
      destruct (mach (arch_info bfd_h) =? bfd_mach_i386_i386 env);
      simplify_eq; try (left; by split); try (right; by split);
      destruct (mach (arch_info bfd_h) =? bfd_mach_x86_64 env);
      simplify_eq; try (left; by split); try (right; by split).
Qed.

(** X10: the type of a loaded [Binary] follows the file, not the hint.
    When [load_binary] returns 0 the type is ELF, or it is PE and then
    the hint was not ELF and BFD found a COFF flavour; and with hint PE a
    file of ELF flavour is loaded, with type ELF. *)
Theorem loaded_type_follows_the_file fname pbin bin type w bin' w' :
  owns (heap w) (sections bin) →
  load_binary env fname pbin bin type w = Some ((0, bin'), w') →
  (bin_type bin' = BIN_TYPE_ELF ∨
   (bin_type bin' = BIN_TYPE_PE ∧ type ≠ BIN_TYPE_ELF ∧
    ∃ bfd_h, bfd_opened env fname = Some bfd_h ∧
             xvec_flavour bfd_h = bfd_target_coff_flavour)) ∧
  (type = BIN_TYPE_PE →
   ∃ bfd_h, bfd_opened env fname = Some bfd_h ∧
            (xvec_flavour bfd_h = bfd_target_elf_flavour →
             bin_type bin' = BIN_TYPE_ELF)).
Proof.
  intros Hown Heq.
  destruct (load_binary_cases env _ _ _ _ _ _ _ _ Hown Heq)
    as [(Hne & _ & HA)|[(-> & HB)|(-> & binA & wA & HA & HownA & HB)]].
  - apply run_backend_type in HA; [|done]. split; [by left|]. done.
  - apply run_backend_type in HB as (bfd_h & Ho & Hfl); [|done].
    split.
    + destruct Hfl as [[_ ?]|[? ?]]; [by left|]. right.
      split; [done|]. split; [done|]. by exists bfd_h.
    + intros _. exists bfd_h. split; [done|]. intros Hf.
      destruct Hfl as [[_ ?]|[Hc _]]; [done|]. by rewrite Hf in Hc.
  - apply run_backend_type in HB as (bfd_h & Ho & Hfl); [|done].
    split; [|done].
    destruct Hfl as [[_ ?]|[? ?]]; [by left|]. right.
    split; [done|]. split; [done|]. by exists bfd_h.
Qed.

(** X11: the [case bfd_target_unknown_flavour] of [load_binary_bfd] is
    never taken.  When [load_binary_bfd] writes "unsupported binary type",
    BFD has opened the file with a flavour that is neither unknown, nor
    ELF, nor COFF: an unknown flavour is stopped by [open_bfd]. *)
Theorem unsupported_type_is_another_flavour fname pbin bin type w r bin' w' :
  owns (heap w) (sections bin) →
  load_binary_bfd env fname pbin bin type w = Some ((r, bin'), w') →
  stderr unsupported_binary_type ∈ new_events w w' →
  ∃ bfd_h n,
    bfd_openr env fname = Some bfd_h ∧
    xvec_flavour bfd_h = bfd_target_other_flavour n.
Proof.
  intros Hown Heq Hin.
  destruct (bfd_opened env fname) as [bfd_h|] eqn:Ho.
  2: { destruct (load_binary_bfd_not_opened env fname pbin bin type w Ho)
         as (d & Hd & Heq1).
       rewrite Heq in Heq1. simplify_eq. exfalso.
       unfold new_events in Hin. cbn in Hin. rewrite drop_app_length in Hin.
       elem_cases Hin. by simplify_eq. }
  assert (bfd_openr env fname = Some bfd_h ∧
          xvec_flavour bfd_h ≠ bfd_target_unknown_flavour) as [Hopen Hknown].
  { unfold bfd_opened in Ho.
    destruct (bfd_openr env fname) as [h|]; [|done].
    destruct (check_format_object h); [|done].
    destruct (xvec_flavour h) eqn:Hf; simplify_eq; by rewrite Hf. }
  destruct (type_bfd bfd_h (header_bfd fname bfd_h bin)) as [bin1|] eqn:Hty.
  2: { unfold type_bfd in Hty.
       destruct (xvec_flavour bfd_h) as [| | |n] eqn:Hf; try done.
       by exists bfd_h, n. }
  exfalso.
  destruct (arch_bfd env bfd_h bin1) as [bin2|] eqn:Ha.
  2: { rewrite (load_binary_bfd_opened env _ _ _ _ _ _ Ho), Hty, Ha in Heq.
       simplify_eq. unfold new_events in Hin. cbn in Hin.
       rewrite drop_app_length in Hin. elem_cases Hin. }
  destruct (load_binary_bfd_supported env fname pbin bin type w bfd_h
              bin1 bin2 Ho Hty Ha Hown)
    as (r1 & b & w1 & rt1 & rt2 & syms1 & syms2 & evs1 & evs2
        & Heq1 & Hp1 & Hp2 & Hpost & _).
  rewrite Heq in Heq1. simplify_eq.
  destruct (type_arch_bfd_lists env _ _ _ _ _ Hty Ha) as [Hsecs _].
  apply sections_post_facts in Hpost
    as (_ & _ & _ & _ & _ & (evs3 & Ht & Hevs & _) & _).
  2: { cbn. by rewrite Hsecs. }
  cbn in Ht. rewrite <- app_assoc in Ht.
  rewrite (new_events_app _ _ _ Ht) in Hin.
  assert (∀ k n canon rt syms evs,
            table_post env k n canon rt syms evs →
            stderr unsupported_binary_type ∉ evs) as Htab.
  { intros k n canon rt syms evs
      [(_ & -> & _)|(_ & _ & (d & -> & Hd) & _)] Hin';
      elem_cases Hin'. by simplify_eq. }
  apply elem_of_app in Hin as [Hin|Hin].
  - do 3 (apply elem_of_cons in Hin as [Hin|Hin]; [done|]).
    apply elem_of_app in Hin as [Hin|Hin];
      [exact (Htab _ _ _ _ _ _ Hp1 Hin)|].
    apply elem_of_cons in Hin as [Hin|Hin]; [done|].
    exact (Htab _ _ _ _ _ _ Hp2 Hin).
  - apply elem_of_cons in Hin as [Hin|Hin]; [done|].
    eapply Forall_forall in Hevs; [|done].
    destruct Hevs as (d & Hd & Hsf). by simplify_eq.
Qed.

(** X12: when libelfmaster opens the file, the object has section
    headers and the sections Backend A keeps have their bytes, a load
    through Backend A returns, and when it returns 0 it has appended
    exactly one section for every section the iterator yielded that is not
    SHT_NOBITS and is executable or allocated, in file order, with the
    section's name (or the placeholder), address and size, and a live
    buffer that holds the first [size] bytes of the section's data. *)
Theorem load_binary_lem_copies_the_sections fname pbin bin w obj :
  elf_open_object env fname = Some obj →
  has_flag (obj_flags obj) (ELF_SHDRS_F env) = true →
  readable_lem env obj →
  owns (heap w) (sections bin) →
  ∃ r bin' w',
    load_binary_lem env fname pbin bin w = Some ((r, bin'), w') ∧
    (r = 0 →
     ∃ new, sections bin' = sections bin ++ new ∧
            Forall2 (copied_lem (heap w')) new
              (filter (kept_lem env) (yielded (obj_sections obj)))).
Proof.
  intros Ho Hsh Hread Hown.
  destruct (load_binary_lem_defined env fname pbin bin w Hown)
    as [[[r bin'] w'] Heq].
  { unfold lem_readable. by rewrite Ho. }
  exists r, bin', w'. split; [done|]. intros ->.
  by eapply load_binary_lem_copied.
Qed.

(** X13: When BFD opens the file, a load through Backend B that returns 0
    has appended one section for every BFD section flagged SEC_CODE or
    SEC_DATA, in file order, with BFD's name (or the placeholder), address
    and size; the contents of each of them could be read, and its live
    buffer of that size holds the first bytes of them, as many as the
    size, when there are that many. *)
Theorem load_binary_bfd_copies_the_sections fname pbin bin type w bfd_h :
  bfd_opened env fname = Some bfd_h →
  owns (heap w) (sections bin) →
  ∃ r bin' w',
    load_binary_bfd env fname pbin bin type w = Some ((r, bin'), w') ∧
    (r = 0 →
     ∃ new, sections bin' = sections bin ++ new ∧
            Forall2 (copied_bfd (heap w')) new
              (filter (kept_bfd env) (bfd_sections bfd_h))).
Proof.
  intros Ho Hown.
  destruct (type_bfd bfd_h (header_bfd fname bfd_h bin)) as [bin1|] eqn:Hty.
  2: { rewrite (load_binary_bfd_opened env _ _ _ _ _ _ Ho), Hty.
       eexists (-1), _, _. split; [done|]. done. }
  destruct (arch_bfd env bfd_h bin1) as [bin2|] eqn:Ha.
  2: { rewrite (load_binary_bfd_opened env _ _ _ _ _ _ Ho), Hty, Ha.
       eexists (-1), _, _. split; [done|]. done. }
  destruct (load_binary_bfd_supported env fname pbin bin type w bfd_h
              bin1 bin2 Ho Hty Ha Hown)
    as (r & bin' & w' & r1 & r2 & syms1 & syms2 & evs1 & evs2
        & Heq & _ & _ & _ & Hcp).
  by exists r, bin', w'.
Qed.

End Further.

(** The sample object loads through Backend A. *)
Example load_sample_auto :
  load_binary (Sample.environment Sample.always (Some Sample.obj)
                 (Some Sample.bfd_elf))
    "a.out" 77%N Binary_new BIN_TYPE_AUTO World_new =
  Some ((0,
         mkBinary "a.out" BIN_TYPE_ELF "unknown" ARCH_X86 "X86_64" 64 4096%N
           [mkSection 77%N ".text" SEC_TYPE_CODE 4096%N 2%N 1%N;
            mkSection 77%N ".data" SEC_TYPE_DATA 8192%N 1%N 2%N]
           [mkSymbol SYM_TYPE_FUNC "main" 4096%N;
            mkSymbol SYM_TYPE_FUNC "main" 4096%N]),
        mkWorld (<[1%N := [x90; xc3]]> (<[2%N := [x01]]> ∅)) 2 false 0
          [call load_binary_lem_fn; call load_symbols_lem_fn;
           call load_dynsym_lem_fn; call load_sections_lem_fn]).
Proof. vm_compute. reflexivity. Qed.

(** The sample object loads through Backend B with hint PE. *)
Example load_sample_pe :
  load_binary (Sample.environment Sample.always (Some Sample.obj)
                 (Some Sample.bfd_elf))
    "a.out" 77%N Binary_new BIN_TYPE_PE World_new =
  Some ((0,
         mkBinary "a.out" BIN_TYPE_ELF "elf64-x86-64" ARCH_X86 "i386:x86-64"
           64 4096%N
           [mkSection 77%N ".text" SEC_TYPE_CODE 4096%N 2%N 1%N;
            mkSection 77%N ".data" SEC_TYPE_DATA 8192%N 1%N 2%N]
           [mkSymbol SYM_TYPE_FUNC "main" 4096%N]),
        mkWorld (<[1%N := [x90; xc3]]> (<[2%N := [x01]]> ∅)) 3 true 0
          [call load_binary_bfd_fn; call open_bfd_fn;
           call load_symbols_bfd_fn; call load_dynsym_bfd_fn;
           call load_sections_bfd_fn]).
Proof. vm_compute. reflexivity. Qed.

(** ** The loader on the sample files *)

(** C2 at a failing input: hint AUTO, Backend A allocates the buffer of
    [.text], fails to allocate the buffer of [.data] and rolls back, and
    Backend B then loads the file.  The load returns 0 and the first
    section of the returned [Binary] is the one Backend A left, with a
    null [bytes]; the function symbols of Backend A are still there, before
    the one of Backend B. *)
Theorem auto_fallback_returns_null_section :
  ∃ bin' w',
    load_binary (Sample.environment (Sample.all_but 1) (Some Sample.obj)
                   (Some Sample.bfd_elf))
      "a.out" 77%N Binary_new BIN_TYPE_AUTO World_new = Some ((0, bin'), w') ∧
    sections bin' =
      [mkSection 77%N ".text" SEC_TYPE_CODE 4096%N 2%N NULL;
       mkSection 77%N ".text" SEC_TYPE_CODE 4096%N 2%N 1%N;
       mkSection 77%N ".data" SEC_TYPE_DATA 8192%N 1%N 2%N] ∧
    ¬ Forall (sized (heap w')) (sections bin') ∧
    length (symbols bin') = 3%nat.
Proof.
  eexists _, _. split; [vm_compute; reflexivity|].
  split; [reflexivity|]. split; [|reflexivity].
  intros Hall. apply Forall_cons in Hall as [[Hnn _] _]. by apply Hnn.
Qed.

(** With hint ELF the same failure is reported, and the [Binary] the
    caller passed has been written to. *)
Example failed_load_has_written :
  ∃ bin' w',
    load_binary (Sample.environment (Sample.all_but 1) (Some Sample.obj)
                   (Some Sample.bfd_elf))
      "a.out" 77%N Binary_new BIN_TYPE_ELF World_new = Some ((-1, bin'), w') ∧
    bin_filename bin' = "a.out" ∧ length (symbols bin') = 2%nat ∧
    sections bin' = [mkSection 77%N ".text" SEC_TYPE_CODE 4096%N 2%N NULL] ∧
    heap w' = ∅.
Proof. eexists _, _. split; [vm_compute; reflexivity|]. done. Qed.

(** C5, as stated, fails: the symbol-table iterator of
    [Sample.obj_symtab_error] answers [ELF_ITER_ERROR] at its second call,
    and [load_symbols_lem] has by then appended the function symbol of the
    first entry, which stays in the [Binary] of the successful load. *)
Lemma symtab_error_keeps_symbols :
  obj_symtab Sample.obj_symtab_error !! 1%nat = Some ELF_ITER_ERROR ∧
  load_symbols_lem (Sample.environment Sample.always None None)
    Sample.obj_symtab_error Binary_new World_new =
  Some ((0, set_symbols [mkSymbol SYM_TYPE_FUNC "main" 4096%N] Binary_new),
        logged World_new [call load_symbols_lem_fn]) ∧
  ∃ bin' w',
    load_binary (Sample.environment Sample.always
                   (Some Sample.obj_symtab_error) None)
      "a.out" 77%N Binary_new BIN_TYPE_ELF World_new = Some ((0, bin'), w') ∧
    symbols bin' = [mkSymbol SYM_TYPE_FUNC "main" 4096%N;
                    mkSymbol SYM_TYPE_FUNC "main" 4096%N].
Proof.
  split; [reflexivity|]. split; [vm_compute; reflexivity|].
  eexists _, _. split; [vm_compute; reflexivity|]. reflexivity.
Qed.

(** C6 at a failing input: the section [Sample.bstub] is flagged as code
    and has no contents in the file, [load_sections_bfd] materializes it,
    and the load of the file returns 0 with that section in the
    [Binary]. *)
Theorem bfd_materializes_section_without_contents :
  has_flag (bs_flags Sample.bstub)
    (SEC_HAS_CONTENTS (Sample.environment Sample.always None None)) = false ∧
  bfd_sections Sample.bfd_stub = [Sample.bstub] ∧
  load_sections_bfd (Sample.environment Sample.always None None) 77%N
    Sample.bfd_stub Binary_new World_new =
  Some ((0, set_sections
              [mkSection 77%N ".stub" SEC_TYPE_CODE 12288%N 2%N 1%N]
              Binary_new),
        mkWorld (<[1%N := [x00; x00]]> ∅) 1 false 0
          [call load_sections_bfd_fn]) ∧
  ∃ bin' w',
    load_binary (Sample.environment Sample.always None (Some Sample.bfd_stub))
      "a.out" 77%N Binary_new BIN_TYPE_AUTO World_new = Some ((0, bin'), w') ∧
    sections bin' = [mkSection 77%N ".stub" SEC_TYPE_CODE 12288%N 2%N 1%N].
Proof.
  split; [reflexivity|]. split; [reflexivity|].
  split; [vm_compute; reflexivity|].
  eexists _, _. split; [vm_compute; reflexivity|]. reflexivity.
Qed.

(** C4 at a failing input: an ELF object for the CPU32, an m68k machine
    whose machine number is that of [bfd_mach_x86_64].  With hint AUTO
    Backend A rejects the machine, and Backend B then loads the file: the
    load returns 0 and the [Binary] says X86, 64 bits, with the sections
    and the machine name of the m68k file.  Backend B alone writes no
    "unsupported architecture" on this file.  Backend A, which looks at the
    architecture itself, rejects an object of another machine, and so does
    Backend B when the machine number is not one of its two. *)
Theorem bfd_loads_m68k_as_x86 :
  arch (arch_info Sample.bfd_m68k) = bfd_arch_m68k ∧
  mach (arch_info Sample.bfd_m68k)
  = bfd_mach_x86_64 (Sample.environment Sample.always None None) ∧
  (∃ bin' w',
     load_binary
       (Sample.environment Sample.always (Some Sample.obj_other_machine)
          (Some Sample.bfd_m68k))
       "a.out" 77%N Binary_new BIN_TYPE_AUTO World_new = Some ((0, bin'), w') ∧
     bin_arch bin' = ARCH_X86 ∧ bin_bits bin' = 64 ∧
     bin_arch_str bin' = "m68k:cpu32" ∧
     length (sections bin') = 1%nat) ∧
  (∃ bin' w',
     load_binary_bfd
       (Sample.environment Sample.always None (Some Sample.bfd_m68k))
       "a.out" 77%N Binary_new BIN_TYPE_AUTO World_new = Some ((0, bin'), w') ∧
     arch_ok bin' ∧
     stderr unsupported_architecture ∉ new_events World_new w') ∧
  (∃ bin' w',
     load_binary_lem
       (Sample.environment Sample.always (Some Sample.obj_other_machine) None)
       "a.out" 77%N Binary_new World_new = Some ((-1, bin'), w') ∧
     last (new_events World_new w') = Some (stderr unsupported_architecture) ∧
     sections bin' = [] ∧ symbols bin' = []) ∧
  (∃ bin' w',
     load_binary_bfd
       (Sample.environment Sample.always None (Some Sample.bfd_other_machine))
       "a.out" 77%N Binary_new BIN_TYPE_PE World_new = Some ((-1, bin'), w') ∧
     last (new_events World_new w') = Some (stderr unsupported_architecture) ∧
     sections bin' = [] ∧ symbols bin' = []).
Proof.
  split; [reflexivity|]. split; [reflexivity|]. split; [|split; [|split]].
  - eexists _, _. split; [vm_compute; reflexivity|]. by repeat split.
  - eexists _, _. split; [vm_compute; reflexivity|].
    split; [split; [reflexivity | by right]|].
    unfold new_events. cbn. intros Hin. elem_cases Hin.
  - eexists _, _. split; [vm_compute; reflexivity|]. by repeat split.
  - eexists _, _. split; [vm_compute; reflexivity|]. by repeat split.
Qed.

(** The theorems above at the sample files. *)

Lemma load_binary_dispatch_witness :
  owns (heap World_new) (sections Binary_new) ∧
  lem_readable (Sample.environment (Sample.all_but 1) (Some Sample.obj)
                  (Some Sample.bfd_elf)) "a.out" ∧
  ∃ r bin' w',
    load_binary (Sample.environment (Sample.all_but 1) (Some Sample.obj)
                   (Some Sample.bfd_elf))
      "a.out" 77%N Binary_new BIN_TYPE_ELF World_new = Some ((r, bin'), w') ∧
    ¬ invoked load_binary_bfd_fn World_new w'.
Proof.
  assert (lem_readable (Sample.environment (Sample.all_but 1)
                          (Some Sample.obj) (Some Sample.bfd_elf)) "a.out")
    as Hread.
  { apply (bool_decide_unpack _). vm_compute. exact I. }
  split; [apply owns_nil|]. split; [exact Hread|].
  destruct (load_binary_dispatch
              (Sample.environment (Sample.all_but 1) (Some Sample.obj)
                 (Some Sample.bfd_elf))
              "a.out" 77%N Binary_new BIN_TYPE_ELF World_new)
    as (r & bin' & w' & Heq & _ & _ & Hno).
  - apply owns_nil.
  - exact Hread.
  - exists r, bin', w'. split; [exact Heq | exact Hno].
Defined.


Lemma symbols_are_best_effort_witness :
  owns (heap World_new) (sections Binary_new) ∧
  ∃ bin' w',
    load_binary_lem
      (Sample.environment Sample.always (Some Sample.obj_symtab_error)
         (Some Sample.bfd_elf))
      "a.out" 77%N Binary_new World_new = Some ((0, bin'), w') ∧
    symbols bin' = [mkSymbol SYM_TYPE_FUNC "main" 4096%N;
                    mkSymbol SYM_TYPE_FUNC "main" 4096%N].
Proof.
  split; [apply owns_nil|].
  destruct (symbols_are_best_effort
              (Sample.environment Sample.always
                 (Some Sample.obj_symtab_error) (Some Sample.bfd_elf))
              "a.out" 77%N Binary_new BIN_TYPE_AUTO World_new)
    as [HA _].
  - apply owns_nil.
  - destruct (HA Sample.obj_symtab_error) as (r & bin' & w' & Heq & Hsyms & _).
    + reflexivity.
    + discriminate.
    + apply (bool_decide_unpack _). vm_compute. exact I.
    + exists bin', w'. split; [|exact Hsyms].
      rewrite Heq. vm_compute in Heq. by simplify_eq.
Defined.

Lemma unload_binary_idempotent_witness :
  owns (heap Sample.loaded_world) (sections Sample.loaded) ∧
  ∃ bin' w',
    unload_binary Sample.loaded Sample.loaded_world = Some (bin', w') ∧
    sections bin' = clear_bytes <$> sections Sample.loaded ∧
    heap w' = delete_all (live_ptrs (sections Sample.loaded))
                (heap Sample.loaded_world) ∧
    Forall (λ s, sec_bytes s = NULL) (sections bin') ∧
    unload_binary bin' w' = Some (bin', w').
Proof.
  assert (owns (heap Sample.loaded_world) (sections Sample.loaded)) as Hown.
  { apply (bool_decide_unpack _). vm_compute. exact I. }
  split; [exact Hown|].
  apply (unload_binary_idempotent Sample.loaded Sample.loaded_world Hown).
Defined.

Lemma unload_binary_frame_witness :
  owns (heap Sample.loaded_world) (sections Sample.loaded) ∧
  ∃ bin' w',
    unload_binary Sample.loaded Sample.loaded_world = Some (bin', w') ∧
    symbols bin' = symbols Sample.loaded ∧
    sec_meta <$> sections bin' = sec_meta <$> sections Sample.loaded.
Proof.
  assert (owns (heap Sample.loaded_world) (sections Sample.loaded)) as Hown.
  { apply (bool_decide_unpack _). vm_compute. exact I. }
  split; [exact Hown|].
  destruct (unload_binary_frame Sample.loaded Sample.loaded_world Hown)
    as (bin' & w' & Heq & _ & _ & _ & _ & _ & _ & _ & Hsyms & _ & Hmeta & _).
  exists bin', w'. split; [exact Heq|]. split; [exact Hsyms | exact Hmeta].
Defined.


Lemma no_section_headers_no_sections_witness :
  ∃ bin' w',
    load_binary (Sample.environment Sample.always (Some Sample.obj_no_shdrs)
                   None)
      "a.out" 77%N Binary_new BIN_TYPE_AUTO World_new = Some ((0, bin'), w') ∧
    sections bin' = [].
Proof.
  destruct (no_section_headers_no_sections
              (Sample.environment Sample.always (Some Sample.obj_no_shdrs)
                 None)
              "a.out" 77%N Binary_new BIN_TYPE_AUTO World_new
              Sample.obj_no_shdrs)
    as (_ & bin' & w' & Heq & _ & Hnew & _).
  - reflexivity.
  - discriminate.
  - reflexivity.
  - discriminate.
  - exists bin', w'. split; [exact Heq | exact (Hnew eq_refl)].
Defined.

Lemma load_binary_keeps_foreign_heap_witness :
  owns (heap Sample.loaded_world) (sections Sample.loaded) ∧
  ∃ r bin' w',
    load_binary (Sample.environment Sample.always (Some Sample.obj)
                   (Some Sample.bfd_elf))
      "a.out" 77%N Sample.loaded BIN_TYPE_AUTO Sample.loaded_world
    = Some ((r, bin'), w') ∧
    owns (heap w') (sections bin') ∧
    (∀ p, p ∉ live_ptrs (sections Sample.loaded) →
          p ∉ live_ptrs (sections bin') →
          heap w' !! p = heap Sample.loaded_world !! p) ∧
    (invoked load_binary_bfd_fn Sample.loaded_world w' →
     handles w' =
       (handles Sample.loaded_world
        + leaked_bfd (Sample.environment Sample.always (Some Sample.obj)
                        (Some Sample.bfd_elf)) "a.out")%nat) ∧
    (¬ invoked load_binary_bfd_fn Sample.loaded_world w' →
     handles w' = handles Sample.loaded_world).
Proof.
  assert (owns (heap Sample.loaded_world) (sections Sample.loaded)) as Hown.
  { apply (bool_decide_unpack _). vm_compute. exact I. }
  split; [exact Hown|].
  apply (load_binary_keeps_foreign_heap
           (Sample.environment Sample.always (Some Sample.obj)
              (Some Sample.bfd_elf))
           "a.out" 77%N Sample.loaded BIN_TYPE_AUTO Sample.loaded_world Hown).
  apply (bool_decide_unpack _). vm_compute. exact I.
Defined.

Lemma load_then_unload_witness :
  owns (heap World_new) (sections Binary_new) ∧
  ∃ r bin' w' bin'' w'',
    load_binary (Sample.environment (Sample.all_but 1) (Some Sample.obj)
                   (Some Sample.bfd_elf))
      "a.out" 77%N Binary_new BIN_TYPE_AUTO World_new
    = Some ((r, bin'), w') ∧
    unload_binary bin' w' = Some (bin'', w'') ∧
    heap w'' = heap World_new.
Proof.
  split; [apply owns_nil|].
  destruct (load_then_unload
              (Sample.environment (Sample.all_but 1) (Some Sample.obj)
                 (Some Sample.bfd_elf))
              "a.out" 77%N Binary_new BIN_TYPE_AUTO World_new)
    as (r & bin' & w' & bin'' & w'' & Hl & Hu & _ & _ & Hsame & _).
  - apply owns_nil.
  - apply (bool_decide_unpack _). vm_compute. exact I.
  - exists r, bin', w', bin'', w''.
    split; [exact Hl|]. split; [exact Hu | exact (Hsame eq_refl)].
Defined.

Lemma load_binary_result_witness :
  owns (heap World_new) (sections Binary_new) ∧
  ∃ r bin' w',
    load_binary (Sample.environment Sample.always None (Some Sample.bfd_elf))
      "a.out" 77%N Binary_new BIN_TYPE_AUTO World_new
    = Some ((r, bin'), w') ∧
    (r = 0 ∨ r = -1) ∧
    (r = 0 →
       bin_filename bin' = "a.out" ∧
       (bin_type bin' = BIN_TYPE_ELF ∨ bin_type bin' = BIN_TYPE_PE)).
Proof.
  split; [apply owns_nil|].
  apply (load_binary_result
           (Sample.environment Sample.always None (Some Sample.bfd_elf))
           "a.out" 77%N Binary_new BIN_TYPE_AUTO World_new).
  - apply owns_nil.
  - exact I.
Defined.

Lemma load_binary_appends_function_symbols_witness :
  owns (heap Sample.loaded_world) (sections Sample.loaded) ∧
  ∃ r bin' w' syms,
    load_binary (Sample.environment Sample.always (Some Sample.obj) None)
      "a.out" 77%N Sample.loaded BIN_TYPE_ELF Sample.loaded_world
    = Some ((r, bin'), w') ∧
    symbols bin' = symbols Sample.loaded ++ syms ∧
    Forall (λ s, sym_type s = SYM_TYPE_FUNC) syms.
Proof.
  assert (owns (heap Sample.loaded_world) (sections Sample.loaded)) as Hown.
  { apply (bool_decide_unpack _). vm_compute. exact I. }
  split; [exact Hown|].
  apply (load_binary_appends_function_symbols
           (Sample.environment Sample.always (Some Sample.obj) None)
           "a.out" 77%N Sample.loaded BIN_TYPE_ELF Sample.loaded_world Hown).
  apply (bool_decide_unpack _). vm_compute. exact I.
Defined.

Lemma load_binary_appends_sections_witness :
  owns (heap Sample.loaded_world) (sections Sample.loaded) ∧
  ∃ r bin' w',
    load_binary (Sample.environment (Sample.all_but 3) (Some Sample.obj)
                   (Some Sample.bfd_elf))
      "a.out" 77%N Sample.loaded BIN_TYPE_AUTO Sample.loaded_world
    = Some ((r, bin'), w') ∧
    sec_meta <$> take (length (sections Sample.loaded)) (sections bin')
    = sec_meta <$> sections Sample.loaded ∧
    Forall (λ s, sec_binary s = 77%N ∧
                 (sec_type s = SEC_TYPE_CODE ∨ sec_type s = SEC_TYPE_DATA))
           (drop (length (sections Sample.loaded)) (sections bin')).
Proof.
  assert (owns (heap Sample.loaded_world) (sections Sample.loaded)) as Hown.
  { apply (bool_decide_unpack _). vm_compute. exact I. }
  split; [exact Hown|].
  apply (load_binary_appends_sections
           (Sample.environment (Sample.all_but 3) (Some Sample.obj)
              (Some Sample.bfd_elf))
           "a.out" 77%N Sample.loaded BIN_TYPE_AUTO Sample.loaded_world Hown).
  apply (bool_decide_unpack _). vm_compute. exact I.
Defined.

Lemma load_binary_sized_unless_section_failure_witness :
  owns (heap Sample.loaded_world) (sections Sample.loaded) ∧
  Forall (sized (heap Sample.loaded_world)) (sections Sample.loaded) ∧
  ∃ r bin' w',
    load_binary (Sample.environment Sample.always (Some Sample.obj)
                   (Some Sample.bfd_elf))
      "a.out" 77%N Sample.loaded BIN_TYPE_ELF Sample.loaded_world
    = Some ((r, bin'), w') ∧
    ((∀ d, is_section_failure d = true →
           stderr d ∉ new_events Sample.loaded_world w') →
     Forall (sized (heap w')) (sections bin')).
Proof.
  assert (owns (heap Sample.loaded_world) (sections Sample.loaded)) as Hown.
  { apply (bool_decide_unpack _). vm_compute. exact I. }
  assert (Forall (sized (heap Sample.loaded_world)) (sections Sample.loaded))
    as Hsized.
  { unfold Sample.loaded. cbn [sections].
    constructor; [|constructor; [|constructor]];
      (split; [done|]); eexists;
      (split; [vm_compute; reflexivity | reflexivity]). }
  split; [exact Hown|]. split; [exact Hsized|].
  apply (load_binary_sized_unless_section_failure
           (Sample.environment Sample.always (Some Sample.obj)
              (Some Sample.bfd_elf))
           "a.out" 77%N Sample.loaded BIN_TYPE_ELF Sample.loaded_world
           Hown); [|exact Hsized].
  apply (bool_decide_unpack _). vm_compute. exact I.
Defined.

Lemma unrecognized_file_fails_witness :
  ∃ w',
    load_binary (Sample.environment Sample.always None
                   (Some Sample.bfd_text_file))
      "notes.txt" 77%N Sample.loaded BIN_TYPE_AUTO Sample.loaded_world
    = Some ((-1, Sample.loaded), w') ∧
    heap w' = heap Sample.loaded_world ∧
    mallocs w' = mallocs Sample.loaded_world ∧
    handles w' = S (handles Sample.loaded_world).
Proof.
  destruct (unrecognized_file_fails
              (Sample.environment Sample.always None
                 (Some Sample.bfd_text_file))
              "notes.txt" 77%N Sample.loaded BIN_TYPE_AUTO Sample.loaded_world
              eq_refl eq_refl)
    as (w' & Heq & Hh & Hm & _ & Hhd).
  exists w'. split; [exact Heq|]. split; [exact Hh|].
  split; [exact Hm | exact Hhd].
Defined.

Lemma loaded_type_follows_the_file_witness :
  owns (heap World_new) (sections Binary_new) ∧
  ∃ bin' w',
    load_binary (Sample.environment Sample.always None (Some Sample.bfd_elf))
      "a.out" 77%N Binary_new BIN_TYPE_PE World_new
    = Some ((0, bin'), w') ∧
    bin_type bin' = BIN_TYPE_ELF.
Proof.
  split; [apply owns_nil|].
  eassert (load_binary
             (Sample.environment Sample.always None (Some Sample.bfd_elf))
             "a.out" 77%N Binary_new BIN_TYPE_PE World_new
           = Some ((0, _), _)) as Heq.
  { vm_compute. reflexivity. }
  destruct (loaded_type_follows_the_file
              (Sample.environment Sample.always None (Some Sample.bfd_elf))
              "a.out" 77%N Binary_new BIN_TYPE_PE World_new _ _
              (owns_nil _) Heq) as [_ Hpe].
  destruct (Hpe eq_refl) as (bfd_h & Ho & Helf).
  eexists _, _. split; [exact Heq|].
  vm_compute in Ho. injection Ho as <-. exact (Helf eq_refl).
Defined.

Lemma unsupported_type_is_another_flavour_witness :
  owns (heap World_new) (sections Binary_new) ∧
  ∃ r bin' w',
    load_binary_bfd
      (Sample.environment Sample.always None (Some sample_bfd_aout))
      "a.out" 77%N Binary_new BIN_TYPE_AUTO World_new
    = Some ((r, bin'), w') ∧
    stderr unsupported_binary_type ∈ new_events World_new w' ∧
    ∃ bfd_h n,
      bfd_openr (Sample.environment Sample.always None (Some sample_bfd_aout))
        "a.out" = Some bfd_h ∧
      xvec_flavour bfd_h = bfd_target_other_flavour n.
Proof.
  split; [apply owns_nil|].
  eassert (load_binary_bfd
             (Sample.environment Sample.always None (Some sample_bfd_aout))
             "a.out" 77%N Binary_new BIN_TYPE_AUTO World_new
           = Some ((_, _), _)) as Heq.
  { vm_compute. reflexivity. }
  eexists _, _, _. split; [exact Heq|].
  assert (stderr unsupported_binary_type
          ∈ new_events World_new
              (mkWorld ∅ 0 true 0
                 [call load_binary_bfd_fn; call open_bfd_fn;
                  stderr unsupported_binary_type])) as Hin.
  { unfold new_events. cbn. repeat constructor. }
  split; [exact Hin|].
  exact (unsupported_type_is_another_flavour
           (Sample.environment Sample.always None (Some sample_bfd_aout))
           "a.out" 77%N Binary_new BIN_TYPE_AUTO World_new _ _ _
           (owns_nil _) Heq Hin).
Defined.

Lemma load_binary_lem_copies_the_sections_witness :
  owns (heap World_new) (sections Binary_new) ∧
  readable_lem (Sample.environment Sample.always (Some Sample.obj) None)
    Sample.obj ∧
  ∃ r bin' w',
    load_binary_lem
      (Sample.environment Sample.always (Some Sample.obj) None)
      "a.out" 77%N Binary_new World_new
    = Some ((r, bin'), w') ∧
    (r = 0 →
     ∃ new, sections bin' = sections Binary_new ++ new ∧
            Forall2 (copied_lem (heap w')) new
              (filter
                 (kept_lem
                    (Sample.environment Sample.always (Some Sample.obj) None))
                 (yielded (obj_sections Sample.obj)))).
Proof.
  assert (readable_lem
            (Sample.environment Sample.always (Some Sample.obj) None)
            Sample.obj) as Hread.
  { apply (bool_decide_unpack _). vm_compute. exact I. }
  split; [apply owns_nil|]. split; [exact Hread|].
  apply (load_binary_lem_copies_the_sections
           (Sample.environment Sample.always (Some Sample.obj) None)
           "a.out" 77%N Binary_new World_new Sample.obj eq_refl eq_refl
           Hread).
  apply owns_nil.
Defined.

Lemma load_binary_bfd_copies_the_sections_witness :
  owns (heap World_new) (sections Binary_new) ∧
  ∃ r bin' w',
    load_binary_bfd
      (Sample.environment Sample.always None (Some Sample.bfd_elf))
      "a.out" 77%N Binary_new BIN_TYPE_PE World_new
    = Some ((r, bin'), w') ∧
    (r = 0 →
     ∃ new, sections bin' = sections Binary_new ++ new ∧
            Forall2 (copied_bfd (heap w')) new
              (filter
                 (kept_bfd
                    (Sample.environment Sample.always None
                       (Some Sample.bfd_elf)))
                 (bfd_sections Sample.bfd_elf))).
Proof.
  split; [apply owns_nil|].
  apply (load_binary_bfd_copies_the_sections
           (Sample.environment Sample.always None (Some Sample.bfd_elf))
           "a.out" 77%N Binary_new BIN_TYPE_PE World_new Sample.bfd_elf
           eq_refl).
  apply owns_nil.
Defined.
